(** * Analytics pipeline of the SaaS analytics dashboard

    A shallow embedding of the CSV ingestion helpers ([lib/csv/parser] and
    the row validator [lib/csv/validation]), of the anomaly detector
    ([lib/analytics/anomaly-detection]), of the chart queries and the
    compute-and-persist aggregation path ([lib/analytics/aggregation]), of
    the upsert of [lib/db/queries], and of the two server actions that
    drive them ([uploadCSVAction], [detectAnomaliesAction]), followed by
    the properties stated about them.

    Conventions.
    - JavaScript strings are [string]s holding the UTF-8 bytes of the text.
      The white space class is ECMAScript's; the case mapping is the ASCII
      one: none of the literals the code compares against contains a letter
      that a non-ASCII character lowers to, so the comparisons agree with
      the Unicode ones.
    - The built-ins [Number(..)], [isNaN] and [Date] parsing belong to the
      JavaScript engine, not to the repository: the CSV functions are
      written over a [Runtime] interface, and every theorem about them
      holds for every runtime.  [RefRuntime] is one concrete runtime, used
      to run the functions on examples.
    - A valid [Date] is its time value, in milliseconds since the epoch.
    - The anomaly detector comes twice.  [Detector] has its numbers as the
      IEEE 754 doubles they are at run time: arithmetic rounds, a quotient
      by zero is an infinity or [NaN], and a comparison with [NaN] fails;
      [Math.sqrt] and [Math.pow] belong to the engine and are an [Engine]
      interface, with the correctly rounded ones as reference.  What the
      passes flag, with which bounds and severities, and what is written
      is stated there.  [Anomaly] has the same functions over the real
      numbers ([R]), without rounding: it carries the properties that do
      not turn on it, the merge by timestamp, the order of the quartiles,
      and the sign and monotony of what the severity is computed from.
    - SQL [NUMERIC]s in the aggregator are exact, and taken as reals.
    - Tables of the store are lists of rows, threaded through the functions
      that insert into them; columns the database fills in by itself
      ([id], [created_at], [computed_at], [processed_at]) are left out.
    - The actions take what their environment decides as arguments: the
      membership found for the caller, the outcome of [Papa.parse], the
      clock, the identifier given to a new file, and the database's verdict
      on a row it is asked to insert.  The database is reachable: an
      insert fails only where the database refuses the row, and a refused
      insert raises, which ends the loop it is in. *)

From Stdlib Require Import String Ascii List ZArith QArith Reals Lra Lia Bool.
From Stdlib Require Import Permutation DecimalString Sorted.
From Stdlib Require Floats.
From stdpp Require Import gmap strings.
Import ListNotations.

Local Open Scope string_scope.
Local Open Scope list_scope.

(* ================================================================== *)
(** * JavaScript string primitives *)
(* ================================================================== *)

Module JS.

Definition isUpper (c : ascii) : bool :=
  let n := nat_of_ascii c in Nat.leb 65 n && Nat.leb n 90.

Definition lowerChar (c : ascii) : ascii :=
  if isUpper c then ascii_of_nat (nat_of_ascii c + 32) else c.

(** [s.toLowerCase()] *)
Fixpoint toLowerCase (s : string) : string :=
  match s with
  | EmptyString => EmptyString
  | String c s' => String (lowerChar c) (toLowerCase s')
  end.

(** The white space [trim] strips is ECMAScript's [WhiteSpace] and
    [LineTerminator]: TAB, LF, VT, FF, CR and SP, which are one byte long,
    and the code points beyond ASCII, given here by their UTF-8 bytes. *)
Definition isWhiteSpace (c : ascii) : bool :=
  let n := nat_of_ascii c in
  (Nat.leb 9 n && Nat.leb n 13) || Nat.eqb n 32.

(** U+00A0 (no-break space) *)
Definition isWhiteSpace2 (c1 c2 : ascii) : bool :=
  Nat.eqb (nat_of_ascii c1) 194 && Nat.eqb (nat_of_ascii c2) 160.

(** U+1680, U+2000 to U+200A, U+2028, U+2029, U+202F, U+205F, U+3000 and
    U+FEFF *)
Definition isWhiteSpace3 (c1 c2 c3 : ascii) : bool :=
  let n1 := nat_of_ascii c1 in
  let n2 := nat_of_ascii c2 in
  let n3 := nat_of_ascii c3 in
  (Nat.eqb n1 225 && Nat.eqb n2 154 && Nat.eqb n3 128)
  || (Nat.eqb n1 226 && Nat.eqb n2 128
      && ((Nat.leb 128 n3 && Nat.leb n3 138) || Nat.eqb n3 168 || Nat.eqb n3 169
          || Nat.eqb n3 175))
  || (Nat.eqb n1 226 && Nat.eqb n2 129 && Nat.eqb n3 159)
  || (Nat.eqb n1 227 && Nat.eqb n2 128 && Nat.eqb n3 128)
  || (Nat.eqb n1 239 && Nat.eqb n2 187 && Nat.eqb n3 191).

(** Drops the leading characters that one of three tests recognises, on
    one, two or three bytes. *)
Fixpoint dropLeading (one : ascii -> bool) (two : ascii -> ascii -> bool)
    (three : ascii -> ascii -> ascii -> bool) (s : string) : string :=
  match s with
  | EmptyString => EmptyString
  | String c1 s1 =>
      if one c1 then dropLeading one two three s1
      else
        match s1 with
        | EmptyString => s
        | String c2 s2 =>
            if two c1 c2 then dropLeading one two three s2
            else
              match s2 with
              | EmptyString => s
              | String c3 s3 =>
                  if three c1 c2 c3 then dropLeading one two three s3 else s
              end
        end
  end.

Definition reverse (s : string) : string :=
  string_of_list_ascii (List.rev (list_ascii_of_string s)).

Definition trimStart (s : string) : string :=
  dropLeading isWhiteSpace isWhiteSpace2 isWhiteSpace3 s.

(** The trailing white space is the leading white space of the reversed
    text, its bytes read backwards. *)
Definition trimEnd (s : string) : string :=
  reverse (dropLeading isWhiteSpace (fun c2 c1 => isWhiteSpace2 c1 c2)
             (fun c3 c2 c1 => isWhiteSpace3 c1 c2 c3) (reverse s)).

(** [s.trim()] *)
Definition trim (s : string) : string := trimEnd (trimStart s).

(** [s.includes(p)] *)
Fixpoint includes (s p : string) : bool :=
  String.prefix p s ||
  match s with
  | EmptyString => false
  | String _ s' => includes s' p
  end.

(** [xs.includes(x)] on an array of strings *)
Definition arrayIncludes (xs : list string) (x : string) : bool :=
  existsb (String.eqb x) xs.

(** [xs.join(sep)] *)
Fixpoint join (sep : string) (xs : list string) : string :=
  match xs with
  | [] => ""
  | [x] => x
  | x :: rest => x ++ sep ++ join sep rest
  end.

(** Decimal rendering of a natural number, as in a template literal. *)
Definition ofNat (n : nat) : string := NilEmpty.string_of_uint (Nat.to_uint n).

(** The regular expressions of the code are sequences of [\d] and literal
    characters, anchored at the start and possibly at the end. *)
Inductive RxItem := Digit | Lit (c : ascii).

Definition isDigit (c : ascii) : bool :=
  let n := nat_of_ascii c in Nat.leb 48 n && Nat.leb n 57.

Fixpoint matchItems (p : list RxItem) (s : string) : option string :=
  match p with
  | [] => Some s
  | i :: p' =>
      match s with
      | EmptyString => None
      | String c s' =>
          let ok := match i with Digit => isDigit c | Lit d => Ascii.eqb c d end in
          if ok then matchItems p' s' else None
      end
  end.

Record RegExp := { items : list RxItem; anchoredEnd : bool }.

(** [pattern.test(s)] *)
Definition test (pattern : RegExp) (s : string) : bool :=
  match matchItems (items pattern) s with
  | Some rest => if anchoredEnd pattern then String.eqb rest "" else true
  | None => false
  end.

(** What the code asks of the engine: [Number(s)] on a string, [isNaN],
    and the time value of [new Date(s)] ([None] for an invalid date,
    whose [getTime()] is [NaN]). *)
Class Runtime := {
  number : Type;
  isNaN : number -> bool;
  Number : string -> number;
  Date_parse : string -> option Z
}.

End JS.

Export JS.

(* ================================================================== *)
(** * CSV cells and rows *)
(* ================================================================== *)

(** A cell of a parsed row.  The reader is run with [header: true] and
    [dynamicTyping: false], so a cell is a string; [null] and [undefined]
    are kept because the code tests for them (a missing key reads as
    [undefined]). *)
Inductive Cell := CNull | CUndefined | CString (s : string).

(** [row[column]] on a [Record<string, any>] *)
Definition getCell (row : gmap string Cell) (column : string) : Cell :=
  match row !! column with
  | Some c => c
  | None => CUndefined
  end.

(** [value === null || value === undefined || value === ''] *)
Definition isBlank (value : Cell) : bool :=
  match value with
  | CNull | CUndefined => true
  | CString s => String.eqb s ""
  end.

(** [String(value)] *)
Definition ToString (value : Cell) : string :=
  match value with
  | CNull => "null"
  | CUndefined => "undefined"
  | CString s => s
  end.

(* ================================================================== *)
(** * Schema inference and normalisation ([lib/csv/parser]) *)
(* ================================================================== *)

(** [/^\d{4}-\d{2}-\d{2}$/], [/^\d{2}\/\d{2}\/\d{4}$/] and
    [/^\d{4}-\d{2}-\d{2}T\d{2}:\d{2}:\d{2}/] *)
Definition datePatterns : list RegExp :=
  let d := Digit in
  [ {| items := [d; d; d; d; Lit "-"; d; d; Lit "-"; d; d]; anchoredEnd := true |};
    {| items := [d; d; Lit "/"; d; d; Lit "/"; d; d; d; d]; anchoredEnd := true |};
    {| items := [d; d; d; d; Lit "-"; d; d; Lit "-"; d; d; Lit "T";
                 d; d; Lit ":"; d; d; Lit ":"; d; d]; anchoredEnd := false |} ].

(** The value [normalizeValue] returns: [null], a number, a [Date] (given by
    its time value, always a valid one), a boolean or a string. *)
Inductive Normalized `{Runtime} :=
| NNull
| NNumber (x : number)
| NDate (time : Z)
| NBoolean (b : bool)
| NString (s : string).

Section CsvParser.
Context `{Runtime}.

Definition inferDataType (value : Cell) : string :=
  if isBlank value then "string"
  else
    let str := trim (ToString value) in
    if negb (isNaN (Number str)) && negb (String.eqb str "") then
      if includes str "." then "number" else "integer"
    else if existsb (fun pattern => test pattern str) datePatterns
            && match Date_parse str with Some _ => true | None => false end
    then "timestamp"
    else if String.eqb (toLowerCase str) "true" || String.eqb (toLowerCase str) "false"
    then "boolean"
    else "string".

(** [now] is the clock reading that [new Date()] returns. *)
Definition normalizeValue (now : Z) (value : Cell) (type : string) : Normalized :=
  if isBlank value then NNull
  else if String.eqb type "number" || String.eqb type "integer" then
    let num := Number (ToString value) in
    if isNaN num then NNull else NNumber num
  else if String.eqb type "timestamp" then
    match Date_parse (ToString value) with
    | None => NDate now
    | Some time => NDate time
    end
  else if String.eqb type "boolean" then
    let str := toLowerCase (ToString value) in
    NBoolean (String.eqb str "true" || String.eqb str "1" || String.eqb str "yes")
  else NString (ToString value).

End CsvParser.

(* ================================================================== *)
(** * Field mapping ([detectEventMapping]) *)
(* ================================================================== *)

Record AnalyticsEventMapping := {
  eventTypeColumn : option string;
  timestampColumn : option string;
  metricValueColumn : option string;
  dimensionColumns : list string
}.

Definition timestampPatterns : list string :=
  ["timestamp"; "time"; "date"; "created"; "occurred"; "event_time"].
Definition typePatterns : list string :=
  ["type"; "event_type"; "event"; "action"; "category"].
Definition valuePatterns : list string :=
  ["value"; "amount"; "count"; "metric"; "score"; "revenue"; "total"].

(** [!mapping.someColumn]: the property is missing or the empty string. *)
Definition unset (column : option string) : bool :=
  match column with
  | None => true
  | Some c => String.eqb c ""
  end.

(** [schema[column] === type] *)
Definition schemaIs (schema : gmap string string) (column type : string) : bool :=
  match schema !! column with
  | Some t => String.eqb t type
  | None => false
  end.

(** [patterns.some((p) => lowerColumn.includes(p))] *)
Definition somePattern (patterns : list string) (lowerColumn : string) : bool :=
  existsb (fun p => includes lowerColumn p) patterns.

(** One iteration of the loop over the columns. *)
Definition mapColumn (schema : gmap string string)
    (mapping : AnalyticsEventMapping) (column : string) : AnalyticsEventMapping :=
  let lowerColumn := toLowerCase column in
  if unset (timestampColumn mapping) && schemaIs schema column "timestamp"
     && somePattern timestampPatterns lowerColumn
  then {| eventTypeColumn := eventTypeColumn mapping;
          timestampColumn := Some column;
          metricValueColumn := metricValueColumn mapping;
          dimensionColumns := dimensionColumns mapping |}
  else if unset (eventTypeColumn mapping) && schemaIs schema column "string"
          && somePattern typePatterns lowerColumn
  then {| eventTypeColumn := Some column;
          timestampColumn := timestampColumn mapping;
          metricValueColumn := metricValueColumn mapping;
          dimensionColumns := dimensionColumns mapping |}
  else if unset (metricValueColumn mapping)
          && (schemaIs schema column "number" || schemaIs schema column "integer")
          && somePattern valuePatterns lowerColumn
  then {| eventTypeColumn := eventTypeColumn mapping;
          timestampColumn := timestampColumn mapping;
          metricValueColumn := Some column;
          dimensionColumns := dimensionColumns mapping |}
  else {| eventTypeColumn := eventTypeColumn mapping;
          timestampColumn := timestampColumn mapping;
          metricValueColumn := metricValueColumn mapping;
          dimensionColumns := dimensionColumns mapping ++ [column] |}.

Definition emptyMapping : AnalyticsEventMapping :=
  {| eventTypeColumn := None; timestampColumn := None;
     metricValueColumn := None; dimensionColumns := [] |}.

(** The fallback for the timestamp role: the first column typed
    [timestamp], whatever its name, taken out of the dimensions. *)
Definition timestampFallback (columns : list string) (schema : gmap string string)
    (mapping : AnalyticsEventMapping) : AnalyticsEventMapping :=
  if unset (timestampColumn mapping) then
    match List.filter (fun c => schemaIs schema c "timestamp") columns with
    | first :: _ =>
        {| eventTypeColumn := eventTypeColumn mapping;
           timestampColumn := Some first;
           metricValueColumn := metricValueColumn mapping;
           dimensionColumns :=
             List.filter (fun c => negb (String.eqb c first)) (dimensionColumns mapping) |}
    | [] => mapping
    end
  else mapping.

Definition default_event : string := "default_event".

Definition eventTypeFallback (mapping : AnalyticsEventMapping) : AnalyticsEventMapping :=
  if unset (eventTypeColumn mapping) then
    {| eventTypeColumn := Some default_event;
       timestampColumn := timestampColumn mapping;
       metricValueColumn := metricValueColumn mapping;
       dimensionColumns := dimensionColumns mapping |}
  else mapping.

Definition detectEventMapping (columns : list string) (schema : gmap string string)
    : AnalyticsEventMapping :=
  eventTypeFallback
    (timestampFallback columns schema
       (fold_left (mapColumn schema) columns emptyMapping)).

(** The columns named by the three roles, in the order timestamp, event
    type, metric value. *)
Definition optList (column : option string) : list string :=
  match column with
  | Some c => [c]
  | None => []
  end.

Definition roleColumns (mapping : AnalyticsEventMapping) : list string :=
  optList (timestampColumn mapping) ++ optList (eventTypeColumn mapping)
  ++ optList (metricValueColumn mapping).

(** The role values that are columns of the input (the literal
    [default_event] names no column unless the file has one called so). *)
Definition realRoleColumns (columns : list string) (mapping : AnalyticsEventMapping)
    : list string :=
  List.filter (fun c => arrayIncludes columns c) (roleColumns mapping).

(* ================================================================== *)
(** * Row validation ([lib/csv/validation]) *)
(* ================================================================== *)

(** A validation issue: the path of the field, joined with ['.'], and the
    message. *)
Record Issue := { path : string; issueMessage : string }.

Record ValidationError := { row : nat; field : string; message : string }.

Record Summary := { totalRows : nat; validRowCount : nat; invalidRowCount : nat }.

Section CsvValidation.
Context `{Runtime}.

(** The payload of a row that passed: [z.infer<typeof csvRowSchema>]. *)
Record ValidatedCSVRow := {
  v_timestamp : string;
  v_event_type : string;
  v_value : number
}.

(** The original row with the validated data and the three source
    columns ([_validated], [_timestampCol], [_eventTypeCol], [_valueCol]). *)
Record ValidRow := {
  original : gmap string Cell;
  _validated : ValidatedCSVRow;
  _timestampCol : string;
  _eventTypeCol : string;
  _valueCol : string
}.

Record ValidationResult := {
  valid : bool;
  validRows : list ValidRow;
  errors : list ValidationError;
  summary : Summary
}.

(** The issue of [z.string()] on a value that is no string. *)
Definition notAString (field : string) (value : Cell) : Issue :=
  {| path := field;
     issueMessage := match value with
                     | CUndefined => "Required"
                     | _ => "Expected string, received null"
                     end |}.

(** [timestamp]: a string that [new Date] parses. *)
Definition checkTimestamp (value : Cell) : string + Issue :=
  match value with
  | CString val =>
      match Date_parse val with
      | Some _ => inl val
      | None =>
          inr {| path := "timestamp";
                 issueMessage :=
                   "Invalid timestamp format. Expected ISO string or parseable date." |}
      end
  | _ => inr (notAString "timestamp" value)
  end.

(** [event_type]: a string of length at least 1. *)
Definition checkEventType (value : Cell) : string + Issue :=
  match value with
  | CString val =>
      if Nat.leb 1 (String.length val) then inl val
      else inr {| path := "event_type"; issueMessage := "event_type is required" |}
  | _ => inr (notAString "event_type" value)
  end.

(** [value]: a number, or a string that [Number] reads; transformed with
    [Number].  A cell is never a number, so only the string branch of the
    union can succeed; when no branch accepts the type, the union reports
    ["Invalid input"]. *)
Definition checkValue (value : Cell) : number + Issue :=
  match value with
  | CString val =>
      if negb (isNaN (Number val)) then inl (Number val)
      else inr {| path := "value"; issueMessage := "value must be a valid number" |}
  | _ => inr {| path := "value"; issueMessage := "Invalid input" |}
  end.

Definition issueOf {A : Type} (r : A + Issue) : list Issue :=
  match r with
  | inl _ => []
  | inr i => [i]
  end.

(** [csvRowSchema.safeParse(normalizedRow)]: the data, or the issues of the
    failing fields in the order of the schema's keys. *)
Definition csvRowSchema_safeParse (timestamp event_type value : Cell)
    : ValidatedCSVRow + list Issue :=
  match checkTimestamp timestamp, checkEventType event_type, checkValue value with
  | inl t, inl e, inl v => inl {| v_timestamp := t; v_event_type := e; v_value := v |}
  | rt, re, rv => inr (issueOf rt ++ issueOf re ++ issueOf rv)
  end.

Definition timestampAliases : list string :=
  ["timestamp"; "time"; "date"; "created_at"; "event_time"].
Definition eventTypeAliases : list string :=
  ["event_type"; "type"; "event"; "action"].
Definition valueAliases : list string :=
  ["value"; "amount"; "count"; "metric"; "metric_value"].

(** [columns.find((c) => aliases.includes(c.toLowerCase()))] *)
Definition findColumn (aliases : list string) (columns : list string) : option string :=
  List.find (fun c => arrayIncludes aliases (toLowerCase c)) columns.

Definition missingColumns (timestampCol eventTypeCol valueCol : option string)
    : list string :=
  (if unset timestampCol then ["timestamp"] else [])
  ++ (if unset eventTypeCol then ["event_type"] else [])
  ++ (if unset valueCol then ["value"] else []).

(** [err.path.join('.') || 'unknown'] *)
Definition fieldOf (i : Issue) : string :=
  if String.eqb (path i) "" then "unknown" else path i.

(** The loop over the rows; [i] is the index of the first row of [data],
    the accumulators are the arrays [validRows] and [errors]. *)
Fixpoint validateEach (timestampCol eventTypeCol valueCol : string)
    (data : list (gmap string Cell)) (i : nat)
    (validAcc : list ValidRow) (errorAcc : list ValidationError)
    : list ValidRow * list ValidationError :=
  match data with
  | [] => (validAcc, errorAcc)
  | r :: rest =>
      let rowNumber := i + 2 in
      match csvRowSchema_safeParse (getCell r timestampCol) (getCell r eventTypeCol)
              (getCell r valueCol) with
      | inl data' =>
          validateEach timestampCol eventTypeCol valueCol rest (S i)
            (validAcc ++ [ {| original := r; _validated := data';
                              _timestampCol := timestampCol;
                              _eventTypeCol := eventTypeCol;
                              _valueCol := valueCol |} ])
            errorAcc
      | inr issues =>
          validateEach timestampCol eventTypeCol valueCol rest (S i) validAcc
            (errorAcc ++ map (fun err => {| row := rowNumber; field := fieldOf err;
                                            message := issueMessage err |}) issues)
      end
  end.

Definition schemaError (missing : list string) : ValidationError :=
  {| row := 0;
     field := "schema";
     message := "Missing required columns: " ++ join ", " missing ++ ". "
                ++ "Expected: timestamp (or time/date), event_type (or type/event), value (or amount/metric)." |}.

(** [col!] used as a property key: the key of [undefined] is the string
    ["undefined"] (not reached, the schema check returns first). *)
Definition asKey (column : option string) : string :=
  match column with
  | Some c => c
  | None => "undefined"
  end.

Definition validateCSVData (data : list (gmap string Cell)) (columns : list string)
    : ValidationResult :=
  let timestampCol := findColumn timestampAliases columns in
  let eventTypeCol := findColumn eventTypeAliases columns in
  let valueCol := findColumn valueAliases columns in
  let missing := missingColumns timestampCol eventTypeCol valueCol in
  if Nat.ltb 0 (List.length missing) then
    {| valid := false;
       validRows := [];
       errors := [schemaError missing];
       summary := {| totalRows := List.length data; validRowCount := 0;
                     invalidRowCount := List.length data |} |}
  else
    let '(validRows, errors) :=
      validateEach (asKey timestampCol) (asKey eventTypeCol) (asKey valueCol)
        data 0 [] [] in
    let displayErrors :=
      if Nat.ltb 10 (List.length errors) then
        firstn 10 errors
        ++ [ {| row := 0; field := "summary";
                message := "... and " ++ ofNat (List.length errors - 10)
                           ++ " more validation errors" |} ]
      else firstn 10 errors in
    {| valid := Nat.eqb (List.length errors) 0;
       validRows := validRows;
       errors := displayErrors;
       summary := {| totalRows := List.length data;
                     validRowCount := List.length validRows;
                     invalidRowCount := List.length data - List.length validRows |} |}.

(** What [validateCSVData] returns at the schema level. *)
Definition schemaFailure (data : list (gmap string Cell)) (missing : list string)
    : ValidationResult :=
  {| valid := false;
     validRows := [];
     errors := [schemaError missing];
     summary := {| totalRows := List.length data; validRowCount := 0;
                   invalidRowCount := List.length data |} |}.

End CsvValidation.

(* ================================================================== *)
(** * A reference runtime *)
(* ================================================================== *)

(** One engine for running the CSV functions: [Number] follows the
    grammar of numeric strings of ECMAScript (white space, sign, decimal
    digits with fraction and exponent, [Infinity], and the [0x], [0o], [0b]
    integers) with exact rational values; [Date] parsing accepts the ISO
    forms [YYYY-MM-DD] and [YYYY-MM-DDTHH:mm:ss], the latter with optional
    milliseconds and [Z], read in UTC.  ECMAScript leaves every other date
    string to the engine; this one rejects them. *)
Module RefRuntime.

Inductive RefNumber := NaN | Infinity (negative : bool) | Finite (q : Q).

Definition refIsNaN (x : RefNumber) : bool :=
  match x with NaN => true | _ => false end.

Definition digitValue (base : Z) (c : ascii) : option Z :=
  let n := Z.of_nat (nat_of_ascii c) in
  let v := if (48 <=? n)%Z && (n <=? 57)%Z then (n - 48)%Z
           else if (97 <=? n)%Z && (n <=? 102)%Z then (n - 87)%Z
           else if (65 <=? n)%Z && (n <=? 70)%Z then (n - 55)%Z
           else 99%Z in
  if (v <? base)%Z then Some v else None.

(** The longest prefix of digits of the base: its value, its length and
    the rest of the string. *)
Fixpoint readDigits (base : Z) (s : string) (acc : Z) (len : nat) : Z * nat * string :=
  match s with
  | EmptyString => (acc, len, s)
  | String c s' =>
      match digitValue base c with
      | Some v => readDigits base s' (acc * base + v)%Z (S len)
      | None => (acc, len, s)
      end
  end.

Definition pow10 (e : Z) : Q :=
  if (0 <=? e)%Z then inject_Z (10 ^ e) else Qmake 1 (Z.to_pos (10 ^ (- e))).

(** [ExponentPart], when present; [None] when it is malformed. *)
Definition readExponent (s : string) : option (Z * string) :=
  match s with
  | String c s' =>
      if Ascii.eqb c "e" || Ascii.eqb c "E" then
        let '(negative, s'') :=
          match s' with
          | String "+" t => (false, t)
          | String "-" t => (true, t)
          | _ => (false, s')
          end in
        let '(e, len, rest) := readDigits 10 s'' 0 0 in
        if Nat.eqb len 0 then None
        else Some (if negative then (- e)%Z else e, rest)
      else Some (0%Z, s)
  | EmptyString => Some (0%Z, s)
  end.

(** [StrUnsignedDecimalLiteral], the whole string. *)
Definition readUnsigned (s : string) : option RefNumber :=
  if String.eqb s "Infinity" then Some (Infinity false)
  else
    let '(int, intLen, afterInt) := readDigits 10 s 0 0 in
    let '(frac, fracLen, afterFrac, dot) :=
      match afterInt with
      | String "." t => let '(f, l, r) := readDigits 10 t 0 0 in (f, l, r, true)
      | _ => (0%Z, 0, afterInt, false)
      end in
    if Nat.eqb intLen 0 && Nat.eqb fracLen 0 then None
    else
      match readExponent afterFrac with
      | Some (e, EmptyString) =>
          let scale := (10 ^ Z.of_nat fracLen)%Z in
          Some (Finite (Qred (Qmult (Qmake (int * scale + frac) (Z.to_pos scale))
                                    (pow10 e))))
      | _ => None
      end.

Definition negate (x : RefNumber) : RefNumber :=
  match x with
  | NaN => NaN
  | Infinity n => Infinity (negb n)
  | Finite q => Finite (Qopp q)
  end.

Definition readPrefixed (base : Z) (s : string) : RefNumber :=
  let '(v, len, rest) := readDigits base s 0 0 in
  if negb (Nat.eqb len 0) && String.eqb rest "" then Finite (inject_Z v) else NaN.

(** [Number(s)] *)
Definition refNumber (s : string) : RefNumber :=
  match trim s with
  | EmptyString => Finite 0
  | String "0" (String "x" t) | String "0" (String "X" t) => readPrefixed 16 t
  | String "0" (String "o" t) | String "0" (String "O" t) => readPrefixed 8 t
  | String "0" (String "b" t) | String "0" (String "B" t) => readPrefixed 2 t
  | String "+" t => match readUnsigned t with Some x => x | None => NaN end
  | String "-" t => match readUnsigned t with Some x => negate x | None => NaN end
  | t => match readUnsigned t with Some x => x | None => NaN end
  end.

(** Reads exactly [n] decimal digits. *)
Fixpoint fixedDigits (n : nat) (s : string) (acc : Z) : option (Z * string) :=
  match n with
  | O => Some (acc, s)
  | S n' =>
      match s with
      | String c s' =>
          match digitValue 10 c with
          | Some v => fixedDigits n' s' (acc * 10 + v)%Z
          | None => None
          end
      | EmptyString => None
      end
  end.

Definition expect (c : ascii) (s : string) : option string :=
  match s with
  | String d s' => if Ascii.eqb c d then Some s' else None
  | EmptyString => None
  end.

Definition isLeap (y : Z) : bool :=
  ((y mod 4 =? 0) && negb (y mod 100 =? 0) || (y mod 400 =? 0))%Z.

Definition daysInMonth (y m : Z) : Z :=
  if (m =? 2)%Z then (if isLeap y then 29 else 28)%Z
  else if ((m =? 4) || (m =? 6) || (m =? 9) || (m =? 11))%Z then 30%Z
  else 31%Z.

(** Days from 1970-01-01 to the given civil date. *)
Definition daysFromCivil (y m d : Z) : Z :=
  let y' := (if m <=? 2 then y - 1 else y)%Z in
  let era := (y' / 400)%Z in
  let yoe := (y' - era * 400)%Z in
  let doy := ((153 * (if 2 <? m then m - 3 else m + 9) + 2) / 5 + d - 1)%Z in
  let doe := (yoe * 365 + yoe / 4 - yoe / 100 + doy)%Z in
  (era * 146097 + doe - 719468)%Z.

Definition bind {A B : Type} (o : option A) (f : A -> option B) : option B :=
  match o with Some a => f a | None => None end.

Definition readTime (s : string) : option Z :=
  bind (expect "T" s) (fun s =>
  bind (fixedDigits 2 s 0) (fun '(h, s) =>
  bind (expect ":" s) (fun s =>
  bind (fixedDigits 2 s 0) (fun '(mi, s) =>
  bind (expect ":" s) (fun s =>
  bind (fixedDigits 2 s 0) (fun '(sec, s) =>
  bind (match s with
        | String "." t => fixedDigits 3 t 0
        | _ => Some (0%Z, s)
        end) (fun '(ms, s) =>
  if ((h <=? 23) && (mi <=? 59) && (sec <=? 59))%Z
     && (String.eqb s "" || String.eqb s "Z")
  then Some (((h * 60 + mi) * 60 + sec) * 1000 + ms)%Z
  else None))))))).

(** The time value of [new Date(s)], in milliseconds since the epoch. *)
Definition refDateParse (s : string) : option Z :=
  bind (fixedDigits 4 s 0) (fun '(y, s) =>
  bind (expect "-" s) (fun s =>
  bind (fixedDigits 2 s 0) (fun '(m, s) =>
  bind (expect "-" s) (fun s =>
  bind (fixedDigits 2 s 0) (fun '(d, s) =>
  if ((1 <=? m) && (m <=? 12) && (1 <=? d) && (d <=? daysInMonth y m))%Z then
    let day := (daysFromCivil y m d * 86400000)%Z in
    match s with
    | EmptyString => Some day
    | _ => bind (readTime s) (fun t => Some (day + t)%Z)
    end
  else None))))).

#[global] Instance runtime : Runtime :=
  {| number := RefNumber; isNaN := refIsNaN;
     Number := refNumber; Date_parse := refDateParse |}.

End RefRuntime.

(* ================================================================== *)
(** * Arrays and maps of the engine used by the analytics code *)
(* ================================================================== *)

(** Boolean comparisons of numbers, idealised as reals. *)
Module Num.
Definition ltb (x y : R) : bool := if Rlt_dec x y then true else false.
Definition gtb (x y : R) : bool := if Rgt_dec x y then true else false.
Definition geb (x y : R) : bool := if Rge_dec x y then true else false.
Definition eqb (x y : R) : bool := if Req_dec_T x y then true else false.

(** [[...values].sort((a, b) => a - b)]: the ascending arrangement. *)
Fixpoint insert (x : R) (sorted : list R) : list R :=
  match sorted with
  | [] => [x]
  | y :: rest => if Rle_dec x y then x :: sorted else y :: insert x rest
  end.

Definition sort (values : list R) : list R := fold_right insert [] values.
End Num.

(** The statistics the specification names, written as in a textbook. *)
Module Textbook.
Local Open Scope R_scope.

Definition total (values : list R) : R := fold_right Rplus 0 values.

Definition average (values : list R) : R := total values / INR (List.length values).

Definition squaredDeviations (values : list R) : R :=
  total (map (fun x => (x - average values) ^ 2) values).

(** Population standard deviation: the variance divides by [N]. *)
Definition populationStddev (values : list R) : R :=
  sqrt (squaredDeviations values / INR (List.length values)).

(** Sample standard deviation: the variance divides by [N - 1]. *)
Definition sampleStddev (values : list R) : R :=
  sqrt (squaredDeviations values / (INR (List.length values) - 1)).

End Textbook.

(** A [Map] keeps its entries in the order in which their keys were first
    inserted; setting an existing key replaces the value in place. *)
Section JSMap.
Context {K V : Type} (sameKey : K -> K -> bool).

Fixpoint mapSet (m : list (K * V)) (k : K) (v : V) : list (K * V) :=
  match m with
  | [] => [(k, v)]
  | (k', v') :: m' =>
      if sameKey k k' then (k, v) :: m' else (k', v') :: mapSet m' k v
  end.

(** [new Map(entries)] *)
Definition newMap (entries : list (K * V)) : list (K * V) :=
  fold_left (fun m e => mapSet m (fst e) (snd e)) entries [].

(** [Array.from(m.values())] *)
Definition mapValues (m : list (K * V)) : list V := map snd m.
(** The value of the last entry with the key, if any. *)
Fixpoint lastWith (k : K) (entries : list (K * V)) : option V :=
  match entries with
  | [] => None
  | (k1, v1) :: rest =>
      match lastWith k rest with
      | Some v => Some v
      | None => if sameKey k k1 then Some v1 else None
      end
  end.

End JSMap.

(* ================================================================== *)
(** * Anomaly detection ([lib/analytics/anomaly-detection]) *)
(* ================================================================== *)

Module Anomaly.

Local Open Scope R_scope.

(** A [Date] of a data point is a valid one, given by its time value in
    milliseconds ([aggregateMetrics] builds it from a bucket start). *)
Record TimeSeriesDataPoint := {
  timestamp : Z;
  value : R;
  count : Z
}.

Record AnomalyDetectionConfig := {
  sensitivityLevel : R;
  minDataPoints : R;
  stddevThreshold : R
}.

(** [envSensitivity] is [parseInt(process.env.ANOMALY_DETECTION_SENSITIVITY || '3')]. *)
Definition DEFAULT_CONFIG (envSensitivity : R) : AnomalyDetectionConfig :=
  {| sensitivityLevel := envSensitivity; minDataPoints := 10; stddevThreshold := 2.5 |}.

Inductive AnomalyType := spike | drop | outlier.
Inductive AnomalySeverity := low | medium | high | critical.

Record Statistics := {
  mean : R;
  stddev : R;
  median : R;
  q1 : R;
  q3 : R;
  iqr : R
}.

Definition calculateStatistics (values : list R) : Statistics :=
  match values with
  | [] => {| mean := 0; stddev := 0; median := 0; q1 := 0; q3 := 0; iqr := 0 |}
  | _ =>
      let sorted := Num.sort values in
      let n := List.length sorted in
      let mean := fold_left (fun sum val => sum + val) values 0 / INR n in
      let variance :=
        fold_left (fun sum val => sum + (val - mean) ^ 2) values 0 / INR n in
      let stddev := sqrt variance in
      let median :=
        if Nat.eqb (n mod 2) 0
        then (nth (n / 2 - 1) sorted 0 + nth (n / 2) sorted 0) / 2
        else nth (n / 2) sorted 0 in
      let q1Index := (n / 4)%nat in
      let q3Index := (3 * n / 4)%nat in
      let q1 := nth q1Index sorted 0 in
      let q3 := nth q3Index sorted 0 in
      {| mean := mean; stddev := stddev; median := median;
         q1 := q1; q3 := q3; iqr := q3 - q1 |}
  end.

Definition getSeverity (deviationPercentage sensitivityLevel : R) : AnomalySeverity :=
  let adjustedThreshold := 100 / sensitivityLevel in
  if Num.geb deviationPercentage (adjustedThreshold * 3) then critical
  else if Num.geb deviationPercentage (adjustedThreshold * 2) then high
  else if Num.geb deviationPercentage adjustedThreshold then medium
  else low.

(** An entry of the arrays the two passes return. *)
Record Finding := {
  dataPoint : TimeSeriesDataPoint;
  anomalyType : AnomalyType;
  severity : AnomalySeverity;
  expectedValue : R;
  deviationPercentage : R
}.

(** The body of the loop of [detectOutliers] for one point. *)
Definition checkOutlier (config : AnomalyDetectionConfig) (stats : Statistics)
    (upperBound lowerBound : R) (point : TimeSeriesDataPoint) : list Finding :=
  let value := value point in
  if Num.gtb value upperBound then
    let deviationPercentage := ((value - mean stats) / mean stats) * 100 in
    let severity := getSeverity deviationPercentage (sensitivityLevel config) in
    [ {| dataPoint := point; anomalyType := spike; severity := severity;
         expectedValue := mean stats;
         deviationPercentage := Rabs deviationPercentage |} ]
  else if Num.ltb value lowerBound && Num.gtb lowerBound 0 then
    let deviationPercentage := ((mean stats - value) / mean stats) * 100 in
    let severity := getSeverity deviationPercentage (sensitivityLevel config) in
    [ {| dataPoint := point; anomalyType := drop; severity := severity;
         expectedValue := mean stats;
         deviationPercentage := Rabs deviationPercentage |} ]
  else [].

Definition detectOutliers (data : list TimeSeriesDataPoint)
    (config : AnomalyDetectionConfig) : list Finding :=
  if Num.ltb (INR (List.length data)) (minDataPoints config) then []
  else
    let values := map value data in
    let stats := calculateStatistics values in
    if Num.eqb (stddev stats) 0 then []
    else
      let upperBound := mean stats + stddevThreshold config * stddev stats in
      let lowerBound := mean stats - stddevThreshold config * stddev stats in
      flat_map (checkOutlier config stats upperBound lowerBound) data.

(** The body of the loop of [detectTrendAnomalies] at one index:
    [prev2], [prev1] and [point] are [data[i - 2]], [data[i - 1]] and
    [data[i]]. *)
Definition checkTrend (config : AnomalyDetectionConfig)
    (prev2 prev1 point : TimeSeriesDataPoint) : list Finding :=
  let current := value point in
  let avgPrev := (value prev1 + value prev2) / 2 in
  if Num.eqb avgPrev 0 then []
  else
    let changePercentage := ((current - avgPrev) / avgPrev) * 100 in
    let threshold := 50 / sensitivityLevel config in
    if Num.gtb (Rabs changePercentage) threshold then
      [ {| dataPoint := point;
           anomalyType := if Num.gtb changePercentage 0 then spike else drop;
           severity := getSeverity (Rabs changePercentage) (sensitivityLevel config);
           expectedValue := avgPrev;
           deviationPercentage := Rabs changePercentage |} ]
    else [].

(** The loop from index 2 on, as a window sliding over the array. *)
Fixpoint trendLoop (config : AnomalyDetectionConfig) (data : list TimeSeriesDataPoint)
    : list Finding :=
  match data with
  | prev2 :: rest =>
      match rest with
      | prev1 :: point :: _ => checkTrend config prev2 prev1 point ++ trendLoop config rest
      | _ => []
      end
  | [] => []
  end.

Definition detectTrendAnomalies (data : list TimeSeriesDataPoint)
    (config : AnomalyDetectionConfig) : list Finding :=
  if Num.ltb (INR (List.length data)) (minDataPoints config + 2) then []
  else trendLoop config data.

(** [a.dataPoint.timestamp.toISOString()]: the ISO rendering of a valid
    date determines its time value and conversely, so the time value
    stands for the key. *)
Definition isoKey (a : Finding) : Z := timestamp (dataPoint a).

(** The entries handed to [new Map]. *)
Definition entriesOf (findings : list Finding) : list (Z * Finding) :=
  map (fun a => (isoKey a, a)) findings.

(** [uniqueAnomalies]: the values of the map built from the outlier
    findings followed by the trend findings. *)
Definition uniqueAnomalies (data : list TimeSeriesDataPoint)
    (config : AnomalyDetectionConfig) : list Finding :=
  let outlierAnomalies := detectOutliers data config in
  let trendAnomalies := detectTrendAnomalies data config in
  let allAnomalies := outlierAnomalies ++ trendAnomalies in
  mapValues (newMap Z.eqb (entriesOf allAnomalies)).

(** ** Notions and sample series used in the properties *)

(** The two statistics the detector reads. *)
Definition meanOf (values : list R) : R :=
  fold_left (fun sum val => sum + val) values 0 / INR (List.length values).

Definition stddevOf (values : list R) : R :=
  sqrt (fold_left (fun sum val => sum + (val - meanOf values) ^ 2) values 0
        / INR (List.length values)).

(** A finding of the given type for the point. *)
Definition flagged (findings : list Finding) (point : TimeSeriesDataPoint)
    (type : AnomalyType) : Prop :=
  exists a, In a findings /\ dataPoint a = point /\ anomalyType a = type.

Definition pointAt (time : Z) (v : R) : TimeSeriesDataPoint :=
  {| timestamp := time; value := v; count := 1 |}.


Definition configOf (threshold : R) : AnomalyDetectionConfig :=
  {| sensitivityLevel := 3; minDataPoints := 2; stddevThreshold := threshold |}.


(** A series with a jump at its last point, and a configuration under which
    both passes look at it. *)
Definition jumpSeries : list TimeSeriesDataPoint :=
  [pointAt 0 1; pointAt 3600000 1; pointAt 7200000 1; pointAt 10800000 9].

Definition jumpOutlier : Finding :=
  {| dataPoint := pointAt 10800000 9; anomalyType := spike; severity := critical;
     expectedValue := 3; deviationPercentage := 200 |}.

Definition jumpTrend : Finding :=
  {| dataPoint := pointAt 10800000 9; anomalyType := spike; severity := critical;
     expectedValue := 1; deviationPercentage := 800 |}.

(** The series of the third scenario of the specification: eleven points
    at 100, one hour apart, followed by one at 500. *)
Definition scenarioSeries : list TimeSeriesDataPoint :=
  map (fun i => pointAt (Z.of_nat i * 3600000) 100) (seq 0 11) ++ [pointAt 39600000 500].

End Anomaly.

(* ================================================================== *)
(** * The detector on doubles *)
(* ================================================================== *)

(** The functions of [lib/analytics/anomaly-detection] once more, with the
    numbers as the IEEE 754 doubles they are at run time: sums, quotients
    and products round, a division by zero gives an infinity or [NaN], and
    every comparison with [NaN] is false.  The table [anomaly_results] is
    threaded through, and the database may refuse a row. *)
Module Detector.
Import Anomaly PrimFloat.
Local Open Scope float_scope.

(** [Math.sqrt] and [Math.pow], which the language leaves to the engine,
    with what it fixes about them at a zero and at [NaN]. *)
Class Engine := {
  Math_sqrt : float -> float;
  Math_pow : float -> float -> float;
  Math_sqrt_zero : Math_sqrt 0 = 0;
  Math_sqrt_neg_zero : Math_sqrt neg_zero = neg_zero;
  Math_sqrt_NaN : Math_sqrt nan = nan;
  Math_pow_zero : Math_pow 0 2 = 0;
  Math_pow_neg_zero : Math_pow neg_zero 2 = 0;
  Math_pow_NaN : Math_pow nan 2 = nan
}.

(** [Math.abs] *)
Definition Math_abs (x : float) : float := abs x.

(** [x > y] and [x >= y] *)
Definition gtb (x y : float) : bool := y <? x.
Definition geb (x y : float) : bool := y <=? x.

(** A length as a number: array lengths are below [2^32], which doubles
    hold exactly. *)
Definition numberOf (n : nat) : float := of_uint63 (Uint63.of_Z (Z.of_nat n)).

(** [[...values].sort(compare)]: the sort is stable, and an element moves
    behind another only where the comparator is positive. *)
Fixpoint insertBy (compare : float -> float -> float) (x : float) (sorted : list float)
    : list float :=
  match sorted with
  | [] => [x]
  | y :: rest => if gtb (compare x y) 0 then y :: insertBy compare x rest else x :: sorted
  end.

Definition Array_sort (compare : float -> float -> float) (values : list float)
    : list float :=
  fold_right (insertBy compare) [] values.

Record TimeSeriesDataPoint := {
  timestamp : Z;
  value : float;
  count : Z
}.

Record AnomalyDetectionConfig := {
  sensitivityLevel : float;
  minDataPoints : float;
  stddevThreshold : float
}.

(** [Partial<AnomalyDetectionConfig>] *)
Record PartialConfig := {
  sensitivityLevel_opt : option float;
  minDataPoints_opt : option float;
  stddevThreshold_opt : option float
}.

(** [envSensitivity] is [parseInt(process.env.ANOMALY_DETECTION_SENSITIVITY || '3')]. *)
Definition DEFAULT_CONFIG (envSensitivity : float) : AnomalyDetectionConfig :=
  {| sensitivityLevel := envSensitivity; minDataPoints := 10; stddevThreshold := 2.5 |}.

(** [{ ...DEFAULT_CONFIG, ...config }] *)
Definition fullConfigOf (envSensitivity : float) (config : PartialConfig)
    : AnomalyDetectionConfig :=
  let d := DEFAULT_CONFIG envSensitivity in
  {| sensitivityLevel := default (sensitivityLevel d) (sensitivityLevel_opt config);
     minDataPoints := default (minDataPoints d) (minDataPoints_opt config);
     stddevThreshold := default (stddevThreshold d) (stddevThreshold_opt config) |}.

Record Statistics := {
  mean : float;
  stddev : float;
  median : float;
  q1 : float;
  q3 : float;
  iqr : float
}.

(** An entry of the arrays the two passes return. *)
Record Finding := {
  dataPoint : TimeSeriesDataPoint;
  anomalyType : AnomalyType;
  severity : AnomalySeverity;
  expectedValue : float;
  deviationPercentage : float
}.

(** The [metadata] object; [md_count] is its [count]. *)
Record Metadata := {
  md_count : Z;
  detection_method : string;
  sensitivity_level : float
}.

(** A row of [anomaly_results] ([result_severity] is its [severity]). *)
Record AnomalyResult := {
  tenant_id : string;
  event_type : string;
  detected_at : Z;
  anomaly_type : AnomalyType;
  result_severity : AnomalySeverity;
  metric_value : float;
  expected_value : float;
  deviation_percentage : float;
  threshold_used : float;
  metadata : Metadata;
  acknowledged : bool;
  acknowledged_by : option string;
  acknowledged_at : option Z
}.

(** How a call of [detectAnomalies] ends: its promise is fulfilled, or it
    is rejected with the error of the insert that the database refused. *)
Inductive Settled :=
| Fulfilled
| Rejected (refused : AnomalyResult).

Section Passes.
Context {engine : Engine}.

Definition calculateStatistics (values : list float) : Statistics :=
  match values with
  | [] => {| mean := 0; stddev := 0; median := 0; q1 := 0; q3 := 0; iqr := 0 |}
  | _ =>
      let sorted := Array_sort (fun a b => a - b) values in
      let n := List.length sorted in
      let mean := fold_left (fun sum val => sum + val) values 0 / numberOf n in
      let variance :=
        fold_left (fun sum val => sum + Math_pow (val - mean) 2) values 0 / numberOf n in
      let stddev := Math_sqrt variance in
      let median :=
        if Nat.eqb (n mod 2) 0
        then (nth (n / 2 - 1) sorted 0 + nth (n / 2) sorted 0) / 2
        else nth (n / 2) sorted 0 in
      let q1Index := (n / 4)%nat in
      let q3Index := (3 * n / 4)%nat in
      let q1 := nth q1Index sorted 0 in
      let q3 := nth q3Index sorted 0 in
      {| mean := mean; stddev := stddev; median := median;
         q1 := q1; q3 := q3; iqr := q3 - q1 |}
  end.

Definition getSeverity (deviationPercentage sensitivityLevel : float) : AnomalySeverity :=
  let adjustedThreshold := 100 / sensitivityLevel in
  if geb deviationPercentage (adjustedThreshold * 3) then critical
  else if geb deviationPercentage (adjustedThreshold * 2) then high
  else if geb deviationPercentage adjustedThreshold then medium
  else low.

(** The body of the loop of [detectOutliers] for one point. *)
Definition checkOutlier (config : AnomalyDetectionConfig) (stats : Statistics)
    (upperBound lowerBound : float) (point : TimeSeriesDataPoint) : list Finding :=
  let value := value point in
  if gtb value upperBound then
    let deviationPercentage := ((value - mean stats) / mean stats) * 100 in
    let severity := getSeverity deviationPercentage (sensitivityLevel config) in
    [ {| dataPoint := point; anomalyType := spike; severity := severity;
         expectedValue := mean stats;
         deviationPercentage := Math_abs deviationPercentage |} ]
  else if ltb value lowerBound && gtb lowerBound 0 then
    let deviationPercentage := ((mean stats - value) / mean stats) * 100 in
    let severity := getSeverity deviationPercentage (sensitivityLevel config) in
    [ {| dataPoint := point; anomalyType := drop; severity := severity;
         expectedValue := mean stats;
         deviationPercentage := Math_abs deviationPercentage |} ]
  else [].

Definition detectOutliers (data : list TimeSeriesDataPoint)
    (config : AnomalyDetectionConfig) : list Finding :=
  if ltb (numberOf (List.length data)) (minDataPoints config) then []
  else
    let values := map value data in
    let stats := calculateStatistics values in
    if eqb (stddev stats) 0 then []
    else
      let upperBound := mean stats + stddevThreshold config * stddev stats in
      let lowerBound := mean stats - stddevThreshold config * stddev stats in
      flat_map (checkOutlier config stats upperBound lowerBound) data.

(** The finding of the trend pass for [point] after [prev2] and [prev1]. *)
Definition trendFinding (config : AnomalyDetectionConfig)
    (prev2 prev1 point : TimeSeriesDataPoint) : Finding :=
  let avgPrev := (value prev1 + value prev2) / 2 in
  let changePercentage := ((value point - avgPrev) / avgPrev) * 100 in
  {| dataPoint := point;
     anomalyType := if gtb changePercentage 0 then spike else drop;
     severity := getSeverity (Math_abs changePercentage) (sensitivityLevel config);
     expectedValue := avgPrev;
     deviationPercentage := Math_abs changePercentage |}.

(** The body of the loop of [detectTrendAnomalies] at one index:
    [prev2], [prev1] and [point] are [data[i - 2]], [data[i - 1]] and
    [data[i]]. *)
Definition checkTrend (config : AnomalyDetectionConfig)
    (prev2 prev1 point : TimeSeriesDataPoint) : list Finding :=
  let current := value point in
  let avgPrev := (value prev1 + value prev2) / 2 in
  if eqb avgPrev 0 then []
  else
    let changePercentage := ((current - avgPrev) / avgPrev) * 100 in
    let threshold := 50 / sensitivityLevel config in
    if gtb (Math_abs changePercentage) threshold then
      [ {| dataPoint := point;
           anomalyType := if gtb changePercentage 0 then spike else drop;
           severity := getSeverity (Math_abs changePercentage) (sensitivityLevel config);
           expectedValue := avgPrev;
           deviationPercentage := Math_abs changePercentage |} ]
    else [].

(** The loop from index 2 on, as a window sliding over the array. *)
Fixpoint trendLoop (config : AnomalyDetectionConfig) (data : list TimeSeriesDataPoint)
    : list Finding :=
  match data with
  | prev2 :: rest =>
      match rest with
      | prev1 :: point :: _ => checkTrend config prev2 prev1 point ++ trendLoop config rest
      | _ => []
      end
  | [] => []
  end.

Definition detectTrendAnomalies (data : list TimeSeriesDataPoint)
    (config : AnomalyDetectionConfig) : list Finding :=
  if ltb (numberOf (List.length data)) (minDataPoints config + 2) then []
  else trendLoop config data.

(** [a.dataPoint.timestamp.toISOString()]: the time value stands for the
    key, as the ISO rendering of a valid date determines it and conversely. *)
Definition isoKey (a : Finding) : Z := timestamp (dataPoint a).

Definition entriesOf (findings : list Finding) : list (Z * Finding) :=
  map (fun a => (isoKey a, a)) findings.

(** [uniqueAnomalies] *)
Definition uniqueAnomalies (data : list TimeSeriesDataPoint)
    (config : AnomalyDetectionConfig) : list Finding :=
  let outlierAnomalies := detectOutliers data config in
  let trendAnomalies := detectTrendAnomalies data config in
  let allAnomalies := outlierAnomalies ++ trendAnomalies in
  mapValues (newMap Z.eqb (entriesOf allAnomalies)).

(** The object [detectAnomalies] hands to [insertAnomalyResult]. *)
Definition resultOf (tenantId eventType : string) (fullConfig : AnomalyDetectionConfig)
    (anomaly : Finding) : AnomalyResult :=
  {| tenant_id := tenantId;
     event_type := eventType;
     detected_at := timestamp (dataPoint anomaly);
     anomaly_type := anomalyType anomaly;
     result_severity := severity anomaly;
     metric_value := value (dataPoint anomaly);
     expected_value := expectedValue anomaly;
     deviation_percentage := deviationPercentage anomaly;
     threshold_used := stddevThreshold fullConfig;
     metadata := {| md_count := count (dataPoint anomaly);
                    detection_method := "statistical";
                    sensitivity_level := sensitivityLevel fullConfig |};
     acknowledged := false;
     acknowledged_by := None;
     acknowledged_at := None |}.

(** The verdict of the database on a row: the columns are
    [NUMERIC(20, 4)] and [NUMERIC(10, 2)], which hold no infinity and no
    number beyond their precision, and the tenant must exist. *)
Variable accepts : AnomalyResult -> bool.

(** [insertAnomalyResult] ([lib/db/queries]): the [INSERT] names ten
    columns; the three about acknowledgement take their defaults.  [None]
    is the error raised when the database refuses the row. *)
Definition insertAnomalyResult (anomaly : AnomalyResult)
    (anomaly_results : list AnomalyResult) : option (list AnomalyResult) :=
  let row :=
    {| tenant_id := tenant_id anomaly;
       event_type := event_type anomaly;
       detected_at := detected_at anomaly;
       anomaly_type := anomaly_type anomaly;
       result_severity := result_severity anomaly;
       metric_value := metric_value anomaly;
       expected_value := expected_value anomaly;
       deviation_percentage := deviation_percentage anomaly;
       threshold_used := threshold_used anomaly;
       metadata := metadata anomaly;
       acknowledged := false;
       acknowledged_by := None;
       acknowledged_at := None |} in
  if accepts row then Some (anomaly_results ++ [row]) else None.

(** The loop over [uniqueAnomalies]: an insert that raises ends it, and
    the rows written before stay. *)
Fixpoint insertLoop (tenantId eventType : string) (fullConfig : AnomalyDetectionConfig)
    (anomalies : list Finding) (anomaly_results : list AnomalyResult)
    : list AnomalyResult * Settled :=
  match anomalies with
  | [] => (anomaly_results, Fulfilled)
  | anomaly :: rest =>
      let row := resultOf tenantId eventType fullConfig anomaly in
      match insertAnomalyResult row anomaly_results with
      | Some table => insertLoop tenantId eventType fullConfig rest table
      | None => (anomaly_results, Rejected row)
      end
  end.

(** [detectAnomalies], threading the table [anomaly_results]. *)
Definition detectAnomalies (envSensitivity : float) (tenantId eventType : string)
    (data : list TimeSeriesDataPoint) (config : PartialConfig)
    (anomaly_results : list AnomalyResult) : list AnomalyResult * Settled :=
  let fullConfig := fullConfigOf envSensitivity config in
  if ltb (numberOf (List.length data)) (minDataPoints fullConfig)
  then (anomaly_results, Fulfilled)
  else insertLoop tenantId eventType fullConfig (uniqueAnomalies data fullConfig)
         anomaly_results.

End Passes.

(** ** An engine, and notions and series used in the properties *)

(** The correctly rounded square root of IEEE 754; the code raises to the
    power two only, and a square is the rounded product. *)
Definition reference : Engine :=
  {| Math_sqrt := sqrt;
     Math_pow := fun base exponent => base * base;
     Math_sqrt_zero := eq_refl;
     Math_sqrt_neg_zero := eq_refl;
     Math_sqrt_NaN := eq_refl;
     Math_pow_zero := eq_refl;
     Math_pow_neg_zero := eq_refl;
     Math_pow_NaN := eq_refl |}.

(** The real number a finite double stands for (zero for the others). *)
Definition realOf (x : float) : R :=
  match FloatOps.Prim2SF x with
  | SpecFloat.S754_finite negative m e =>
      let magnitude :=
        if (e <? 0)%Z then (IZR (Z.pos m) / IZR (2 ^ (- e)))%R
        else IZR (Z.pos m * 2 ^ e) in
      if negative then (- magnitude)%R else magnitude
  | _ => 0%R
  end.

(** A double that is not below zero: [NaN], a zero, or a positive number
    or infinity. *)
Definition notNegative (x : SpecFloat.spec_float) : Prop :=
  match x with
  | SpecFloat.S754_finite true _ _ | SpecFloat.S754_infinity true => False
  | _ => True
  end.


(** A finding of the given type for the point. *)
Definition flagged (findings : list Finding) (point : TimeSeriesDataPoint)
    (type : AnomalyType) : Prop :=
  exists a, In a findings /\ dataPoint a = point /\ anomalyType a = type.

Definition pointAt (time : Z) (v : float) : TimeSeriesDataPoint :=
  {| timestamp := time; value := v; count := 1 |}.

(** The values as a series, one hour apart from [start] on. *)
Fixpoint hourly (start : Z) (values : list float) : list TimeSeriesDataPoint :=
  match values with
  | [] => []
  | v :: rest => pointAt start v :: hourly (start + 3600000) rest
  end.

Definition configOf (minimum threshold : float) : AnomalyDetectionConfig :=
  {| sensitivityLevel := 3; minDataPoints := minimum; stddevThreshold := threshold |}.

(** The exact bounds of the specification for a series: the mean and the
    population standard deviation of the values as reals. *)
Definition exactUpper (data : list TimeSeriesDataPoint) (config : AnomalyDetectionConfig)
    : R :=
  (Textbook.average (map realOf (map value data))
   + realOf (stddevThreshold config)
     * Textbook.populationStddev (map realOf (map value data)))%R.

Definition exactLower (data : list TimeSeriesDataPoint) (config : AnomalyDetectionConfig)
    : R :=
  (Textbook.average (map realOf (map value data))
   - realOf (stddevThreshold config)
     * Textbook.populationStddev (map realOf (map value data)))%R.

(** Ten points at three tenths. *)
Definition flatSeries : list TimeSeriesDataPoint := hourly 0 (repeat (3 / 10) 10).

(** Ten points at a hundred. *)
Definition levelSeries : list TimeSeriesDataPoint := hourly 0 (repeat 100 10).

(** Eighteen points whose exact lower bound at 2.5 deviations is zero:
    mean 5/3, standard deviation 2/3. *)
Definition thirdsSeries : list TimeSeriesDataPoint :=
  hourly 0 ([0; 1; 1] ++ repeat 2 14 ++ [0]).

(** Two points, one and three: mean 2, standard deviation 1. *)
Definition pairSeries : list TimeSeriesDataPoint := hourly 0 [1; 3].

(** Two points, minus eleven and minus nine: mean -10, standard deviation 1. *)
Definition lowSeries : list TimeSeriesDataPoint := hourly 0 [-11; -9].

(** Twelve points at three, then one at four: a third more than before. *)
Definition stepSeries : list TimeSeriesDataPoint := hourly 0 (repeat 3 12 ++ [4]).

(** Nine points at minus one and one at nine: mean 0, standard deviation 3. *)
Definition zeroMeanSeries : list TimeSeriesDataPoint := hourly 0 (repeat (-1) 9 ++ [9]).

(** Two points, minus three and minus one: mean -2, standard deviation 1. *)
Definition negativeSeries : list TimeSeriesDataPoint := hourly 0 [-3; -1].

(** The rule of the specification for the outlier pass, read over the
    exact bounds: what is flagged as a spike, what as a drop, and what not
    at all. *)
Definition exactRule {engine : Engine} (data : list TimeSeriesDataPoint)
    (config : AnomalyDetectionConfig) : Prop :=
  forall point, In point data ->
    (flagged (detectOutliers data config) point spike
     <-> (realOf (value point) > exactUpper data config)%R)
    /\ (flagged (detectOutliers data config) point drop
        <-> (realOf (value point) < exactLower data config)%R
            /\ (exactLower data config > 0)%R)
    /\ ((realOf (value point) < exactLower data config)%R ->
        (exactLower data config <= 0)%R ->
        forall type, ~ flagged (detectOutliers data config) point type).

(** The same rule over the bounds as the pass computes them. *)
Definition computedRule {engine : Engine} (data : list TimeSeriesDataPoint)
    (config : AnomalyDetectionConfig) : Prop :=
  let stats := calculateStatistics (map value data) in
  let upperBound := mean stats + stddevThreshold config * stddev stats in
  let lowerBound := mean stats - stddevThreshold config * stddev stats in
  forall point, In point data ->
    (flagged (detectOutliers data config) point spike
     <-> gtb (value point) upperBound = true)
    /\ (flagged (detectOutliers data config) point drop
        <-> ltb (value point) lowerBound = true /\ gtb lowerBound 0 = true).

(** Ten points at one, then a jump, a fall to zero, a value near the
    smallest double, and one again: the last change is against an average
    so small that the quotient overflows. *)
Definition tinyAverageSeries : list TimeSeriesDataPoint :=
  hourly 0 (repeat 1 10 ++ [3; 0; 0x1p-1060; 1]).

(** A database that refuses the rows whose deviation is infinite, as a
    [NUMERIC(10, 2)] column does. *)
Definition finiteDeviation (row : AnomalyResult) : bool :=
  negb (eqb (deviation_percentage row) infinity).

End Detector.

(* ================================================================== *)
(** * Compute-and-persist aggregation ([lib/analytics/aggregation]) *)
(* ================================================================== *)

Module Aggregation.

Import Textbook.
Local Open Scope R_scope.

(** A row of [analytics_events], with the columns the queries read.
    Timestamps are milliseconds since the epoch; [metric_value] is a
    nullable [NUMERIC]. *)
Record AnalyticsEvent := {
  tenant_id : string;
  event_type : string;
  event_timestamp : Z;
  metric_value : option R
}.

Inductive AggregationPeriod := hour | day | week | month.

(** ** The SQL the queries rely on *)

(** [date_trunc(unit, ts)] and [+ interval '1 unit'], in a UTC session. *)
Definition msPerUnit (unit : AggregationPeriod) : Z :=
  match unit with
  | hour => 3600000
  | _ => 86400000
  end.

Definition date_trunc (unit : AggregationPeriod) (ts : Z) : Z :=
  (ts - ts mod msPerUnit unit)%Z.

(** Aggregates skip [NULL]s; over no value at all they are [NULL]
    ([COUNT] apart). *)
Definition nonNull (column : list (option R)) : list R :=
  flat_map (fun x => match x with Some v => [v] | None => [] end) column.

Definition SUM (column : list (option R)) : option R :=
  match nonNull column with
  | [] => None
  | values => Some (total values)
  end.

Definition AVG (column : list (option R)) : option R :=
  match nonNull column with
  | [] => None
  | values => Some (total values / INR (List.length values))
  end.

Definition MIN (column : list (option R)) : option R :=
  match nonNull column with
  | [] => None
  | v :: values => Some (fold_right Rmin v values)
  end.

Definition MAX (column : list (option R)) : option R :=
  match nonNull column with
  | [] => None
  | v :: values => Some (fold_right Rmax v values)
  end.

(** [STDDEV] is PostgreSQL's historical alias of [stddev_samp].  On
    [NUMERIC] it keeps [N], the sum and the sum of squares: the result is
    [NULL] when [N <= 1], zero when [N * sumX2 - sumX * sumX] is not
    positive, and otherwise the square root of that numerator over
    [N * (N - 1)]. *)
Definition STDDEV (column : list (option R)) : option R :=
  let values := nonNull column in
  let N := INR (List.length values) in
  let sumX := total values in
  let sumX2 := total (map (fun x => x * x) values) in
  if Nat.leb (List.length values) 1 then None
  else
    let numerator := N * sumX2 - sumX * sumX in
    if Num.gtb numerator 0 then Some (sqrt (numerator / (N * (N - 1))))
    else Some 0.

(** A row of the result of [computeAggregationByHour] or
    [computeAggregationByDay]. *)
Record AggregationRow := {
  row_period_start : Z;
  row_period_end : Z;
  row_count_events : nat;
  row_sum_value : option R;
  row_avg_value : option R;
  row_min_value : option R;
  row_max_value : option R;
  row_stddev_value : option R
}.

(** The [WHERE] clause. *)
Definition selects (tenantId eventType : string) (startDate endDate : Z)
    (e : AnalyticsEvent) : bool :=
  String.eqb (tenant_id e) tenantId && String.eqb (event_type e) eventType
  && (startDate <=? event_timestamp e)%Z && (event_timestamp e <=? endDate)%Z.

(** The events of one group of the [GROUP BY]. *)
Definition bucket (unit : AggregationPeriod) (start : Z) (events : list AnalyticsEvent)
    : list AnalyticsEvent :=
  List.filter (fun e => (date_trunc unit (event_timestamp e) =? start)%Z) events.

(** The query with [unit] as truncation: one row per distinct bucket
    start among the selected events (the query has no [ORDER BY]; the
    groups come here by last occurrence). *)
Definition computeAggregationBy (unit : AggregationPeriod)
    (analytics_events : list AnalyticsEvent)
    (tenantId eventType : string) (startDate endDate : Z) : list AggregationRow :=
  let selected := List.filter (selects tenantId eventType startDate endDate)
                    analytics_events in
  let starts := nodup Z.eq_dec (map (fun e => date_trunc unit (event_timestamp e))
                                    selected) in
  map (fun start =>
         let column := map metric_value (bucket unit start selected) in
         {| row_period_start := start;
            row_period_end := (start + msPerUnit unit)%Z;
            row_count_events := List.length (bucket unit start selected);
            row_sum_value := SUM column;
            row_avg_value := AVG column;
            row_min_value := MIN column;
            row_max_value := MAX column;
            row_stddev_value := STDDEV column |})
      starts.

Definition computeAggregationByHour := computeAggregationBy hour.
Definition computeAggregationByDay := computeAggregationBy day.

(** ** The store *)

Record AggregatedMetric := {
  m_tenant_id : string;
  m_event_type : string;
  aggregation_period : AggregationPeriod;
  period_start : Z;
  period_end : Z;
  count_events : nat;
  sum_value : option R;
  avg_value : option R;
  min_value : option R;
  max_value : option R;
  stddev_value : option R;
  dimensions : gmap string string
}.

Definition periodEqb (p q : AggregationPeriod) : bool :=
  match p, q with
  | hour, hour | day, day | week, week | month, month => true
  | _, _ => false
  end.

(** The unique key [(tenant_id, event_type, aggregation_period,
    period_start, dimensions)]. *)
Definition conflicts (a b : AggregatedMetric) : bool :=
  String.eqb (m_tenant_id a) (m_tenant_id b)
  && String.eqb (m_event_type a) (m_event_type b)
  && periodEqb (aggregation_period a) (aggregation_period b)
  && (period_start a =? period_start b)%Z
  && bool_decide (dimensions a = dimensions b).

(** [insertAggregatedMetric]: insert, or on a key conflict overwrite the
    six statistics of the stored row. *)
Fixpoint insertAggregatedMetric (aggregated_metrics : list AggregatedMetric)
    (metric : AggregatedMetric) : list AggregatedMetric :=
  match aggregated_metrics with
  | [] => [metric]
  | stored :: rest =>
      if conflicts stored metric then
        {| m_tenant_id := m_tenant_id stored;
           m_event_type := m_event_type stored;
           aggregation_period := aggregation_period stored;
           period_start := period_start stored;
           period_end := period_end stored;
           count_events := count_events metric;
           sum_value := sum_value metric;
           avg_value := avg_value metric;
           min_value := min_value metric;
           max_value := max_value metric;
           stddev_value := stddev_value metric;
           dimensions := dimensions stored |} :: rest
      else stored :: insertAggregatedMetric rest metric
  end.

(** [x ? parseFloat(x) : null] on a [NUMERIC] column, which the driver
    hands over as a non-empty string or [null]. *)
Definition parseNullable (x : option R) : option R :=
  match x with
  | Some v => Some v
  | None => None
  end.

(** The object built for one row of the result. *)
Definition metricOf (tenantId eventType : string) (period : AggregationPeriod)
    (r : AggregationRow) : AggregatedMetric :=
  {| m_tenant_id := tenantId;
     m_event_type := eventType;
     aggregation_period := period;
     period_start := row_period_start r;
     period_end := row_period_end r;
     count_events := row_count_events r;
     sum_value := parseNullable (row_sum_value r);
     avg_value := parseNullable (row_avg_value r);
     min_value := parseNullable (row_min_value r);
     max_value := parseNullable (row_max_value r);
     stddev_value := parseNullable (row_stddev_value r);
     dimensions := ∅ |}.

(** The rows the [switch] on the period obtains: the hourly query for
    ['hour'], the daily one for every other period. *)
Definition resultsFor (period : AggregationPeriod)
    (analytics_events : list AnalyticsEvent)
    (tenantId eventType : string) (startDate endDate : Z) : list AggregationRow :=
  match period with
  | hour => computeAggregationByHour analytics_events tenantId eventType startDate endDate
  | _ => computeAggregationByDay analytics_events tenantId eventType startDate endDate
  end.

(** The metrics handed to [insertAggregatedMetric], in order. *)
Definition computedMetrics (analytics_events : list AnalyticsEvent)
    (tenantId eventType : string) (period : AggregationPeriod)
    (startDate endDate : Z) : list AggregatedMetric :=
  map (metricOf tenantId eventType period)
      (resultsFor period analytics_events tenantId eventType startDate endDate).

(** [computeAndStoreAggregations], threading the table
    [aggregated_metrics]. *)
Definition computeAndStoreAggregations (analytics_events : list AnalyticsEvent)
    (tenantId eventType : string) (period : AggregationPeriod)
    (startDate endDate : Z) (aggregated_metrics : list AggregatedMetric)
    : list AggregatedMetric :=
  fold_left insertAggregatedMetric
    (computedMetrics analytics_events tenantId eventType period startDate endDate)
    aggregated_metrics.

(** The truncation unit of the query that serves the period. *)
Definition unitOf (period : AggregationPeriod) : AggregationPeriod :=
  match period with hour => hour | _ => day end.

(** The values a bucket's statistics range over: the non-null metric
    values of the tenant's events of the type, within the window, whose
    truncated timestamp is the bucket start. *)
Definition bucketValues (analytics_events : list AnalyticsEvent)
    (tenantId eventType : string) (period : AggregationPeriod)
    (startDate endDate : Z) (start : Z) : list R :=
  nonNull (map metric_value
             (List.filter (fun e => selects tenantId eventType startDate endDate e
                                    && (date_trunc (unitOf period) (event_timestamp e)
                                        =? start)%Z)
                          analytics_events)).

(** ** Notions and sample tables used in the properties *)

(** The unique key of a stored row. *)
Definition keyOf (m : AggregatedMetric)
    : string * string * AggregationPeriod * Z * gmap string string :=
  (m_tenant_id m, m_event_type m, aggregation_period m, period_start m, dimensions m).

(** Two purchases of one tenant within the hour that starts at
    2024-01-01T00:00:00Z, worth 1 and 3. *)
Definition purchase (time : Z) (v : R) : AnalyticsEvent :=
  {| tenant_id := "acme"; event_type := "purchase";
     event_timestamp := time; metric_value := Some v |}.

Definition twoPurchases : list AnalyticsEvent :=
  [purchase 1704067200000 1; purchase 1704067260000 3].

Definition newYearHour : AggregatedMetric :=
  {| m_tenant_id := "acme"; m_event_type := "purchase"; aggregation_period := hour;
     period_start := 1704067200000; period_end := 1704070800000;
     count_events := 2;
     sum_value := Some (1 + (3 + 0)); avg_value := Some ((1 + (3 + 0)) / INR 2);
     min_value := Some (Rmin 3 1); max_value := Some (Rmax 3 1);
     stddev_value := parseNullable (STDDEV [Some 1; Some 3]);
     dimensions := ∅ |}.

End Aggregation.

(* ================================================================== *)
(** * Schema inference over a file ([inferSchema]) *)
(* ================================================================== *)

Section JSMapGet.
Context {K V : Type} (sameKey : K -> K -> bool).

(** [m.get(k)] *)
Fixpoint mapGet (m : list (K * V)) (k : K) : option V :=
  match m with
  | [] => None
  | (k', v') :: m' => if sameKey k k' then Some v' else mapGet m' k
  end.
End JSMapGet.

(** [obj[key] = v] on an object literal whose values are strings, cells or
    [null]: an own property is written, except under the name [__proto__],
    where the inherited setter takes the value and, as it is no object,
    drops it. *)
Definition setProperty {V : Type} (obj : gmap string V) (key : string) (v : V)
    : gmap string V :=
  if String.eqb key "__proto__" then obj else <[key := v]> obj.

Section CsvSchema.
Context `{Runtime}.

(** [types.set(type, (types.get(type) || 0) + 1)] *)
Definition countType (types : list (string * nat)) (type : string) : list (string * nat) :=
  mapSet String.eqb types type (default 0 (mapGet String.eqb types type) + 1).

(** The map [types] of a column after the loop over the sample. *)
Definition sampleTypes (data : list (gmap string Cell)) (column : string)
    : list (string * nat) :=
  let sampleSize := Nat.min 100 (List.length data) in
  fold_left (fun types r => countType types (inferDataType (getCell r column)))
    (firstn sampleSize data) [].

(** The loop over [types.entries()]: the state is [(dominantType, maxCount)]. *)
Definition dominantOf (types : list (string * nat)) : string * nat :=
  fold_left (fun best entry =>
               if Nat.ltb (snd best) (snd entry) then (fst entry, snd entry) else best)
    types ("string", 0).

Definition inferSchema (data : list (gmap string Cell)) (columns : list string)
    : gmap string string :=
  fold_left (fun schema column =>
               setProperty schema column (fst (dominantOf (sampleTypes data column))))
    columns ∅.

(** The types inferred for the sampled cells of a column. *)
Definition sampledTypes (data : list (gmap string Cell)) (column : string) : list string :=
  map (fun r => inferDataType (getCell r column)) (firstn 100 data).

(** ** Formatting the validation result ([formatValidationErrors]) *)

Definition errorLine (err : ValidationError) : string :=
  if Nat.eqb (row err) 0 then "  - " ++ message err
  else "  - Row " ++ ofNat (row err) ++ ": " ++ field err ++ " - " ++ message err.

Definition newline : string := String (ascii_of_nat 10) EmptyString.

Definition formatValidationErrors (result : ValidationResult) : string :=
  if valid result then ""
  else
    let lines :=
      [ ("CSV Validation Failed: " ++ ofNat (invalidRowCount (summary result)) ++ " of "
         ++ ofNat (totalRows (summary result)) ++ " rows are invalid.")%string;
        "" ]
      ++ map errorLine (errors result) in
    join newline lines.

(** ** Notions for the properties of the validator *)

(** The three cells of a row pass [csvRowSchema]. *)
Definition rowPasses (timestampCol eventTypeCol valueCol : string)
    (r : gmap string Cell) : bool :=
  match csvRowSchema_safeParse (getCell r timestampCol) (getCell r eventTypeCol)
          (getCell r valueCol) with
  | inl _ => true
  | inr _ => false
  end.

End CsvSchema.

(** After counting the types [seen], the map holds each type seen with
    its number of occurrences. *)
Definition countsOf (types : list (string * nat)) (seen : list string) : Prop :=
  List.NoDup (map fst types)
  /\ forall t, mapGet String.eqb types t
               = if Nat.eqb (count_occ string_dec seen t) 0 then None
                 else Some (count_occ string_dec seen t).

(** The keys of a [Map] come in the order in which the types were first
    seen: a key splits the types seen at its first occurrence, and every
    type seen before that is one of the keys before it. *)
Definition firstSeenOrder (keys seen : list string) : Prop :=
  (forall x, In x seen <-> In x keys)
  /\ forall before d after, keys = before ++ d :: after ->
       exists pre post, seen = pre ++ d :: post /\ ~ In d pre
                        /\ forall x, In x pre -> In x before.

(** A cell that holds one no-break space (U+00A0). *)
Definition noBreakSpace : string :=
  String (ascii_of_nat 194) (String (ascii_of_nat 160) EmptyString).

(** Two rows whose types tie: an integer first, then a number. *)
Definition tiedRows : list (gmap string Cell) :=
  [ <["n" := CString "1"]> ∅; <["n" := CString "2.5"]> ∅ ].

(** A small file with one column. *)
Definition typedRows : list (gmap string Cell) :=
  [ <["n" := CString "1"]> ∅; <["n" := CString "2.5"]> ∅; <["n" := CString "3"]> ∅ ].

(** The five types [inferDataType] knows. *)
Definition dataTypes : list string :=
  ["string"; "integer"; "number"; "timestamp"; "boolean"].

(* ================================================================== *)
(** * The summary of stored anomalies ([analyzeAnomalies]) *)
(* ================================================================== *)

Section AnomalySummary.
Import Anomaly.






(** The order of the severities, from [low] to [critical]. *)
Definition severityRank (s : AnomalySeverity) : nat :=
  match s with
  | low => 0
  | medium => 1
  | high => 2
  | critical => 3
  end.

End AnomalySummary.

(* ================================================================== *)
(** * The chart queries ([aggregateMetrics]) *)
(* ================================================================== *)

Section ChartQueries.
Import Aggregation Textbook.

(** [date_trunc('week', ts)]: the Monday of the week, at midnight; the
    epoch fell on a Thursday. *)
Definition truncWeek (ts : Z) : Z := (ts - (ts + 259200000) mod 604800000)%Z.

(** The day of the month of the day [days] days after the epoch, in the
    proleptic Gregorian calendar. *)
Definition dayOfMonth (days : Z) : Z :=
  let z := (days + 719468)%Z in
  let era := (z / 146097)%Z in
  let doe := (z - era * 146097)%Z in
  let yoe := ((doe - doe / 1460 + doe / 36524 - doe / 146096) / 365)%Z in
  let doy := (doe - (365 * yoe + yoe / 4 - yoe / 100))%Z in
  let mp := ((5 * doy + 2) / 153)%Z in
  (doy - (153 * mp + 2) / 5 + 1)%Z.

(** [date_trunc('month', ts)]: the first day of the month, at midnight. *)
Definition truncMonth (ts : Z) : Z :=
  let days := (ts / 86400000)%Z in
  ((days - (dayOfMonth days - 1)) * 86400000)%Z.

(** [date_trunc(unit, ts)] for the four units, in a UTC session. *)
Definition truncate (unit : AggregationPeriod) (ts : Z) : Z :=
  match unit with
  | week => truncWeek ts
  | month => truncMonth ts
  | _ => date_trunc unit ts
  end.

(** A row of the result of [aggregateByHour] and its three siblings. *)
Record ChartRow := {
  c_period_start : Z;
  c_count_events : nat;
  c_avg_value : option R
}.

(** [ORDER BY period_start ASC] *)
Fixpoint insertStart (start : Z) (sorted : list Z) : list Z :=
  match sorted with
  | [] => [start]
  | s :: rest => if (start <=? s)%Z then start :: sorted else s :: insertStart start rest
  end.

Definition orderByStart (starts : list Z) : list Z := fold_right insertStart [] starts.

(** The query with [unit] as truncation: one row per distinct bucket start
    among the selected events, by ascending start. *)
Definition aggregateBy (unit : AggregationPeriod)
    (analytics_events : list AnalyticsEvent)
    (tenantId eventType : string) (startDate endDate : Z) : list ChartRow :=
  let selected := List.filter (selects tenantId eventType startDate endDate)
                    analytics_events in
  let starts := orderByStart
                  (nodup Z.eq_dec (map (fun e => truncate unit (event_timestamp e))
                                       selected)) in
  map (fun start =>
         let group := List.filter
                        (fun e => (truncate unit (event_timestamp e) =? start)%Z)
                        selected in
         {| c_period_start := start;
            c_count_events := List.length group;
            c_avg_value := AVG (map metric_value group) |})
      starts.

Definition aggregateByHour := aggregateBy hour.
Definition aggregateByDay := aggregateBy day.
Definition aggregateByWeek := aggregateBy week.
Definition aggregateByMonth := aggregateBy month.

Record AggregationOptions := {
  tenantId : string;
  eventType : string;
  startDate : Z;
  endDate : Z;
  period : AggregationPeriod
}.

(** [parseFloat(r.avg_value) || 0]: a [NULL] average reads as [NaN], which
    is falsy, as is zero. *)
Definition floatOrZero (avg_value : option R) : R :=
  match avg_value with
  | Some v => v
  | None => 0%R
  end.

(** [parseInt(r.count_events) || 0] *)
Definition intOrZero (count_events : nat) : Z := Z.of_nat count_events.

(** [aggregateMetrics]; the [default] of the [switch] is beyond the four
    periods of the type. *)
Definition aggregateMetrics (analytics_events : list AnalyticsEvent)
    (options : AggregationOptions) : list Anomaly.TimeSeriesDataPoint :=
  let results :=
    match period options with
    | hour => aggregateByHour analytics_events (tenantId options) (eventType options)
                (startDate options) (endDate options)
    | day => aggregateByDay analytics_events (tenantId options) (eventType options)
               (startDate options) (endDate options)
    | week => aggregateByWeek analytics_events (tenantId options) (eventType options)
                (startDate options) (endDate options)
    | month => aggregateByMonth analytics_events (tenantId options) (eventType options)
                 (startDate options) (endDate options)
    end in
  map (fun r => {| Anomaly.timestamp := c_period_start r;
                   Anomaly.value := floatOrZero (c_avg_value r);
                   Anomaly.count := intOrZero (c_count_events r) |})
      results.

(** The events a chart request selects, and those of one of its buckets. *)
Definition selectedBy (options : AggregationOptions) (analytics_events : list AnalyticsEvent)
    : list AnalyticsEvent :=
  List.filter (selects (tenantId options) (eventType options)
                 (startDate options) (endDate options)) analytics_events.

Definition chartBucket (options : AggregationOptions)
    (analytics_events : list AnalyticsEvent) (start : Z) : list AnalyticsEvent :=
  List.filter (fun e => (truncate (period options) (event_timestamp e) =? start)%Z)
    (selectedBy options analytics_events).

(** The events of a tenant with an event type. *)
Definition eventsOf (tenantId eventType : string) (analytics_events : list AnalyticsEvent)
    : list AnalyticsEvent :=
  List.filter (fun e => String.eqb (tenant_id e) tenantId
                        && String.eqb (event_type e) eventType) analytics_events.

(** The longest a unit lasts, in milliseconds. *)
Definition longestUnit (unit : AggregationPeriod) : Z :=
  match unit with
  | hour => 3600000
  | day => 86400000
  | week => 604800000
  | month => 2678400000
  end.

End ChartQueries.

(** Rows of the store that are not of the tenant, event type and period
    of a call of [computeAndStoreAggregations]. *)
Definition foreignTo (tenantId eventType : string) (period : Aggregation.AggregationPeriod)
    (s : Aggregation.AggregatedMetric) : bool :=
  negb (String.eqb (Aggregation.m_tenant_id s) tenantId
        && String.eqb (Aggregation.m_event_type s) eventType
        && Aggregation.periodEqb (Aggregation.aggregation_period s) period).

(** The six statistics of a row, which a conflicting insert overwrites. *)
Definition statisticsOf (m : Aggregation.AggregatedMetric)
    : nat * option R * option R * option R * option R * option R :=
  (Aggregation.count_events m, Aggregation.sum_value m, Aggregation.avg_value m,
   Aggregation.min_value m, Aggregation.max_value m, Aggregation.stddev_value m).

(* ================================================================== *)
(** * Permissions ([lib/auth/permissions]) *)
(* ================================================================== *)

Inductive UserRole := OWNER | ADMIN | MEMBER.

Inductive Permission :=
| VIEW_ANALYTICS
| UPLOAD_FILES
| DELETE_FILES
| MANAGE_MEMBERS
| MANAGE_TENANT
| ACKNOWLEDGE_ANOMALIES.

Definition permissionEqb (p q : Permission) : bool :=
  match p, q with
  | VIEW_ANALYTICS, VIEW_ANALYTICS | UPLOAD_FILES, UPLOAD_FILES
  | DELETE_FILES, DELETE_FILES | MANAGE_MEMBERS, MANAGE_MEMBERS
  | MANAGE_TENANT, MANAGE_TENANT | ACKNOWLEDGE_ANOMALIES, ACKNOWLEDGE_ANOMALIES => true
  | _, _ => false
  end.

Definition ROLE_PERMISSIONS (role : UserRole) : list Permission :=
  match role with
  | OWNER => [VIEW_ANALYTICS; UPLOAD_FILES; DELETE_FILES; MANAGE_MEMBERS; MANAGE_TENANT;
              ACKNOWLEDGE_ANOMALIES]
  | ADMIN => [VIEW_ANALYTICS; UPLOAD_FILES; DELETE_FILES; ACKNOWLEDGE_ANOMALIES]
  | MEMBER => [VIEW_ANALYTICS]
  end.

(** [ROLE_PERMISSIONS[role]?.includes(permission) || false] *)
Definition hasPermission (role : UserRole) (permission : Permission) : bool :=
  existsb (permissionEqb permission) (ROLE_PERMISSIONS role).

Definition canUploadFiles (role : UserRole) : bool := hasPermission role UPLOAD_FILES.
Definition canDeleteFiles (role : UserRole) : bool := hasPermission role DELETE_FILES.
Definition canManageMembers (role : UserRole) : bool := hasPermission role MANAGE_MEMBERS.
Definition canManageTenant (role : UserRole) : bool := hasPermission role MANAGE_TENANT.
Definition canAcknowledgeAnomalies (role : UserRole) : bool :=
  hasPermission role ACKNOWLEDGE_ANOMALIES.

(* ================================================================== *)
(** * Parsing and the upload action ([parseCSVFile], [actions/upload]) *)
(* ================================================================== *)

(** What [Papa.parse] hands to its callbacks: the results given to
    [complete] (the messages of [results.errors], [results.data],
    [results.meta.fields]), or the error given to [error]. *)
Record PapaResults := {
  papa_errors : list string;
  papa_data : list (gmap string Cell);
  papa_fields : option (list string)
}.

Inductive PapaOutcome :=
| PapaComplete (results : PapaResults)
| PapaError (message : string).

Record ParsedCSVResult := {
  p_data : list (gmap string Cell);
  p_columns : list string;
  p_schema : gmap string string;
  p_rowCount : nat
}.

(** [s.endsWith(suffix)] *)
Fixpoint endsWith (s suffix : string) : bool :=
  String.eqb s suffix
  || match s with
     | String _ rest => endsWith rest suffix
     | EmptyString => false
     end.

(** The part of [TenantAuthContext] and of [File] the action reads. *)
Record TenantAuthContext := {
  auth_userId : string;
  auth_role : UserRole
}.

Record File := {
  f_name : string;
  f_size : Z;
  f_text : string
}.

Inductive UploadStatus := processing | completed | failed.

(** A row of [uploaded_files]. *)
Record UploadedFile := {
  uf_id : string;
  uf_tenant_id : string;
  uf_uploaded_by : string;
  uf_filename : string;
  uf_file_size_bytes : Z;
  uf_row_count : nat;
  uf_columns : list string;
  uf_schema_inferred : option (gmap string string);
  uf_upload_status : UploadStatus;
  uf_error_message : option string
}.

(** The number of characters of a text: the bytes of its UTF-8 form that
    do not continue a character. *)
Definition codePoints (s : string) : nat :=
  List.length
    (List.filter (fun c => negb (Nat.leb 128 (nat_of_ascii c) && Nat.ltb (nat_of_ascii c) 192))
       (list_ascii_of_string s)).

(** [createUploadedFile]: the row to insert, with the defaults of the
    table; [id] is the identifier the database generates. *)
Definition createUploadedFile (id tenantId uploadedBy filename : string)
    (fileSizeBytes : Z) (columns : list string) : UploadedFile :=
  {| uf_id := id; uf_tenant_id := tenantId; uf_uploaded_by := uploadedBy;
     uf_filename := filename; uf_file_size_bytes := fileSizeBytes;
     uf_row_count := 0; uf_columns := columns; uf_schema_inferred := None;
     uf_upload_status := processing; uf_error_message := None |}.

(** [updateFileStatus(fileId, status, rowCount, schemaInferred)]: a row
    count of zero is passed as [null] and keeps the stored one. *)
Definition updateFileStatus (fileId : string) (status : UploadStatus) (rowCount : nat)
    (schemaInferred : gmap string string) (uploaded_files : list UploadedFile)
    : list UploadedFile :=
  map (fun f =>
         if String.eqb (uf_id f) fileId then
           {| uf_id := uf_id f; uf_tenant_id := uf_tenant_id f;
              uf_uploaded_by := uf_uploaded_by f; uf_filename := uf_filename f;
              uf_file_size_bytes := uf_file_size_bytes f;
              uf_row_count := if Nat.eqb rowCount 0 then uf_row_count f else rowCount;
              uf_columns := uf_columns f;
              uf_schema_inferred := Some schemaInferred;
              uf_upload_status := status;
              uf_error_message := None |}
         else f)
      uploaded_files.

Section Upload.
Context `{Runtime}.

Definition parseCSVFile (outcome : PapaOutcome) : ParsedCSVResult + string :=
  match outcome with
  | PapaError message => inr ("CSV parsing failed: " ++ message)%string
  | PapaComplete results =>
      if Nat.ltb 0 (List.length (papa_errors results)) then
        inr ("CSV parsing errors: " ++ join ", " (papa_errors results))%string
      else
        let data := papa_data results in
        let columns := default [] (papa_fields results) in
        if Nat.eqb (List.length columns) 0 || Nat.eqb (List.length data) 0 then
          inr "CSV file is empty or has no valid columns"
        else
          inl {| p_data := data; p_columns := columns;
                 p_schema := inferSchema data columns;
                 p_rowCount := List.length data |}
  end.

(** An element of the array handed to [insertAnalyticsEvents]. *)
Record NewAnalyticsEvent := {
  ev_tenant_id : string;
  ev_file_id : string;
  ev_event_type : string;
  ev_event_timestamp : Normalized;
  ev_metric_value : Normalized;
  ev_dimensions : gmap string Cell;
  ev_raw_data : gmap string Cell
}.

(** [dimColumn !== mapping.someColumn] *)
Definition differs (dimColumn : string) (column : option string) : bool :=
  match column with
  | Some c => negb (String.eqb dimColumn c)
  | None => true
  end.

(** [mapping.eventTypeColumn ? String(row[mapping.eventTypeColumn] || 'unknown')
    : 'unknown'] *)
Definition eventTypeOf (mapping : AnalyticsEventMapping) (row : gmap string Cell) : string :=
  match eventTypeColumn mapping with
  | Some c =>
      if String.eqb c "" then "unknown"
      else if isBlank (getCell row c) then "unknown" else ToString (getCell row c)
  | None => "unknown"
  end.

(** [mapping.timestampColumn ? normalizeValue(row[..], 'timestamp') : new Date()] *)
Definition timestampOf (now : Z) (mapping : AnalyticsEventMapping)
    (row : gmap string Cell) : Normalized :=
  match timestampColumn mapping with
  | Some c =>
      if String.eqb c "" then NDate now
      else normalizeValue now (getCell row c) "timestamp"
  | None => NDate now
  end.

(** [parsed.schema[column]] as the [type] of [normalizeValue]: a missing
    entry reads as [undefined], which like the string of that name matches
    no case of the [switch]. *)
Definition schemaType (schema : gmap string string) (column : string) : string :=
  default "undefined" (schema !! column).

(** [mapping.metricValueColumn ? normalizeValue(row[..], parsed.schema[..]) : null] *)
Definition metricValueOf (now : Z) (schema : gmap string string)
    (mapping : AnalyticsEventMapping) (row : gmap string Cell) : Normalized :=
  match metricValueColumn mapping with
  | Some c =>
      if String.eqb c "" then NNull
      else normalizeValue now (getCell row c) (schemaType schema c)
  | None => NNull
  end.

(** The inner loop over [mapping.dimensionColumns || []]. *)
Definition dimensionsOf (mapping : AnalyticsEventMapping) (row : gmap string Cell)
    : gmap string Cell :=
  fold_left
    (fun dimensions dimColumn =>
       if differs dimColumn (timestampColumn mapping)
          && differs dimColumn (eventTypeColumn mapping)
          && differs dimColumn (metricValueColumn mapping)
       then setProperty dimensions dimColumn (getCell row dimColumn)
       else dimensions)
    (dimensionColumns mapping) ∅.

(** The body of the loop over [parsed.data]; [now] is the clock reading
    of the one [new Date()] the iteration may evaluate. *)
Definition eventOf (tenantId fileId : string) (schema : gmap string string)
    (mapping : AnalyticsEventMapping) (now : Z) (row : gmap string Cell)
    : NewAnalyticsEvent :=
  {| ev_tenant_id := tenantId;
     ev_file_id := fileId;
     ev_event_type := eventTypeOf mapping row;
     ev_event_timestamp := timestampOf now mapping row;
     ev_metric_value := metricValueOf now schema mapping row;
     ev_dimensions := dimensionsOf mapping row;
     ev_raw_data := row |}.

(** The loop; [clock i] is the clock reading during iteration [i]. *)
Fixpoint buildEvents (tenantId fileId : string) (schema : gmap string string)
    (mapping : AnalyticsEventMapping) (clock : nat -> Z)
    (data : list (gmap string Cell)) (i : nat) : list NewAnalyticsEvent :=
  match data with
  | [] => []
  | row :: rest =>
      eventOf tenantId fileId schema mapping (clock i) row
      :: buildEvents tenantId fileId schema mapping clock rest (S i)
  end.

(** The two tables the action writes. *)
Record Store := {
  uploaded_files : list UploadedFile;
  analytics_events : list NewAnalyticsEvent
}.

(** The outcome of the action: [{ success: false, error, validationErrors? }]
    or [{ success: true, fileId, rowCount, columns }]. *)
Inductive UploadResult :=
| Failure (error : string) (validationErrors : option (list ValidationError))
| Success (fileId : string) (rowCount : nat) (columns : list string).

(** What the action takes from its environment: the limit
    [MAX_FILE_SIZE] and the text of [MAX_FILE_SIZE / 1024 / 1024]; the
    parser [Papa.parse]; the identifier the database gives the new file;
    the clock; and the database's verdict on a row of [analytics_events]
    (its types and constraints), with the message of the error it raises. *)
Variable MAX_FILE_SIZE : Z.
Variable limitText : string.
Variable papa : string -> PapaOutcome.
Variable newId : string.
Variable clock : nat -> Z.
Variable accepts : NewAnalyticsEvent -> bool.
Variable dbError : NewAnalyticsEvent -> string.

(** The same for a row of [uploaded_files]: the verdict of the database
    (the tenant and the user must exist), and the message of its error. *)
Variable acceptsFile : UploadedFile -> bool.
Variable fileError : UploadedFile -> string.

(** The column [filename] is a [VARCHAR(255)]: a longer name is refused,
    and nothing in the action shortens or checks it. *)
Definition registrable (f : UploadedFile) : bool :=
  Nat.leb (codePoints (uf_filename f)) 255 && acceptsFile f.

(** The timestamp is sent as [toISOString()] when it is a [Date] and as
    [String(..)] otherwise; the column is [NOT NULL] and of a timestamp
    type, so only a [Date] can be stored. *)
Definition storable (e : NewAnalyticsEvent) : bool :=
  match ev_event_timestamp e with
  | NDate _ => accepts e
  | _ => false
  end.

(** [insertAnalyticsEvents]: one [INSERT] per event, in order, outside any
    transaction; the first one the database refuses raises, and the rows
    inserted before it stay.  The result is the table and the event
    refused, if any. *)
Fixpoint insertAnalyticsEvents (events : list NewAnalyticsEvent)
    (table : list NewAnalyticsEvent)
    : list NewAnalyticsEvent * option NewAnalyticsEvent :=
  match events with
  | [] => (table, None)
  | e :: rest =>
      if storable e then insertAnalyticsEvents rest (table ++ [e])
      else (table, Some e)
  end.

(** [uploadCSVAction]: [tenantAuth] is the result of
    [getTenantAuthContext(tenantId)], [file] that of [formData.get('file')].
    The [catch] turns every error raised into a failure with its message:
    that of the insert of the file, before anything is written, or that
    of the insert of an event. *)
Definition uploadCSVAction (tenantId : string) (tenantAuth : option TenantAuthContext)
    (file : option File) (store : Store) : UploadResult * Store :=
  match tenantAuth with
  | None => (Failure "Unauthorized or not a member of this tenant" None, store)
  | Some auth =>
      if negb (canUploadFiles (auth_role auth)) then
        (Failure "You do not have permission to upload files" None, store)
      else
        match file with
        | None => (Failure "No file provided" None, store)
        | Some file =>
            if (MAX_FILE_SIZE <? f_size file)%Z then
              (Failure ("File size exceeds maximum limit of " ++ limitText ++ "MB") None,
               store)
            else if negb (endsWith (f_name file) ".csv") then
              (Failure "Only CSV files are supported" None, store)
            else
              match parseCSVFile (papa (f_text file)) with
              | inr message => (Failure message None, store)
              | inl parsed =>
                  let validationResult :=
                    validateCSVData (p_data parsed) (p_columns parsed) in
                  if negb (valid validationResult) then
                    (Failure (formatValidationErrors validationResult)
                       (Some (errors validationResult)), store)
                  else
                    let uploadedFile :=
                      createUploadedFile newId tenantId (auth_userId auth)
                        (f_name file) (f_size file) (p_columns parsed) in
                    if negb (registrable uploadedFile) then
                      (Failure (fileError uploadedFile) None, store)
                    else
                    let files := uploaded_files store ++ [uploadedFile] in
                    let mapping := detectEventMapping (p_columns parsed) (p_schema parsed) in
                    let events :=
                      buildEvents tenantId (uf_id uploadedFile) (p_schema parsed) mapping
                        clock (p_data parsed) 0 in
                    match insertAnalyticsEvents events (analytics_events store) with
                    | (table, Some refused) =>
                        (Failure (dbError refused) None,
                         {| uploaded_files := files; analytics_events := table |})
                    | (table, None) =>
                        (Success (uf_id uploadedFile) (p_rowCount parsed) (p_columns parsed),
                         {| uploaded_files :=
                              updateFileStatus (uf_id uploadedFile) completed
                                (p_rowCount parsed) (p_schema parsed) files;
                            analytics_events := table |})
                    end
              end
        end
  end.

End Upload.

(** The longest prefix of a list whose elements all pass a test. *)
Fixpoint passingPrefix {A : Type} (test : A -> bool) (l : list A) : list A :=
  match l with
  | [] => []
  | x :: rest => if test x then x :: passingPrefix test rest else []
  end.

(** A file whose event types are numeric codes: the column [type] is
    typed [integer]. *)
Definition codedColumns : list string := ["timestamp"; "type"; "value"].

Definition codedSchema : gmap string string :=
  <["timestamp" := "timestamp"]> (<["type" := "integer"]> (<["value" := "integer"]> ∅)).

Definition codedRow : gmap string Cell :=
  <["timestamp" := CString "2024-01-01"]> (<["type" := CString "7"]>
    (<["value" := CString "3"]> ∅)).

(** A sample upload: an owner sends a file of one row. *)
Definition sampleAuth : TenantAuthContext := {| auth_userId := "u1"; auth_role := OWNER |}.

Definition sampleFile : File := {| f_name := "events.csv"; f_size := 64; f_text := "" |}.

Definition samplePapa (text : string) : PapaOutcome :=
  PapaComplete {| papa_errors := [];
                  papa_data := [codedRow];
                  papa_fields := Some codedColumns |}.

(** The same file under a name of 256 characters. *)
Definition longNameFile : File :=
  {| f_name := String.concat "" (repeat "a" 252) ++ ".csv"; f_size := 64; f_text := "" |}.

Definition emptyStore `{Runtime} : Store := {| uploaded_files := []; analytics_events := [] |}.

(* ================================================================== *)
(** * The detection action ([detectAnomaliesAction]) *)
(* ================================================================== *)

Section DetectionAction.
Context `{Runtime} {engine : Detector.Engine}.

(** [{ success: true, message }] or [{ success: false, error }]. *)
Inductive DetectionResult :=
| DetectionCompleted (message : string)
| DetectionFailed (error : string).

(** The configuration [detectAnomalies] gets when none is passed. *)
Definition noConfig : Detector.PartialConfig :=
  {| Detector.sensitivityLevel_opt := None; Detector.minDataPoints_opt := None;
     Detector.stddevThreshold_opt := None |}.

(** What the action takes from its environment: the double that
    [parseFloat] reads from the text of an average, and the verdict of the
    database on a row of [anomaly_results]. *)
Variable toDouble : R -> PrimFloat.float.
Variable accepts : Detector.AnomalyResult -> bool.

(** The points of the chart query as the detector receives them. *)
Definition seriesOf (points : list Anomaly.TimeSeriesDataPoint)
    : list Detector.TimeSeriesDataPoint :=
  map (fun p => {| Detector.timestamp := Anomaly.timestamp p;
                   Detector.value := toDouble (Anomaly.value p);
                   Detector.count := Anomaly.count p |})
      points.

(** [detectAnomaliesAction], threading [anomaly_results].  [tenantAuth] is
    the result of [getTenantAuthContext(tenantId)]; a date string that
    [new Date] cannot read makes [toISOString] raise inside the query; the
    [catch] turns every error, that of a refused insert included, into the
    one failure, and takes back no row written before it. *)
Definition detectAnomaliesAction (envSensitivity : PrimFloat.float)
    (analytics_events : list Aggregation.AnalyticsEvent)
    (tenantAuth : option TenantAuthContext)
    (tenantId eventType startDate endDate : string)
    (period : Aggregation.AggregationPeriod)
    (anomaly_results : list Detector.AnomalyResult)
    : DetectionResult * list Detector.AnomalyResult :=
  match tenantAuth with
  | None => (DetectionFailed "Failed to detect anomalies", anomaly_results)
  | Some _ =>
      match Date_parse startDate, Date_parse endDate with
      | Some startTime, Some endTime =>
          let data :=
            seriesOf
              (aggregateMetrics analytics_events
                 {| tenantId := tenantId; eventType := eventType;
                    startDate := startTime; endDate := endTime; period := period |}) in
          match Detector.detectAnomalies accepts envSensitivity tenantId eventType data
                  noConfig anomaly_results with
          | (table, Detector.Fulfilled) =>
              (DetectionCompleted "Anomaly detection completed", table)
          | (table, Detector.Rejected _) =>
              (DetectionFailed "Failed to detect anomalies", table)
          end
      | _, _ => (DetectionFailed "Failed to detect anomalies", anomaly_results)
      end
  end.

End DetectionAction.

(** The chart request for the hour of the two purchases. *)
Definition purchasesByHour : AggregationOptions :=
  {| tenantId := "acme"; eventType := "purchase";
     startDate := 1704067200000; endDate := 1704070800000;
     period := Aggregation.hour |}.

(* ================================================================== *)
(** * Notions used to state the properties *)
(* ================================================================== *)

(** The three spellings [normalizeValue] reads as [true]. *)
Definition truthySpelling (s : string) : Prop :=
  toLowerCase s = "true" \/ toLowerCase s = "1" \/ toLowerCase s = "yes".


Section FieldMappingInvariants.
Variable schema : gmap string string.

(** The loop only gives a role to a column of the matching type, and
    never to the empty name. *)
Definition typedRoles (m : AnalyticsEventMapping) : Prop :=
  (forall c, timestampColumn m = Some c ->
             c <> "" /\ schemaIs schema c "timestamp" = true)
  /\ (forall c, eventTypeColumn m = Some c ->
                c <> "" /\ schemaIs schema c "string" = true)
  /\ (forall c, metricValueColumn m = Some c ->
                c <> "" /\ (schemaIs schema c "number" || schemaIs schema c "integer") = true).

(** The invariant of the loop: the roles assigned so far and the
    dimensions hold each column seen so far once. *)
Definition loopInvariant (seen : list string) (m : AnalyticsEventMapping) : Prop :=
  typedRoles m /\ Permutation (roleColumns m ++ dimensionColumns m) seen.

Variable columns : list string.

(** The mapping after the loop and the timestamp fallback. *)
Definition afterTimestampFallback : AnalyticsEventMapping :=
  timestampFallback columns schema (fold_left (mapColumn schema) columns emptyMapping).

(** What holds of the mapping before the event-type fallback. *)
Record fallbackInvariant (m : AnalyticsEventMapping) : Prop := {
  fi_timestamp : forall c, timestampColumn m = Some c -> schemaIs schema c "timestamp" = true;
  fi_eventType : forall c, eventTypeColumn m = Some c ->
                           c <> "" /\ schemaIs schema c "string" = true;
  fi_metric : forall c, metricValueColumn m = Some c ->
                        (schemaIs schema c "number" || schemaIs schema c "integer") = true;
  fi_cover : forall c, In c (roleColumns m ++ dimensionColumns m) <-> In c columns;
  fi_once : List.NoDup columns -> Permutation (roleColumns m ++ dimensionColumns m) columns
}.

End FieldMappingInvariants.

(** Sample inputs. *)
Definition sampleRowNoValue : gmap string Cell :=
  <["timestamp" := CString "2024-01-01"]> (<["event_type" := CString "signup"]>
    (<["user" := CString "u1"]> ∅)).

Definition sampleRow (ts ty v : string) : gmap string Cell :=
  <["Timestamp" := CString ts]> (<["type" := CString ty]> (<["amount" := CString v]> ∅)).

(** The first scenario of the specification. *)
Definition scenarioColumns : list string :=
  ["timestamp"; "event_type"; "value"; "user_id"; "region"].

Definition scenarioSchema : gmap string string :=
  <["timestamp" := "timestamp"]> (<["event_type" := "string"]> (<["value" := "integer"]>
    (<["user_id" := "string"]> (<["region" := "string"]> ∅)))).

(* ================================================================== *)
(** * Properties: normalisation and type inference *)
(* ================================================================== *)

Section CsvParserFacts.
Context {rt : Runtime}.

Lemma isBlank_true (value : Cell) :
  isBlank value = true <-> value = CNull \/ value = CUndefined \/ value = CString "".
Proof.
  destruct value as [ | | s]; simpl.
  - intuition.
  - intuition.
  - rewrite String.eqb_eq. split.
    + intros ->. auto.
    + intros [Hn | [Hu | Hs]]; try discriminate. now inversion Hs.
Qed.

Lemma isBlank_false (value : Cell) :
  isBlank value = false <->
  value <> CNull /\ value <> CUndefined /\ value <> CString "".
Proof.
  rewrite <- Bool.not_true_iff_false, isBlank_true. tauto.
Qed.

Lemma normalizeValue_blank (now : Z) (value : Cell) (type : string) :
  isBlank value = true -> normalizeValue now value type = NNull.
Proof. intros Hb. unfold normalizeValue. now rewrite Hb. Qed.

(** C1, as amended.  A blank value ([null], [undefined], ['']) gives
    [null] under every type, and so does, under ['number'] and
    ['integer'], a literal that [Number] does not read.  Under
    ['timestamp'] a non-blank input that is no valid date gives a [Date]
    holding the current time: not [null], and nothing is raised. *)
Theorem normalizeValue_malformed (now : Z) (value : Cell) :
  (forall type, isBlank value = true -> normalizeValue now value type = NNull)
  /\ (forall type, type = "number" \/ type = "integer" ->
      isNaN (Number (ToString value)) = true ->
      normalizeValue now value type = NNull)
  /\ (isBlank value = false -> Date_parse (ToString value) = None ->
      normalizeValue now value "timestamp" = NDate now
      /\ normalizeValue now value "timestamp" <> NNull).
Proof.
  split; [| split].
  - intros type. apply normalizeValue_blank.
  - intros type Htype Hnan. unfold normalizeValue.
    destruct (isBlank value); [reflexivity |].
    destruct Htype as [-> | ->]; simpl; now rewrite Hnan.
  - intros Hb Hdate. unfold normalizeValue. rewrite Hb. simpl.
    rewrite Hdate. split; [reflexivity | discriminate].
Qed.

(** A date that parses is kept as it is. *)
Lemma normalizeValue_timestamp_valid (now time : Z) (value : Cell) :
  isBlank value = false -> Date_parse (ToString value) = Some time ->
  normalizeValue now value "timestamp" = NDate time.
Proof.
  intros Hb Hdate. unfold normalizeValue. rewrite Hb. simpl. now rewrite Hdate.
Qed.

(** C10.  Under ['boolean'], [null], [undefined] and [''] give [null];
    every other value gives a boolean, which is [true] exactly when the
    lowercased string form of the value is ['true'], ['1'] or ['yes']. *)
Theorem normalizeValue_boolean (now : Z) (value : Cell) :
  (value = CNull \/ value = CUndefined \/ value = CString "" ->
   normalizeValue now value "boolean" = NNull)
  /\ (value <> CNull -> value <> CUndefined -> value <> CString "" ->
      exists b, normalizeValue now value "boolean" = NBoolean b
                /\ (b = true <-> truthySpelling (ToString value))).
Proof.
  split.
  - intros Hv. apply normalizeValue_blank. now apply isBlank_true.
  - intros Hn Hu He.
    assert (Hb : isBlank value = false) by (apply isBlank_false; auto).
    unfold normalizeValue. rewrite Hb. simpl.
    eexists. split; [reflexivity |].
    unfold truthySpelling.
    rewrite !Bool.orb_true_iff, !String.eqb_eq. tauto.
Qed.

(** C8.  For a cell that is not blank and whose trimmed text is a
    numeric literal (not empty, and read by [Number] as a number),
    [inferDataType] answers ['number'] when the text contains ['.'] and
    ['integer'] otherwise. *)
Theorem inferDataType_numeric (value : Cell) :
  isBlank value = false ->
  trim (ToString value) <> "" ->
  isNaN (Number (trim (ToString value))) = false ->
  inferDataType value
  = if includes (trim (ToString value)) "." then "number" else "integer".
Proof.
  intros Hb Hne Hnum. unfold inferDataType. rewrite Hb, Hnum.
  apply String.eqb_neq in Hne. rewrite Hne. reflexivity.
Qed.

(** The guard of [inferDataType] is exactly that: the numeric answer is
    given whenever, and only when, the value is such a literal. *)
Lemma inferDataType_numeric_only (value : Cell) :
  inferDataType value = "number" \/ inferDataType value = "integer" ->
  isBlank value = false
  /\ trim (ToString value) <> ""
  /\ isNaN (Number (trim (ToString value))) = false.
Proof.
  unfold inferDataType.
  destruct (isBlank value); [intros [Hc | Hc]; discriminate |].
  destruct (isNaN (Number (trim (ToString value)))); simpl.
  - repeat match goal with
           | |- context [if ?b then _ else _] => destruct b
           end; intros [Hc | Hc]; discriminate.
  - destruct (String.eqb_spec (trim (ToString value)) ""); simpl.
    + repeat match goal with
             | |- context [if ?b then _ else _] => destruct b
             end; intros [Hc | Hc]; discriminate.
    + auto.
Qed.

End CsvParserFacts.

(** Counterexample for C1 as stated: under ['timestamp'] the text
    ["not a date"], which is no date, is answered with the clock reading
    instead of [null]. *)
Lemma normalizeValue_timestamp_substitutes :
  Date_parse "not a date" = None
  /\ normalizeValue 1700000000000 (CString "not a date") "timestamp" = NDate 1700000000000
  /\ normalizeValue 1700000000000 (CString "not a date") "timestamp" <> NNull.
Proof. split; [reflexivity | split; [reflexivity | discriminate]]. Qed.

Lemma normalizeValue_malformed_witness :
  normalizeValue 1700000000000 (CString "12abc") "number" = NNull
  /\ normalizeValue 1700000000000 (CString "2024-13-45") "timestamp" = NDate 1700000000000.
Proof.
  pose proof (normalizeValue_malformed 1700000000000 (CString "12abc")) as [_ [Hnum _]].
  pose proof (normalizeValue_malformed 1700000000000 (CString "2024-13-45")) as [_ [_ Hts]].
  split.
  - apply Hnum; [left; reflexivity | reflexivity].
  - apply Hts; reflexivity.
Defined.

Lemma normalizeValue_boolean_witness :
  normalizeValue 0 (CString "") "boolean" = NNull
  /\ exists b, normalizeValue 0 (CString "YES") "boolean" = NBoolean b
               /\ (b = true <-> truthySpelling "YES").
Proof.
  split.
  - apply (proj1 (normalizeValue_boolean 0 (CString ""))). auto.
  - apply (proj2 (normalizeValue_boolean 0 (CString "YES"))); discriminate.
Defined.

Lemma inferDataType_numeric_witness :
  inferDataType (CString " 12.50 ") = "number" /\ inferDataType (CString "1e3") = "integer".
Proof.
  split.
  - apply (inferDataType_numeric (CString " 12.50 ")); [reflexivity | discriminate | reflexivity].
  - apply (inferDataType_numeric (CString "1e3")); [reflexivity | discriminate | reflexivity].
Defined.

(** White space beyond ASCII is trimmed too: a cell of one no-break space
    is no numeric literal, and one around a literal does not hide it. *)
Example inferDataType_no_break_space :
  inferDataType (CString noBreakSpace) = "string"
  /\ inferDataType (CString (noBreakSpace ++ "7.5" ++ noBreakSpace)) = "number".
Proof. split; reflexivity. Qed.

(** The cases of the inferencer on the reference runtime. *)
Example inferDataType_samples :
  map inferDataType
      [CString "12"; CString "12.5"; CString " "; CString ""; CNull;
       CString "2024-01-01"; CString "2024-01-15T10:30:00Z"; CString "TRUE";
       CString "hello"]
  = ["integer"; "number"; "string"; "string"; "string";
     "timestamp"; "timestamp"; "boolean"; "string"].
Proof. reflexivity. Qed.

Example normalizeValue_samples :
  map (fun '(v, t) => normalizeValue 5 (CString v) t)
      [("7", "integer"); ("x", "number"); ("2024-01-01", "timestamp");
       ("nope", "timestamp"); ("Yes", "boolean"); ("0", "boolean"); ("abc", "string")]
  = [NNumber (RefRuntime.Finite 7); NNull; NDate 1704067200000; NDate 5;
     NBoolean true; NBoolean false; NString "abc"].
Proof. reflexivity. Qed.

(* ================================================================== *)
(** * Properties: row validation *)
(* ================================================================== *)

Lemma arrayIncludes_In (xs : list string) (x : string) :
  arrayIncludes xs x = true <-> In x xs.
Proof.
  unfold arrayIncludes. rewrite existsb_exists. split.
  - intros [y [Hin Heq]]. apply String.eqb_eq in Heq. now subst.
  - intros Hin. exists x. split; [assumption | apply String.eqb_refl].
Qed.



Section CsvValidationFacts.
Context {rt : Runtime}.


(** The loop adds at most one valid row per input row. *)
Lemma validateEach_counts (tc ec vc : string) (data : list (gmap string Cell)) :
  forall i validAcc errorAcc,
    List.length (fst (validateEach tc ec vc data i validAcc errorAcc))
    <= List.length validAcc + List.length data.
Proof.
  induction data as [| r data IH]; intros i validAcc errorAcc; simpl.
  - lia.
  - destruct (csvRowSchema_safeParse _ _ _).
    + etransitivity; [apply IH |]. rewrite length_app. simpl. lia.
    + etransitivity; [apply IH |]. lia.
Qed.

End CsvValidationFacts.


(** The second scenario of the specification: a file without any
    value-like column. *)
Example validateCSVData_missing_value :
  errors (validateCSVData [sampleRowNoValue] ["timestamp"; "event_type"; "user"])
  = [ {| row := 0; field := "schema";
         message := "Missing required columns: value. Expected: timestamp (or time/date), event_type (or type/event), value (or amount/metric)." |} ].
Proof. reflexivity. Qed.

(** Rows are validated one by one once the three roles are found. *)
Example validateCSVData_rows :
  let r := validateCSVData
             [sampleRow "2024-01-01" "signup" "3"; sampleRow "yesterday" "" "x";
              sampleRow "2024-01-02T08:00:00Z" "purchase" "12.5"]
             ["Timestamp"; "type"; "amount"] in
  valid r = false
  /\ map (fun v => v_value (_validated v)) (validRows r)
     = [RefRuntime.Finite 3; RefRuntime.Finite (25 # 2)]
  /\ map (fun e => (row e, field e)) (errors r)
     = [(3, "timestamp"); (3, "event_type"); (3, "value")]
  /\ summary r = {| totalRows := 3; validRowCount := 2; invalidRowCount := 1 |}.
Proof. vm_compute. repeat split. Qed.

(* ================================================================== *)
(** * Properties: field mapping *)
(* ================================================================== *)

Section FieldMappingFacts.
Variable schema : gmap string string.

Lemma schemaIs_functional (c t1 t2 : string) :
  schemaIs schema c t1 = true -> schemaIs schema c t2 = true -> t1 = t2.
Proof.
  unfold schemaIs. destruct (schema !! c) as [t |]; [| discriminate].
  rewrite !String.eqb_eq. congruence.
Qed.

Lemma somePattern_nonempty (patterns : list string) (c : string) :
  somePattern patterns "" = false ->
  somePattern patterns (toLowerCase c) = true -> c <> "".
Proof. intros Hempty Hsome ->. simpl in Hsome. congruence. Qed.

Lemma unset_None (column : option string) :
  (forall c, column = Some c -> c <> "") -> unset column = true -> column = None.
Proof.
  intros Hne. destruct column as [c |]; [| reflexivity].
  simpl. intros Hc. apply String.eqb_eq in Hc. now destruct (Hne c eq_refl).
Qed.

Lemma mapColumn_invariant (seen : list string) (m : AnalyticsEventMapping) (c : string) :
  loopInvariant schema seen m -> loopInvariant schema (seen ++ [c]) (mapColumn schema m c).
Proof.
  intros [[Hts [Het Hmv]] Hperm]. unfold mapColumn.
  destruct (unset (timestampColumn m) && schemaIs schema c "timestamp"
            && somePattern timestampPatterns (toLowerCase c)) eqn:Ht.
  { apply andb_prop in Ht. destruct Ht as [Ht Hpat].
    apply andb_prop in Ht. destruct Ht as [Hun Hty].
    apply unset_None in Hun; [| intros c' Hc'; now apply Hts].
    split.
    - split; [| split]; simpl; auto.
      intros c' [= <-]. split; [| assumption].
      now apply (somePattern_nonempty timestampPatterns).
    - unfold roleColumns in *. simpl. rewrite Hun in Hperm. simpl in Hperm.
      rewrite <- Hperm. solve_Permutation. }
  destruct (unset (eventTypeColumn m) && schemaIs schema c "string"
            && somePattern typePatterns (toLowerCase c)) eqn:He.
  { apply andb_prop in He. destruct He as [He Hpat].
    apply andb_prop in He. destruct He as [Hun Hty].
    apply unset_None in Hun; [| intros c' Hc'; now apply Het].
    split.
    - split; [| split]; simpl; auto.
      intros c' [= <-]. split; [| assumption].
      now apply (somePattern_nonempty typePatterns).
    - unfold roleColumns in *. simpl. rewrite Hun in Hperm. simpl in Hperm.
      rewrite <- Hperm. solve_Permutation. }
  destruct (unset (metricValueColumn m)
            && (schemaIs schema c "number" || schemaIs schema c "integer")
            && somePattern valuePatterns (toLowerCase c)) eqn:Hv.
  { apply andb_prop in Hv. destruct Hv as [Hv Hpat].
    apply andb_prop in Hv. destruct Hv as [Hun Hty].
    apply unset_None in Hun; [| intros c' Hc'; now apply Hmv].
    split.
    - split; [| split]; simpl; auto.
      intros c' [= <-]. split; [| assumption].
      now apply (somePattern_nonempty valuePatterns).
    - unfold roleColumns in *. simpl. rewrite Hun in Hperm. simpl in Hperm.
      rewrite <- Hperm. solve_Permutation. }
  split.
  - split; [| split]; simpl; auto.
  - unfold roleColumns in *. simpl. rewrite <- Hperm. solve_Permutation.
Qed.

Lemma loop_invariant (columns seen : list string) (m : AnalyticsEventMapping) :
  loopInvariant schema seen m ->
  loopInvariant schema (seen ++ columns) (fold_left (mapColumn schema) columns m).
Proof.
  revert seen m. induction columns as [| c columns IH]; intros seen m Hinv; simpl.
  - now rewrite app_nil_r.
  - replace (seen ++ c :: columns) with ((seen ++ [c]) ++ columns)
      by (rewrite <- app_assoc; reflexivity).
    apply IH. now apply mapColumn_invariant.
Qed.

Lemma loop_result (columns : list string) :
  loopInvariant schema columns (fold_left (mapColumn schema) columns emptyMapping).
Proof.
  apply (loop_invariant columns [] emptyMapping).
  split; [| reflexivity].
  split; [| split]; intros c Hc; discriminate.
Qed.

End FieldMappingFacts.

Section FieldMappingResult.
Variable schema : gmap string string.
Variable columns : list string.

Lemma filter_out_one (x : string) (l : list string) :
  List.NoDup l -> In x l ->
  Permutation l (x :: List.filter (fun c => negb (String.eqb c x)) l).
Proof.
  induction l as [| y l IH]; intros Hnd Hin; [destruct Hin |].
  inversion Hnd as [| ? ? Hnotin Hnd']; subst. simpl.
  destruct (String.eqb_spec y x) as [-> | Hne]; simpl.
  - constructor.
    rewrite (forallb_filter_id _ l); [reflexivity |].
    apply forallb_forall. intros c Hc.
    destruct (String.eqb_spec c x) as [-> | _]; [contradiction | reflexivity].
  - destruct Hin as [-> | Hin]; [contradiction |].
    rewrite (IH Hnd' Hin) at 1. apply perm_swap.
Qed.

Lemma In_filter_out (x c : string) (l : list string) :
  In c (List.filter (fun c => negb (String.eqb c x)) l) <-> In c l /\ c <> x.
Proof.
  rewrite filter_In, Bool.negb_true_iff. split; intros [Hin Hne]; split; auto.
  - now apply String.eqb_neq.
  - now apply String.eqb_neq.
Qed.

Lemma fallback_first_is_dimension (m : AnalyticsEventMapping)
    (first : string) (rest : list string) :
  loopInvariant schema columns m ->
  timestampColumn m = None ->
  List.filter (fun c => schemaIs schema c "timestamp") columns = first :: rest ->
  In first columns /\ schemaIs schema first "timestamp" = true
  /\ In first (dimensionColumns m).
Proof.
  intros [[_ [Het Hmv]] Hperm] Hts Hfilter.
  assert (Hin : In first (List.filter (fun c => schemaIs schema c "timestamp") columns))
    by (rewrite Hfilter; now left).
  apply filter_In in Hin. destruct Hin as [Hin Hty].
  split; [assumption |]. split; [assumption |].
  apply (Permutation_in _ (Permutation_sym Hperm)) in Hin.
  unfold roleColumns in Hin. rewrite Hts in Hin. simpl in Hin.
  apply in_app_or in Hin. destruct Hin as [Hin | Hin]; [| assumption].
  apply in_app_or in Hin. destruct Hin as [Hin | Hin].
  - destruct (eventTypeColumn m) as [e |]; [| destruct Hin].
    destruct Hin as [-> | []]. destruct (Het first eq_refl) as [_ Hs].
    pose proof (schemaIs_functional schema _ _ _ Hty Hs). discriminate.
  - destruct (metricValueColumn m) as [v |]; [| destruct Hin].
    destruct Hin as [-> | []]. destruct (Hmv first eq_refl) as [_ Hs].
    apply Bool.orb_true_iff in Hs. destruct Hs as [Hs | Hs];
      pose proof (schemaIs_functional schema _ _ _ Hty Hs); discriminate.
Qed.

Lemma afterTimestampFallback_invariant :
  fallbackInvariant schema columns (afterTimestampFallback schema columns).
Proof.
  unfold afterTimestampFallback.
  pose proof (loop_result schema columns) as Hinv.
  set (m := fold_left (mapColumn schema) columns emptyMapping) in *.
  assert (Hkeep : fallbackInvariant schema columns m).
  { destruct Hinv as [[Hts [Het Hmv]] Hperm]. split.
    - intros c Hc. now apply Hts.
    - assumption.
    - intros c Hc. now apply Hmv.
    - intros c. split; apply Permutation_in; [assumption | now apply Permutation_sym].
    - intros _. assumption. }
  unfold timestampFallback.
  destruct (unset (timestampColumn m)) eqn:Hun; [| assumption].
  destruct (List.filter (fun c => schemaIs schema c "timestamp") columns)
    as [| first rest] eqn:Hfilter; [assumption |].
  assert (Hnone : timestampColumn m = None).
  { apply unset_None; [| assumption]. intros c Hc.
    destruct Hinv as [[Hts _] _]. now apply Hts. }
  destruct (fallback_first_is_dimension m first rest Hinv Hnone Hfilter)
    as [Hin [Hty Hdim]].
  destruct Hkeep as [_ Het Hmv Hcover Honce]. split; simpl.
  - intros c [= <-]. assumption.
  - assumption.
  - assumption.
  - intros c. rewrite <- Hcover. unfold roleColumns. simpl. rewrite Hnone. simpl.
    rewrite !in_app_iff, In_filter_out.
    destruct (String.eqb_spec c first) as [-> | Hne]; [tauto |].
    split; [intros [Heq | Hc]; [congruence | tauto] | tauto].
  - intros Hnd. specialize (Honce Hnd). rewrite <- Honce.
    unfold roleColumns in *. simpl. rewrite Hnone in *. simpl in *.
    assert (Hnd' : List.NoDup (dimensionColumns m)).
    { apply (Permutation.Permutation_NoDup (Permutation_sym Honce)) in Hnd.
      now apply List.NoDup_app_remove_l in Hnd. }
    rewrite (filter_out_one first (dimensionColumns m) Hnd' Hdim) at 2.
    solve_Permutation.
Qed.

Lemma detectEventMapping_unfold :
  detectEventMapping columns schema = eventTypeFallback (afterTimestampFallback schema columns).
Proof. reflexivity. Qed.

(** The role values of the result: those before the event-type fallback,
    and the literal when the event type was still unset. *)
Lemma roleColumns_result :
  (roleColumns (detectEventMapping columns schema)
   = roleColumns (afterTimestampFallback schema columns)
   \/ (eventTypeColumn (afterTimestampFallback schema columns) = None
       /\ roleColumns (detectEventMapping columns schema)
          = optList (timestampColumn (afterTimestampFallback schema columns)) ++ [default_event]
            ++ optList (metricValueColumn (afterTimestampFallback schema columns))))
  /\ dimensionColumns (detectEventMapping columns schema)
     = dimensionColumns (afterTimestampFallback schema columns).
Proof.
  rewrite detectEventMapping_unfold. unfold eventTypeFallback.
  pose proof afterTimestampFallback_invariant as [_ Het _ _ _].
  destruct (unset (eventTypeColumn (afterTimestampFallback schema columns))) eqn:Hun.
  - apply unset_None in Hun; [| intros c Hc; now apply Het].
    split; [right | reflexivity]. split; [assumption | reflexivity].
  - split; [left |]; reflexivity.
Qed.

Lemma realRoleColumns_In (m : AnalyticsEventMapping) (c : string) :
  In c (realRoleColumns columns m) <-> In c (roleColumns m) /\ In c columns.
Proof. unfold realRoleColumns. now rewrite filter_In, arrayIncludes_In. Qed.

Lemma filter_all (f : string -> bool) (l : list string) :
  (forall c, In c l -> f c = true) -> List.filter f l = l.
Proof. intros Hall. apply forallb_filter_id. now apply forallb_forall. Qed.

Lemma arrayIncludes_false (x : string) :
  ~ In x columns -> arrayIncludes columns x = false.
Proof.
  intros Hnot. apply Bool.not_true_iff_false. now rewrite arrayIncludes_In.
Qed.

(** Without a column called [default_event], the role values that are
    columns are the roles assigned before the event-type fallback. *)
Lemma realRoleColumns_result :
  ~ In default_event columns ->
  realRoleColumns columns (detectEventMapping columns schema)
  = roleColumns (afterTimestampFallback schema columns).
Proof.
  intros Hsentinel.
  pose proof afterTimestampFallback_invariant as [_ _ _ Hcover _].
  assert (Hreal : forall c, In c (roleColumns (afterTimestampFallback schema columns)) ->
                            arrayIncludes columns c = true).
  { intros c Hc. apply arrayIncludes_In, Hcover, in_or_app. now left. }
  destruct roleColumns_result as [[Hsame | [Hnone Hroles]] _]; unfold realRoleColumns.
  - rewrite Hsame. now apply filter_all.
  - rewrite Hroles. unfold roleColumns in *. rewrite Hnone in *.
    destruct (timestampColumn (afterTimestampFallback schema columns)) as [t |],
      (metricValueColumn (afterTimestampFallback schema columns)) as [v |]; simpl in *;
      rewrite ?(arrayIncludes_false _ Hsentinel), ?(Hreal t), ?(Hreal v) by auto;
      reflexivity.
Qed.

End FieldMappingResult.

(** C7, as amended.  For every column list and schema the role values that
    are columns, together with [dimensionColumns], cover exactly the input
    columns.  When no column is called [default_event], no column holds two
    of the three roles; when moreover the column names are pairwise distinct,
    every column appears exactly once among the role columns and the
    dimensions. *)
Theorem detectEventMapping_partition (columns : list string) (schema : gmap string string) :
  let m := detectEventMapping columns schema in
  (forall c, In c columns <-> In c (realRoleColumns columns m ++ dimensionColumns m))
  /\ (~ In default_event columns -> List.NoDup (roleColumns m))
  /\ (List.NoDup columns -> ~ In default_event columns ->
      Permutation (realRoleColumns columns m ++ dimensionColumns m) columns
      /\ List.NoDup (realRoleColumns columns m ++ dimensionColumns m)).
Proof.
  intros m. subst m.
  pose proof (afterTimestampFallback_invariant schema columns)
    as [Hts Het Hmv Hcover Honce].
  pose proof (roleColumns_result schema columns) as [Hroles Hdims].
  set (after := afterTimestampFallback schema columns) in *.
  split; [| split].
  - intros c. rewrite in_app_iff, realRoleColumns_In, Hdims, <- Hcover, in_app_iff.
    destruct Hroles as [-> | [Hnone ->]]; [tauto |].
    unfold roleColumns. rewrite Hnone. simpl. rewrite !in_app_iff. simpl. tauto.
  - intros Hsentinel.
    assert (Hcol : forall c, In c (roleColumns after) -> c <> default_event).
    { intros c Hc ->. apply Hsentinel, Hcover, in_or_app. now left. }
    assert (Htv : forall t v, timestampColumn after = Some t ->
                              metricValueColumn after = Some v -> t <> v).
    { intros t v Ht Hv ->. specialize (Hts _ Ht). specialize (Hmv _ Hv).
      apply Bool.orb_true_iff in Hmv. destruct Hmv as [Hmv | Hmv];
        pose proof (schemaIs_functional schema _ _ _ Hts Hmv); discriminate. }
    assert (Hte : forall t e, timestampColumn after = Some t ->
                              eventTypeColumn after = Some e -> t <> e).
    { intros t e Ht He ->. specialize (Hts _ Ht). destruct (Het _ He) as [_ Hs].
      pose proof (schemaIs_functional schema _ _ _ Hts Hs). discriminate. }
    assert (Hev : forall e v, eventTypeColumn after = Some e ->
                              metricValueColumn after = Some v -> e <> v).
    { intros e v He Hv ->. destruct (Het _ He) as [_ Hs]. specialize (Hmv _ Hv).
      apply Bool.orb_true_iff in Hmv. destruct Hmv as [Hmv | Hmv];
        pose proof (schemaIs_functional schema _ _ _ Hs Hmv); discriminate. }
    destruct Hroles as [-> | [Hnone ->]]; unfold roleColumns in *.
    + destruct (timestampColumn after) as [t |], (eventTypeColumn after) as [e |],
        (metricValueColumn after) as [v |]; simpl;
        repeat (constructor; simpl); intuition (subst; eauto; congruence).
    + rewrite Hnone in *.
      destruct (timestampColumn after) as [t |], (metricValueColumn after) as [v |];
        simpl in *; repeat (constructor; simpl);
        intuition (subst; eauto; try congruence).
  - intros Hnd Hsentinel.
    assert (Hperm : Permutation
              (realRoleColumns columns (detectEventMapping columns schema)
               ++ dimensionColumns (detectEventMapping columns schema)) columns).
    { rewrite (realRoleColumns_result schema columns Hsentinel), Hdims. now apply Honce. }
    split; [assumption |].
    apply (Permutation.Permutation_NoDup (Permutation_sym Hperm)). assumption.
Qed.

(** Counterexample for C7 as stated, a header that repeats a name: the
    second [time] column is a dimension while [time] is the timestamp
    column, so the name is in two places. *)
Lemma detectEventMapping_repeated_header :
  let columns := ["time"; "time"] in
  let m := detectEventMapping columns (<["time" := "timestamp"]> ∅) in
  timestampColumn m = Some "time"
  /\ dimensionColumns m = ["time"]
  /\ In "time" (realRoleColumns columns m)
  /\ In "time" (dimensionColumns m)
  /\ ~ List.NoDup (realRoleColumns columns m ++ dimensionColumns m).
Proof.
  assert (Hm : detectEventMapping ["time"; "time"] (<["time" := "timestamp"]> ∅)
               = {| eventTypeColumn := Some "default_event";
                    timestampColumn := Some "time";
                    metricValueColumn := None;
                    dimensionColumns := ["time"] |}) by (vm_compute; reflexivity).
  cbv zeta. rewrite Hm. simpl.
  split; [reflexivity |]. split; [reflexivity |].
  split; [now left |]. split; [now left |].
  intros Hnd. inversion Hnd as [| ? ? Hnotin _]. apply Hnotin. now left.
Qed.

(** The literal [default_event] can also collide with a header: a column of
    that name which is not typed [string] stays a dimension while the
    event-type role carries the same text. *)
Lemma detectEventMapping_sentinel_header :
  let m := detectEventMapping ["default_event"] (<["default_event" := "integer"]> ∅) in
  eventTypeColumn m = Some "default_event" /\ dimensionColumns m = ["default_event"].
Proof. vm_compute. split; reflexivity. Qed.

Example detectEventMapping_scenario :
  detectEventMapping scenarioColumns scenarioSchema
  = {| eventTypeColumn := Some "event_type";
       timestampColumn := Some "timestamp";
       metricValueColumn := Some "value";
       dimensionColumns := ["user_id"; "region"] |}.
Proof. vm_compute. reflexivity. Qed.

(** The name-independent fallback for the timestamp role. *)
Example detectEventMapping_fallback :
  detectEventMapping ["when"; "kind"; "n"]
    (<["when" := "timestamp"]> (<["kind" := "string"]> (<["n" := "integer"]> ∅)))
  = {| eventTypeColumn := Some "default_event";
       timestampColumn := Some "when";
       metricValueColumn := None;
       dimensionColumns := ["kind"; "n"] |}.
Proof. vm_compute. reflexivity. Qed.

Lemma detectEventMapping_partition_witness :
  Permutation
    (realRoleColumns scenarioColumns (detectEventMapping scenarioColumns scenarioSchema)
     ++ dimensionColumns (detectEventMapping scenarioColumns scenarioSchema))
    scenarioColumns
  /\ List.NoDup (roleColumns (detectEventMapping scenarioColumns scenarioSchema)).
Proof.
  assert (Hsentinel : ~ In default_event scenarioColumns).
  { unfold scenarioColumns, default_event. simpl. intuition discriminate. }
  assert (Hnd : List.NoDup scenarioColumns).
  { unfold scenarioColumns. repeat (constructor; simpl; [intuition discriminate |]).
    constructor. }
  destruct (detectEventMapping_partition scenarioColumns scenarioSchema)
    as [_ [Hroles Honce]].
  split.
  - apply Honce; assumption.
  - apply Hroles; assumption.
Defined.

(* ================================================================== *)
(** * Properties: maps built from entries *)
(* ================================================================== *)

Section JSMapFacts.
Context {K V : Type} (sameKey : K -> K -> bool).
Hypothesis sameKey_eq : forall a b, sameKey a b = true <-> a = b.

Lemma sameKey_refl (k : K) : sameKey k k = true.
Proof. now apply sameKey_eq. Qed.

Lemma sameKey_neq (a b : K) : sameKey a b = false <-> a <> b.
Proof. rewrite <- Bool.not_true_iff_false, sameKey_eq. tauto. Qed.

Lemma mapSet_keys (m : list (K * V)) (k : K) (v : V) (k' : K) :
  In k' (map fst (mapSet sameKey m k v)) <-> k' = k \/ In k' (map fst m).
Proof.
  induction m as [| [k1 v1] m IH]; simpl.
  - intuition.
  - destruct (sameKey k k1) eqn:Hk; simpl.
    + apply sameKey_eq in Hk. subst k1. intuition.
    + rewrite IH. intuition.
Qed.

Lemma mapSet_NoDup (m : list (K * V)) (k : K) (v : V) :
  List.NoDup (map fst m) -> List.NoDup (map fst (mapSet sameKey m k v)).
Proof.
  induction m as [| [k1 v1] m IH]; simpl; intros Hnd.
  - constructor; [intros [] | constructor].
  - inversion Hnd as [| ? ? Hnotin Hnd']; subst.
    destruct (sameKey k k1) eqn:Hk; simpl.
    + apply sameKey_eq in Hk. subst k1. now constructor.
    + constructor; [| now apply IH].
      rewrite mapSet_keys. intros [-> | Hin]; [| contradiction].
      rewrite sameKey_refl in Hk. discriminate.
Qed.

Lemma mapSet_In (m : list (K * V)) (k : K) (v : V) (k' : K) (v' : V) :
  List.NoDup (map fst m) ->
  In (k', v') (mapSet sameKey m k v)
  <-> (k' = k /\ v' = v) \/ (k' <> k /\ In (k', v') m).
Proof.
  induction m as [| [k1 v1] m IH]; simpl; intros Hnd.
  - split.
    + intros [[= <- <-] | []]. now left.
    + intros [[-> ->] | [_ []]]. now left.
  - inversion Hnd as [| ? ? Hnotin Hnd']; subst.
    destruct (sameKey k k1) eqn:Hk; simpl.
    + apply sameKey_eq in Hk. subst k1. split.
      * intros [[= <- <-] | Hin]; [now left |].
        right. split; [| now right].
        intros ->. apply Hnotin. apply (in_map fst) in Hin. exact Hin.
      * intros [[-> ->] | [Hne [[= -> ->] | Hin]]]; [now left | contradiction | now right].
    + apply sameKey_neq in Hk. rewrite (IH Hnd'). split.
      * intros [[= <- <-] | [[-> ->] | [Hne Hin]]]; [right | now left | right]; split; auto.
      * intros [[-> ->] | [Hne [Heq | Hin]]]; [right; now left | now left | right; right; auto].
Qed.

(** The entries of the map folded from [entries] over [m]: for each key the
    last value given in [entries], and the value of [m] for the keys that
    [entries] does not mention. *)
Lemma fold_mapSet (entries m : list (K * V)) :
  List.NoDup (map fst m) ->
  let r := fold_left (fun m e => mapSet sameKey m (fst e) (snd e)) entries m in
  List.NoDup (map fst r)
  /\ forall k v, In (k, v) r
                 <-> lastWith sameKey k entries = Some v
                     \/ (lastWith sameKey k entries = None /\ In (k, v) m).
Proof.
  revert m. induction entries as [| [k1 v1] entries IH]; intros m Hnd; simpl.
  - split; [assumption |]. intros k v. intuition discriminate.
  - destruct (IH (mapSet sameKey m k1 v1) (mapSet_NoDup m k1 v1 Hnd)) as [Hnd' Hin].
    split; [assumption |]. intros k v. rewrite Hin, (mapSet_In m k1 v1 k v Hnd).
    destruct (lastWith sameKey k entries) as [w |].
    + intuition discriminate.
    + destruct (sameKey k k1) eqn:Hk.
      * apply sameKey_eq in Hk. subst k1. split.
        -- intros [Hc | [_ [[_ ->] | [Hne _]]]]; [discriminate | now left | contradiction].
        -- intros [[= ->] | [Hc _]]; [| discriminate]. right. split; [reflexivity | now left].
      * apply sameKey_neq in Hk. split.
        -- intros [Hc | [_ [[-> _] | [_ Hm]]]]; [discriminate | contradiction | now right].
        -- intros [Hc | [_ Hm]]; [discriminate |]. right. split; [reflexivity | now right].
Qed.

Lemma newMap_NoDup (entries : list (K * V)) :
  List.NoDup (map fst (newMap sameKey entries)).
Proof. apply (fold_mapSet entries []). constructor. Qed.

Lemma newMap_In (entries : list (K * V)) (k : K) (v : V) :
  In (k, v) (newMap sameKey entries) <-> lastWith sameKey k entries = Some v.
Proof.
  destruct (fold_mapSet entries [] (List.NoDup_nil K)) as [_ Hin].
  unfold newMap. rewrite Hin. simpl. tauto.
Qed.

Lemma lastWith_app (k : K) (l1 l2 : list (K * V)) :
  lastWith sameKey k (l1 ++ l2)
  = match lastWith sameKey k l2 with
    | Some v => Some v
    | None => lastWith sameKey k l1
    end.
Proof.
  induction l1 as [| [k1 v1] l1 IH]; simpl.
  - now destruct (lastWith sameKey k l2).
  - rewrite IH. now destruct (lastWith sameKey k l2).
Qed.

Lemma lastWith_Some (k : K) (entries : list (K * V)) (v : V) :
  lastWith sameKey k entries = Some v -> In (k, v) entries.
Proof.
  induction entries as [| [k1 v1] entries IH]; simpl; [discriminate |].
  destruct (lastWith sameKey k entries) as [w |].
  - intros [= ->]. right. now apply IH.
  - destruct (sameKey k k1) eqn:Hk; [| discriminate].
    apply sameKey_eq in Hk. intros [= ->]. left. now subst.
Qed.

Lemma lastWith_None (k : K) (entries : list (K * V)) :
  lastWith sameKey k entries = None <-> ~ In k (map fst entries).
Proof.
  induction entries as [| [k1 v1] entries IH]; simpl; [tauto |].
  destruct (lastWith sameKey k entries) as [w |].
  - split; [discriminate |]. intros Hnot. exfalso.
    assert (Hw : ~ In k (map fst entries)) by tauto.
    apply IH in Hw. discriminate.
  - destruct (sameKey k k1) eqn:Hk.
    + apply sameKey_eq in Hk. subst. split; [discriminate | tauto].
    + apply sameKey_neq in Hk. split; [| reflexivity].
      intros _ [Heq | Hin]; [congruence | now apply IH in Hin].
Qed.

End JSMapFacts.

(* ================================================================== *)
(** * Properties: merging the two passes *)
(* ================================================================== *)

Section MergeFacts.
Import Anomaly.
Local Open Scope R_scope.

Lemma entriesOf_In (findings : list Finding) (k : Z) (a : Finding) :
  In (k, a) (entriesOf findings) <-> In a findings /\ k = isoKey a.
Proof.
  unfold entriesOf. rewrite in_map_iff. split.
  - intros [b [[= <- <-] Hin]]. auto.
  - intros [Hin ->]. now exists a.
Qed.

Lemma entriesOf_keys (findings : list Finding) (k : Z) :
  In k (map fst (entriesOf findings)) <-> exists b, In b findings /\ isoKey b = k.
Proof.
  unfold entriesOf. rewrite map_map. simpl. rewrite in_map_iff.
  split; intros [b Hb]; exists b; tauto.
Qed.

Lemma uniqueAnomalies_unfold (data : list TimeSeriesDataPoint)
    (config : AnomalyDetectionConfig) :
  uniqueAnomalies data config
  = map snd (newMap Z.eqb (entriesOf (detectOutliers data config
                                      ++ detectTrendAnomalies data config))).
Proof. reflexivity. Qed.

(** A finding is kept exactly when it is the last one of the concatenation
    with its timestamp. *)
Lemma uniqueAnomalies_In (data : list TimeSeriesDataPoint)
    (config : AnomalyDetectionConfig) (a : Finding) :
  In a (uniqueAnomalies data config)
  <-> lastWith Z.eqb (isoKey a)
        (entriesOf (detectOutliers data config ++ detectTrendAnomalies data config))
      = Some a.
Proof.
  rewrite uniqueAnomalies_unfold, in_map_iff. split.
  - intros [[k b] [Hb Hin]]. simpl in Hb. subst b.
    apply (newMap_In Z.eqb Z.eqb_eq) in Hin.
    pose proof (lastWith_Some Z.eqb Z.eqb_eq _ _ _ Hin) as Hmem.
    apply entriesOf_In in Hmem. destruct Hmem as [_ ->]. assumption.
  - intros Hlast. exists (isoKey a, a). split; [reflexivity |].
    now apply (newMap_In Z.eqb Z.eqb_eq).
Qed.

Lemma uniqueAnomalies_keys (data : list TimeSeriesDataPoint)
    (config : AnomalyDetectionConfig) :
  map isoKey (uniqueAnomalies data config)
  = map fst (newMap Z.eqb (entriesOf (detectOutliers data config
                                      ++ detectTrendAnomalies data config))).
Proof.
  rewrite uniqueAnomalies_unfold, map_map. apply map_ext_in.
  intros [k a] Hin. simpl.
  apply (newMap_In Z.eqb Z.eqb_eq) in Hin.
  apply (lastWith_Some Z.eqb Z.eqb_eq), entriesOf_In in Hin. now destruct Hin.
Qed.

(** C4.  The merged findings hold at most one finding per timestamp; each
    comes from the outlier pass or from the trend pass; every timestamp
    that a pass flags is kept; and for a timestamp that the trend pass
    flags, the finding kept is one of the trend pass. *)
Theorem uniqueAnomalies_merge (data : list TimeSeriesDataPoint)
    (config : AnomalyDetectionConfig) :
  let outlierAnomalies := detectOutliers data config in
  let trendAnomalies := detectTrendAnomalies data config in
  let merged := uniqueAnomalies data config in
  List.NoDup (map isoKey merged)
  /\ (forall a, In a merged -> In a outlierAnomalies \/ In a trendAnomalies)
  /\ (forall a, In a outlierAnomalies \/ In a trendAnomalies ->
                exists b, In b merged /\ isoKey b = isoKey a)
  /\ (forall a, In a merged ->
                (exists b, In b trendAnomalies /\ isoKey b = isoKey a) ->
                In a trendAnomalies).
Proof.
  intros out tr merged. subst merged.
  split; [| split; [| split]].
  - rewrite uniqueAnomalies_keys. apply (newMap_NoDup Z.eqb Z.eqb_eq).
  - intros a Ha. apply uniqueAnomalies_In in Ha.
    apply (lastWith_Some Z.eqb Z.eqb_eq), entriesOf_In in Ha.
    destruct Ha as [Ha _]. now apply in_app_or in Ha.
  - intros a Ha.
    destruct (lastWith Z.eqb (isoKey a) (entriesOf (out ++ tr))) as [b |] eqn:Hlast.
    + pose proof (lastWith_Some Z.eqb Z.eqb_eq _ _ _ Hlast) as Hmem.
      apply entriesOf_In in Hmem. destruct Hmem as [_ Hkey].
      exists b. split; [| now symmetry].
      apply uniqueAnomalies_In. fold out tr. now rewrite <- Hkey.
    + apply (lastWith_None Z.eqb Z.eqb_eq) in Hlast. exfalso. apply Hlast.
      apply entriesOf_keys. exists a. split; [| reflexivity].
      apply in_or_app. exact Ha.
  - intros a Ha [b [Hb Hkey]]. apply uniqueAnomalies_In in Ha. fold out tr in Ha.
    unfold entriesOf in Ha. rewrite map_app in Ha. fold (entriesOf out) (entriesOf tr) in Ha.
    rewrite lastWith_app in Ha.
    destruct (lastWith Z.eqb (isoKey a) (entriesOf tr)) as [c |] eqn:Hlast.
    + injection Ha as ->.
      apply (lastWith_Some Z.eqb Z.eqb_eq), entriesOf_In in Hlast. now destruct Hlast.
    + apply (lastWith_None Z.eqb Z.eqb_eq) in Hlast. exfalso. apply Hlast.
      apply entriesOf_keys. now exists b.
Qed.

End MergeFacts.

(* ================================================================== *)
(** * Properties: the outlier pass *)
(* ================================================================== *)

Section OutlierFacts.
Import Anomaly Textbook.
Local Open Scope R_scope.


Lemma ltb_false (x y : R) : Num.ltb x y = false <-> ~ x < y.
Proof. unfold Num.ltb. destruct (Rlt_dec x y); intuition discriminate. Qed.

Lemma gtb_true (x y : R) : Num.gtb x y = true <-> x > y.
Proof. unfold Num.gtb. destruct (Rgt_dec x y); intuition discriminate. Qed.

Lemma gtb_false (x y : R) : Num.gtb x y = false <-> ~ x > y.
Proof. unfold Num.gtb. destruct (Rgt_dec x y); intuition discriminate. Qed.

Lemma geb_true (x y : R) : Num.geb x y = true <-> x >= y.
Proof. unfold Num.geb. destruct (Rge_dec x y); intuition discriminate. Qed.


Lemma eqb_true (x y : R) : Num.eqb x y = true <-> x = y.
Proof. unfold Num.eqb. destruct (Req_dec_T x y); intuition discriminate. Qed.

Lemma eqb_false (x y : R) : Num.eqb x y = false <-> x <> y.
Proof. unfold Num.eqb. destruct (Req_dec_T x y); intuition discriminate. Qed.

Lemma insert_length (x : R) (sorted : list R) :
  List.length (Num.insert x sorted) = S (List.length sorted).
Proof.
  induction sorted as [| y sorted IH]; simpl; [reflexivity |].
  destruct (Rle_dec x y); simpl; [reflexivity | now rewrite IH].
Qed.

Lemma sort_length (values : list R) : List.length (Num.sort values) = List.length values.
Proof.
  induction values as [| x values IH]; simpl; [reflexivity |].
  now rewrite insert_length, IH.
Qed.

Lemma calculateStatistics_mean (values : list R) :
  values <> [] -> mean (calculateStatistics values) = meanOf values.
Proof.
  destruct values as [| x values]; [congruence |]. intros _.
  unfold calculateStatistics, meanOf. cbv zeta. cbn [mean].
  now rewrite sort_length.
Qed.

Lemma calculateStatistics_stddev (values : list R) :
  values <> [] -> stddev (calculateStatistics values) = stddevOf values.
Proof.
  destruct values as [| x values]; [congruence |]. intros _.
  unfold calculateStatistics, stddevOf, meanOf. cbv zeta. cbn [stddev].
  now rewrite sort_length.
Qed.


(** The guard on the standard deviation. *)
Lemma detectOutliers_stddev_guard (data : list TimeSeriesDataPoint)
    (config : AnomalyDetectionConfig) :
  stddev (calculateStatistics (map value data)) = 0 ->
  detectOutliers data config = [].
Proof.
  intros Hzero. unfold detectOutliers.
  destruct (Num.ltb (INR (List.length data)) (minDataPoints config)); [reflexivity |].
  apply eqb_true in Hzero. now rewrite Hzero.
Qed.












(** Past its two guards the pass is the loop over the points. *)
Lemma detectOutliers_loop (data : list TimeSeriesDataPoint)
    (config : AnomalyDetectionConfig) :
  minDataPoints config <= INR (List.length data) ->
  stddev (calculateStatistics (map value data)) <> 0 ->
  detectOutliers data config
  = let stats := calculateStatistics (map value data) in
    flat_map (checkOutlier config stats
                (mean stats + stddevThreshold config * stddev stats)
                (mean stats - stddevThreshold config * stddev stats)) data.
Proof.
  intros Hlen Hsd. unfold detectOutliers.
  assert (Hl : Num.ltb (INR (List.length data)) (minDataPoints config) = false)
    by (apply ltb_false; lra).
  apply eqb_false in Hsd. now rewrite Hl, Hsd.
Qed.


End OutlierFacts.

Section OutlierClaims.
Import Anomaly Textbook.
Local Open Scope R_scope.





End OutlierClaims.

(* ================================================================== *)
(** * The outlier pass on small series *)
(* ================================================================== *)

Section OutlierExamples.
Import Anomaly Textbook.
Local Open Scope R_scope.










End OutlierExamples.

(* ================================================================== *)
(** * The merge on a series that both passes flag *)
(* ================================================================== *)

Section MergeExample.
Import Anomaly Textbook.
Local Open Scope R_scope.

Lemma sqrt_between (a x b : R) :
  0 <= a -> a * a < x -> x < b * b -> 0 <= b -> a < sqrt x < b.
Proof.
  intros Ha Hax Hxb Hb. split.
  - rewrite <- (sqrt_square a Ha). apply sqrt_lt_1_alt. nra.
  - rewrite <- (sqrt_square b Hb). apply sqrt_lt_1_alt. nra.
Qed.

Lemma jumpSeries_mean : mean (calculateStatistics (map value jumpSeries)) = 3.
Proof.
  rewrite calculateStatistics_mean by discriminate. unfold meanOf. simpl. lra.
Qed.

Lemma jumpSeries_stddev : 3 < stddev (calculateStatistics (map value jumpSeries)) < 4.
Proof.
  rewrite calculateStatistics_stddev by discriminate. unfold stddevOf.
  replace (meanOf (map value jumpSeries)) with 3
    by (unfold meanOf; simpl; lra).
  simpl.
  replace ((0 + (1 - 3) * ((1 - 3) * 1) + (1 - 3) * ((1 - 3) * 1)
            + (1 - 3) * ((1 - 3) * 1) + (9 - 3) * ((9 - 3) * 1)) / (1 + 1 + 1 + 1))
    with 12 by field.
  apply sqrt_between; lra.
Qed.

Lemma getSeverity_critical (deviation : R) :
  100 <= deviation -> getSeverity deviation 3 = critical.
Proof.
  intros Hdev. unfold getSeverity.
  assert (H3 : Num.geb deviation (100 / 3 * 3) = true) by (apply geb_true; lra).
  now rewrite H3.
Qed.

Lemma jumpSeries_outliers : detectOutliers jumpSeries (configOf 1) = [jumpOutlier].
Proof.
  pose proof jumpSeries_mean as Hmean. pose proof jumpSeries_stddev as Hsd.
  rewrite detectOutliers_loop; [| simpl; lra | lra].
  cbv zeta. set (stats := calculateStatistics (map value jumpSeries)) in *.
  assert (Hlow : forall t, checkOutlier (configOf 1) stats
                             (mean stats + stddevThreshold (configOf 1) * stddev stats)
                             (mean stats - stddevThreshold (configOf 1) * stddev stats)
                             (pointAt t 1) = []).
  { intros t. unfold checkOutlier.
    cbn [value pointAt stddevThreshold sensitivityLevel configOf].
    rewrite (proj2 (gtb_false 1 _)) by lra.
    rewrite (proj2 (gtb_false (mean stats - 1 * stddev stats) 0)) by lra.
    now rewrite Bool.andb_false_r. }
  unfold jumpSeries. cbn [flat_map]. rewrite !Hlow. cbn [app].
  unfold checkOutlier.
  cbn [value pointAt stddevThreshold sensitivityLevel configOf].
  rewrite (proj2 (gtb_true 9 _)) by lra.
  rewrite Hmean. unfold jumpOutlier. cbn [app].
  rewrite (getSeverity_critical ((9 - 3) / 3 * 100)) by lra.
  replace ((9 - 3) / 3 * 100) with 200 by lra.
  rewrite (Rabs_right 200) by lra. reflexivity.
Qed.

Lemma jumpSeries_trend : detectTrendAnomalies jumpSeries (configOf 1) = [jumpTrend].
Proof.
  unfold detectTrendAnomalies.
  rewrite (proj2 (ltb_false _ _)) by (simpl; lra).
  unfold jumpSeries. cbn [trendLoop]. unfold checkTrend. simpl.
  rewrite (proj2 (eqb_false ((1 + 1) / 2) 0)) by lra.
  replace ((1 - (1 + 1) / 2) / ((1 + 1) / 2) * 100) with 0 by lra.
  replace ((9 - (1 + 1) / 2) / ((1 + 1) / 2) * 100) with 800 by lra.
  rewrite Rabs_R0, (Rabs_right 800) by lra.
  rewrite (proj2 (gtb_false 0 (50 / 3))) by lra.
  rewrite (proj2 (gtb_true 800 (50 / 3))) by lra.
  rewrite (proj2 (gtb_true 800 0)) by lra.
  cbn [app]. unfold jumpTrend.
  rewrite (getSeverity_critical 800) by lra.
  replace ((1 + 1) / 2) with 1 by lra. reflexivity.
Qed.

(** Both passes flag the last point; the merged array holds the trend
    finding only, whose expected value is the average of the two points
    before and not the mean of the series. *)
Example jumpSeries_merged :
  isoKey jumpOutlier = isoKey jumpTrend
  /\ expectedValue jumpOutlier <> expectedValue jumpTrend
  /\ uniqueAnomalies jumpSeries (configOf 1) = [jumpTrend].
Proof.
  split; [reflexivity |]. split; [simpl; lra |].
  unfold uniqueAnomalies. rewrite jumpSeries_outliers, jumpSeries_trend. reflexivity.
Qed.

End MergeExample.

(* ================================================================== *)
(** * The scenarios of the specification for the detector *)
(* ================================================================== *)

Section DetectorScenarios.
Import Anomaly Textbook.
Local Open Scope R_scope.

(** A point above the upper bound yields this finding. *)
Lemma detectOutliers_spike_finding (data : list TimeSeriesDataPoint)
    (config : AnomalyDetectionConfig) (point : TimeSeriesDataPoint) :
  minDataPoints config <= INR (List.length data) ->
  stddev (calculateStatistics (map value data)) <> 0 ->
  In point data ->
  let stats := calculateStatistics (map value data) in
  value point > mean stats + stddevThreshold config * stddev stats ->
  In {| dataPoint := point; anomalyType := spike;
        severity := getSeverity ((value point - mean stats) / mean stats * 100)
                      (sensitivityLevel config);
        expectedValue := mean stats;
        deviationPercentage := Rabs ((value point - mean stats) / mean stats * 100) |}
     (detectOutliers data config).
Proof.
  intros Hlen Hsd Hin stats Hup.
  rewrite (detectOutliers_loop data config Hlen Hsd). cbv zeta. fold stats.
  apply in_flat_map. exists point. split; [assumption |].
  unfold checkOutlier. rewrite (proj2 (gtb_true _ _) Hup). now left.
Qed.

Lemma scenarioSeries_mean :
  mean (calculateStatistics (map value scenarioSeries)) = 400 / 3.
Proof.
  rewrite calculateStatistics_mean by discriminate. unfold meanOf. simpl. lra.
Qed.

Lemma scenarioSeries_stddev :
  110 < stddev (calculateStatistics (map value scenarioSeries)) < 111.
Proof.
  rewrite calculateStatistics_stddev by discriminate. unfold stddevOf.
  replace (meanOf (map value scenarioSeries)) with (400 / 3)
    by (unfold meanOf; simpl; lra).
  simpl.
  match goal with
  | |- _ < sqrt ?radicand < _ => replace radicand with (110000 / 9) by field
  end.
  apply sqrt_between; lra.
Qed.

(** Third scenario: eleven points at 100 and one at 500.  The point at
    500 is a spike that deviates by 275 percent from the mean, which is
    [critical] at sensitivity 3. *)
Example scenario_spike_critical :
  In {| dataPoint := pointAt 39600000 500; anomalyType := spike; severity := critical;
        expectedValue := 400 / 3; deviationPercentage := 275 |}
     (detectOutliers scenarioSeries (DEFAULT_CONFIG 3)).
Proof.
  pose proof scenarioSeries_mean as Hmean. pose proof scenarioSeries_stddev as Hsd.
  assert (Hin : In (pointAt 39600000 500) scenarioSeries).
  { unfold scenarioSeries. apply in_or_app. right. now left. }
  pose proof (detectOutliers_spike_finding scenarioSeries (DEFAULT_CONFIG 3)
                (pointAt 39600000 500)) as Hfinding.
  cbv zeta in Hfinding. rewrite Hmean in Hfinding.
  cbn [value pointAt sensitivityLevel stddevThreshold minDataPoints DEFAULT_CONFIG]
    in Hfinding.
  replace ((500 - 400 / 3) / (400 / 3) * 100) with 275 in Hfinding by field.
  rewrite (Rabs_right 275), (getSeverity_critical 275) in Hfinding by lra.
  apply Hfinding; [simpl; lra | lra | assumption | lra].
Qed.

End DetectorScenarios.

(* ================================================================== *)
(** * Properties: the compute-and-persist aggregation *)
(* ================================================================== *)

Section AggregationFacts.
Import Aggregation Textbook.
Local Open Scope R_scope.

Lemma total_squared_deviations (a : R) (values : list R) :
  total (map (fun x => (x - a) ^ 2) values)
  = total (map (fun x => x * x) values) - 2 * a * total values
    + INR (List.length values) * a * a.
Proof.
  induction values as [| x values IH].
  - simpl. lra.
  - cbn [map total fold_right List.length]. fold (total (map (fun x => (x - a) ^ 2) values)).
    fold (total (map (fun x => x * x) values)). fold (total values).
    rewrite IH, S_INR. simpl. lra.
Qed.

Lemma total_squares_nonneg (a : R) (values : list R) :
  0 <= total (map (fun x => (x - a) ^ 2) values).
Proof.
  induction values as [| x values IH].
  - simpl. lra.
  - cbn [map total fold_right]. fold (total (map (fun x => (x - a) ^ 2) values)).
    pose proof (pow2_ge_0 (x - a)). lra.
Qed.

(** [N * sumX2 - sumX * sumX] is [N] times the sum of the squared
    deviations from the average. *)
Lemma numerator_squaredDeviations (values : list R) :
  values <> [] ->
  INR (List.length values) * total (map (fun x => x * x) values)
  - total values * total values
  = INR (List.length values) * squaredDeviations values.
Proof.
  intros Hne. unfold squaredDeviations, average.
  rewrite total_squared_deviations.
  assert (Hn : INR (List.length values) <> 0).
  { apply not_0_INR. destruct values; [congruence | discriminate]. }
  field. assumption.
Qed.

(** [STDDEV] is the sample standard deviation, and [NULL] below two values. *)
Lemma STDDEV_sample (column : list (option R)) :
  STDDEV column
  = if Nat.leb (List.length (nonNull column)) 1 then None
    else Some (sampleStddev (nonNull column)).
Proof.
  unfold STDDEV. set (values := nonNull column).
  destruct (Nat.leb (List.length values) 1) eqn:Hlen; [reflexivity |].
  apply Nat.leb_gt in Hlen.
  assert (Hne : values <> []) by (destruct values; [simpl in Hlen; lia | discriminate]).
  assert (Hn : 2 <= INR (List.length values)).
  { replace 2 with (INR 2) by (simpl; lra). apply le_INR. lia. }
  rewrite (numerator_squaredDeviations values Hne).
  pose proof (total_squares_nonneg (average values) values) as Hnn.
  fold (squaredDeviations values) in Hnn.
  unfold sampleStddev.
  destruct (Num.gtb (INR (List.length values) * squaredDeviations values) 0) eqn:Hpos.
  - f_equal. f_equal. field. lra.
  - apply gtb_false in Hpos.
    assert (Hzero : squaredDeviations values = 0) by nra.
    rewrite Hzero. unfold Rdiv. rewrite Rmult_0_l, sqrt_0. reflexivity.
Qed.

Lemma filter_filter {A : Type} (f g : A -> bool) (l : list A) :
  List.filter g (List.filter f l) = List.filter (fun x => f x && g x) l.
Proof.
  induction l as [| x l IH]; simpl; [reflexivity |].
  destruct (f x); simpl; [| assumption].
  destruct (g x); now rewrite IH.
Qed.

Lemma resultsFor_unit (period : AggregationPeriod) (events : list AnalyticsEvent)
    (tenantId eventType : string) (startDate endDate : Z) :
  resultsFor period events tenantId eventType startDate endDate
  = computeAggregationBy (unitOf period) events tenantId eventType startDate endDate.
Proof. destruct period; reflexivity. Qed.

(** Each metric handed to the store belongs to a bucket that holds at
    least one selected event, and carries the [STDDEV] of that bucket. *)
Lemma computedMetrics_In (events : list AnalyticsEvent) (tenantId eventType : string)
    (period : AggregationPeriod) (startDate endDate : Z) (m : AggregatedMetric) :
  In m (computedMetrics events tenantId eventType period startDate endDate) ->
  (exists e, In e events /\ selects tenantId eventType startDate endDate e = true
             /\ date_trunc (unitOf period) (event_timestamp e) = period_start m)
  /\ stddev_value m
     = let values := bucketValues events tenantId eventType period startDate endDate
                       (period_start m) in
       if Nat.leb (List.length values) 1 then None else Some (sampleStddev values).
Proof.
  unfold computedMetrics. rewrite resultsFor_unit. unfold computeAggregationBy.
  rewrite map_map, in_map_iff. intros [start [<- Hstart]].
  apply nodup_In, in_map_iff in Hstart. destruct Hstart as [e [Htrunc He]].
  apply filter_In in He. destruct He as [He Hsel].
  split; [now exists e |].
  cbn [metricOf stddev_value period_start row_stddev_value row_period_start parseNullable].
  rewrite STDDEV_sample. unfold bucketValues, bucket. fold (unitOf period).
  rewrite filter_filter.
  destruct (Nat.leb _ 1); reflexivity.
Qed.

(** C2, as amended.  For every tenant, event type, period and window, the
    [stddev_value] handed to the store for a bucket is the sample standard
    deviation of the bucket's non-null metric values (the variance divides
    by [N - 1]), and [null] when the bucket has fewer than two of them. *)
Theorem computedMetrics_stddev_sample (events : list AnalyticsEvent)
    (tenantId eventType : string) (period : AggregationPeriod)
    (startDate endDate : Z) (m : AggregatedMetric) :
  In m (computedMetrics events tenantId eventType period startDate endDate) ->
  let values := bucketValues events tenantId eventType period startDate endDate
                  (period_start m) in
  (List.length values <= 1)%nat /\ stddev_value m = None
  \/ (2 <= List.length values)%nat
     /\ stddev_value m
        = Some (sqrt (squaredDeviations values / (INR (List.length values) - 1))).
Proof.
  intros Hin values. apply computedMetrics_In in Hin. destruct Hin as [_ Hsd].
  cbv zeta in Hsd. fold values in Hsd. rewrite Hsd.
  destruct (Nat.leb (List.length values) 1) eqn:Hlen.
  - left. apply Nat.leb_le in Hlen. auto.
  - right. apply Nat.leb_gt in Hlen. split; [lia | reflexivity].
Qed.

End AggregationFacts.

Section StoreFacts.
Import Aggregation Textbook.
Local Open Scope R_scope.

Lemma periodEqb_eq (p q : AggregationPeriod) : periodEqb p q = true <-> p = q.
Proof. destruct p, q; simpl; intuition discriminate. Qed.

Lemma conflicts_key (a b : AggregatedMetric) :
  conflicts a b = true <-> keyOf a = keyOf b.
Proof.
  unfold conflicts, keyOf.
  rewrite !Bool.andb_true_iff, !String.eqb_eq, periodEqb_eq, Z.eqb_eq,
    bool_decide_eq_true.
  split.
  - intros [[[[-> ->] ->] ->] ->]. reflexivity.
  - intros [= -> -> -> -> ->]. auto.
Qed.

Lemma insertAggregatedMetric_stored (store : list AggregatedMetric) (m : AggregatedMetric) :
  exists stored, In stored (insertAggregatedMetric store m)
                 /\ keyOf stored = keyOf m
                 /\ stddev_value stored = stddev_value m.
Proof.
  induction store as [| s store IH]; simpl.
  - exists m. split; [now left | split; reflexivity].
  - destruct (conflicts s m) eqn:Hc.
    + apply conflicts_key in Hc. eexists. split; [now left |]. split; [| reflexivity].
      rewrite <- Hc. reflexivity.
    + destruct IH as [stored [Hin Hrest]]. exists stored. split; [now right | assumption].
Qed.

Lemma insertAggregatedMetric_keeps (store : list AggregatedMetric)
    (m s : AggregatedMetric) :
  In s store -> keyOf s <> keyOf m -> In s (insertAggregatedMetric store m).
Proof.
  induction store as [| s0 store IH]; simpl; [tauto |].
  intros [-> | Hin] Hkey.
  - destruct (conflicts s m) eqn:Hc; [apply conflicts_key in Hc; contradiction | now left].
  - destruct (conflicts s0 m); right; [assumption | now apply IH].
Qed.

Lemma fold_insert_keeps (ms store : list AggregatedMetric) (s : AggregatedMetric) :
  In s store -> (forall m, In m ms -> keyOf s <> keyOf m) ->
  In s (fold_left insertAggregatedMetric ms store).
Proof.
  revert store. induction ms as [| m ms IH]; intros store Hin Hkeys; simpl; [assumption |].
  apply IH.
  - apply insertAggregatedMetric_keeps; [assumption | apply Hkeys; now left].
  - intros m' Hm'. apply Hkeys. now right.
Qed.

Lemma fold_insert_stored (ms store : list AggregatedMetric) (m : AggregatedMetric) :
  List.NoDup (map keyOf ms) -> In m ms ->
  exists stored, In stored (fold_left insertAggregatedMetric ms store)
                 /\ keyOf stored = keyOf m
                 /\ stddev_value stored = stddev_value m.
Proof.
  revert store. induction ms as [| m0 ms IH]; intros store Hnd Hin; [destruct Hin |].
  inversion Hnd as [| ? ? Hnotin Hnd']; subst. simpl.
  destruct Hin as [-> | Hin].
  - destruct (insertAggregatedMetric_stored store m) as [stored [Hs [Hkey Hsd]]].
    exists stored. split; [| split; assumption].
    apply fold_insert_keeps; [assumption |].
    intros m' Hm' Heq. apply Hnotin. rewrite <- Hkey, Heq. now apply in_map.
  - now apply IH.
Qed.

Lemma computedMetrics_keys (events : list AnalyticsEvent) (tenantId eventType : string)
    (period : AggregationPeriod) (startDate endDate : Z) :
  List.NoDup (map keyOf (computedMetrics events tenantId eventType period startDate endDate)).
Proof.
  apply (NoDup_map_inv (fun k => snd (fst k))). rewrite map_map.
  unfold computedMetrics. rewrite resultsFor_unit. unfold computeAggregationBy.
  rewrite !map_map. simpl. rewrite map_id. apply List.NoDup_nodup.
Qed.

(** After [computeAndStoreAggregations] the table holds, for every bucket,
    a row with the bucket's key whose [stddev_value] is the one computed. *)
Lemma computeAndStoreAggregations_stored (events : list AnalyticsEvent)
    (tenantId eventType : string) (period : AggregationPeriod) (startDate endDate : Z)
    (store : list AggregatedMetric) (m : AggregatedMetric) :
  In m (computedMetrics events tenantId eventType period startDate endDate) ->
  exists stored,
    In stored (computeAndStoreAggregations events tenantId eventType period
                 startDate endDate store)
    /\ keyOf stored = keyOf m
    /\ stddev_value stored = stddev_value m.
Proof.
  intros Hin. unfold computeAndStoreAggregations.
  apply fold_insert_stored; [apply computedMetrics_keys | assumption].
Qed.

End StoreFacts.

Section AggregationExamples.
Import Aggregation Textbook.
Local Open Scope R_scope.

Lemma twoPurchases_metrics :
  computedMetrics twoPurchases "acme" "purchase" hour 1704067200000 1704070800000
  = [newYearHour].
Proof. reflexivity. Qed.

Lemma twoPurchases_bucket :
  bucketValues twoPurchases "acme" "purchase" hour 1704067200000 1704070800000
    (period_start newYearHour) = [1; 3].
Proof. reflexivity. Qed.

Lemma stddev_1_3 : sampleStddev [1; 3] = sqrt 2 /\ populationStddev [1; 3] = 1.
Proof.
  unfold sampleStddev, populationStddev, squaredDeviations, average, total. simpl. split.
  - f_equal. replace ((1 + (3 + 0)) / (1 + 1)) with 2 by lra.
    replace (1 + 1 - 1) with 1 by lra. lra.
  - transitivity (sqrt 1); [| apply sqrt_1].
    f_equal. replace ((1 + (3 + 0)) / (1 + 1)) with 2 by lra. lra.
Qed.

Lemma sqrt_2_not_1 : sqrt 2 <> 1.
Proof.
  intros Heq. assert (Hsq : sqrt 2 * sqrt 2 = 2) by (apply sqrt_sqrt; lra).
  rewrite Heq in Hsq. lra.
Qed.

(** Counterexample for C2 as stated: for the bucket with the values 1 and
    3 the value stored is the square root of 2 (the variance
    [2 / (2 - 1)]), while the population standard deviation of 1 and 3
    is 1. *)
Lemma computedMetrics_stddev_not_population :
  In newYearHour
     (computedMetrics twoPurchases "acme" "purchase" hour 1704067200000 1704070800000)
  /\ bucketValues twoPurchases "acme" "purchase" hour 1704067200000 1704070800000
       (period_start newYearHour) = [1; 3]
  /\ stddev_value newYearHour = Some (sqrt 2)
  /\ populationStddev [1; 3] = 1
  /\ stddev_value newYearHour <> Some (populationStddev [1; 3]).
Proof.
  assert (Hsd : stddev_value newYearHour = Some (sqrt 2)).
  { cbn [stddev_value newYearHour]. rewrite STDDEV_sample. simpl.
    now rewrite (proj1 stddev_1_3). }
  split; [rewrite twoPurchases_metrics; now left |].
  split; [exact twoPurchases_bucket |].
  split; [exact Hsd |]. split; [exact (proj2 stddev_1_3) |].
  rewrite Hsd, (proj2 stddev_1_3). intros [= Heq]. now apply sqrt_2_not_1.
Qed.

(** A bucket with a single value gets [null], where the population standard
    deviation would be zero. *)
Lemma single_value_bucket_null :
  map stddev_value
      (computedMetrics [purchase 1704067200000 5] "acme" "purchase" day
         1704067200000 1704070800000)
  = [None].
Proof. reflexivity. Qed.

Lemma computedMetrics_stddev_sample_witness :
  (2 <= List.length [1; 3])%nat
  /\ stddev_value newYearHour
     = Some (sqrt (squaredDeviations [1; 3] / (INR (List.length [1; 3]) - 1))).
Proof.
  assert (Hin : In newYearHour
                  (computedMetrics twoPurchases "acme" "purchase" hour
                     1704067200000 1704070800000)) by (now left).
  destruct (computedMetrics_stddev_sample twoPurchases "acme" "purchase" hour
              1704067200000 1704070800000 newYearHour Hin) as [[Hle _] | Hsample].
  - simpl in Hle. lia.
  - exact Hsample.
Defined.

End AggregationExamples.

(* ================================================================== *)
(** * Further properties: schema inference over a file *)
(* ================================================================== *)

Section InferSchemaFacts.
Context {rt : Runtime}.

Lemma inferDataType_range (value : Cell) : In (inferDataType value) dataTypes.
Proof.
  unfold inferDataType, dataTypes.
  repeat match goal with
         | |- context [if ?b then _ else _] => destruct b
         end; simpl; tauto.
Qed.

Lemma sample_firstn {A : Type} (data : list A) :
  firstn (Nat.min 100 (List.length data)) data = firstn 100 data.
Proof.
  destruct (Nat.le_ge_cases 100 (List.length data)) as [Hle | Hge].
  - now rewrite Nat.min_l.
  - rewrite Nat.min_r by assumption.
    rewrite firstn_all. symmetry. now apply firstn_all2.
Qed.

Lemma sampleTypes_firstn (data : list (gmap string Cell)) (column : string) :
  sampleTypes data column = sampleTypes (firstn 100 data) column.
Proof.
  unfold sampleTypes. rewrite !sample_firstn.
  now rewrite firstn_firstn, Nat.min_id.
Qed.

Lemma inferSchema_fold (data data' : list (gmap string Cell)) (columns : list string) :
  (forall c, sampleTypes data c = sampleTypes data' c) ->
  forall acc,
    fold_left (fun schema column =>
                 setProperty schema column (fst (dominantOf (sampleTypes data column))))
      columns acc
    = fold_left (fun schema column =>
                   setProperty schema column (fst (dominantOf (sampleTypes data' column))))
        columns acc.
Proof.
  intros Hsame. induction columns as [| c columns IH]; intros acc; simpl.
  - reflexivity.
  - now rewrite Hsame, IH.
Qed.

(** X1.  The schema is inferred from the first hundred rows only: the rows
    after them never change the type of a column. *)
Theorem inferSchema_sample (data : list (gmap string Cell)) (columns : list string) :
  inferSchema data columns = inferSchema (firstn 100 data) columns.
Proof.
  unfold inferSchema. apply inferSchema_fold. apply sampleTypes_firstn.
Qed.

Lemma inferSchema_lookup_fold (data : list (gmap string Cell)) (columns : list string)
    (c : string) :
  forall acc : gmap string string,
    fold_left (fun schema column =>
                 setProperty schema column (fst (dominantOf (sampleTypes data column))))
      columns acc !! c
    = if String.eqb c "__proto__" then acc !! c
      else if arrayIncludes columns c
           then Some (fst (dominantOf (sampleTypes data c)))
           else acc !! c.
Proof.
  induction columns as [| c0 columns IH]; intros acc; simpl.
  - now destruct (String.eqb c "__proto__").
  - rewrite IH. unfold setProperty.
    destruct (String.eqb c "__proto__") eqn:Hproto.
    + apply String.eqb_eq in Hproto.
      destruct (String.eqb_spec c0 "__proto__") as [Hc0 | Hc0]; [reflexivity |].
      rewrite lookup_insert_ne by congruence. reflexivity.
    + destruct (arrayIncludes columns c) eqn:Hin; simpl.
      * now rewrite Bool.orb_true_r.
      * rewrite Bool.orb_false_r.
        destruct (String.eqb_spec c c0) as [Heq | Hne].
        -- rewrite <- Heq, Hproto. now rewrite lookup_insert_eq.
        -- destruct (String.eqb c0 "__proto__"); [reflexivity |].
           rewrite lookup_insert_ne by congruence. reflexivity.
Qed.

Lemma inferSchema_lookup (data : list (gmap string Cell)) (columns : list string)
    (c : string) :
  inferSchema data columns !! c
  = if String.eqb c "__proto__" then None
    else if arrayIncludes columns c
         then Some (fst (dominantOf (sampleTypes data c)))
         else None.
Proof.
  unfold inferSchema. rewrite inferSchema_lookup_fold.
  now rewrite lookup_empty.
Qed.

(** The counts kept in [types]. *)
Lemma mapGet_mapSet {V : Type} (m : list (string * V)) (k k' : string) (v : V) :
  mapGet String.eqb (mapSet String.eqb m k v) k'
  = if String.eqb k' k then Some v else mapGet String.eqb m k'.
Proof.
  induction m as [| [k1 v1] m IH]; simpl.
  - reflexivity.
  - destruct (String.eqb_spec k k1) as [-> | Hk]; simpl.
    + destruct (String.eqb k' k1); reflexivity.
    + rewrite IH. destruct (String.eqb_spec k' k1) as [-> | Hk'].
      * apply not_eq_sym, String.eqb_neq in Hk. now rewrite Hk.
      * reflexivity.
Qed.

Lemma mapGet_In {V : Type} (m : list (string * V)) (k : string) (v : V) :
  List.NoDup (map fst m) ->
  In (k, v) m <-> mapGet String.eqb m k = Some v.
Proof.
  induction m as [| [k1 v1] m IH]; simpl; intros Hnd.
  - split; [tauto | discriminate].
  - inversion Hnd as [| ? ? Hnotin Hnd']; subst.
    destruct (String.eqb_spec k k1) as [-> | Hk].
    + split.
      * intros [[= ->] | Hin]; [reflexivity |].
        exfalso. apply Hnotin. apply (in_map fst) in Hin. exact Hin.
      * intros [= ->]. now left.
    + rewrite <- (IH Hnd'). split.
      * intros [[= -> ->] | Hin]; [congruence | assumption].
      * intros Hin. now right.
Qed.

Lemma countType_countsOf (types : list (string * nat)) (seen : list string) (t0 : string) :
  countsOf types seen -> countsOf (countType types t0) (seen ++ [t0]).
Proof.
  intros [Hnd Hget]. split.
  - apply (mapSet_NoDup String.eqb String.eqb_eq). assumption.
  - intros t. unfold countType. rewrite mapGet_mapSet, count_occ_app. simpl.
    destruct (String.eqb_spec t t0) as [-> | Hne].
    + rewrite Hget. destruct (string_dec t0 t0) as [_ | Hc]; [| congruence].
      destruct (Nat.eqb_spec (count_occ string_dec seen t0) 0) as [Hz | Hnz].
      * rewrite Hz. reflexivity.
      * simpl. destruct (Nat.eqb_spec (count_occ string_dec seen t0 + 1) 0); [lia |].
        reflexivity.
    + rewrite Hget. destruct (string_dec t0 t) as [Hc | _]; [congruence |].
      now rewrite Nat.add_0_r.
Qed.

Lemma fold_countType (l seen : list string) (types : list (string * nat)) :
  countsOf types seen -> countsOf (fold_left countType l types) (seen ++ l).
Proof.
  revert seen types. induction l as [| t l IH]; intros seen types Hc; simpl.
  - now rewrite app_nil_r.
  - replace (seen ++ t :: l) with ((seen ++ [t]) ++ l)
      by (rewrite <- app_assoc; reflexivity).
    apply IH. now apply countType_countsOf.
Qed.

Lemma sampleTypes_counts (data : list (gmap string Cell)) (column : string) :
  countsOf (sampleTypes data column) (sampledTypes data column).
Proof.
  unfold sampleTypes, sampledTypes. rewrite sample_firstn.
  assert (Hfold : forall (l : list (gmap string Cell)) acc,
             fold_left (fun types r => countType types (inferDataType (getCell r column)))
               l acc
             = fold_left countType (map (fun r => inferDataType (getCell r column)) l) acc).
  { induction l as [| r l IH]; intros acc; simpl; [reflexivity | apply IH]. }
  rewrite Hfold. apply (fold_countType _ [] []).
  split; [constructor | reflexivity].
Qed.

Lemma dominantOf_fold (types : list (string * nat)) (best : string * nat) :
  let result := fold_left (fun best entry =>
                  if Nat.ltb (snd best) (snd entry) then (fst entry, snd entry) else best)
                  types best in
  snd best <= snd result
  /\ (forall t n, In (t, n) types -> n <= snd result)
  /\ (result = best \/ In result types).
Proof.
  revert best. induction types as [| [t0 n0] types IH]; intros best; simpl.
  - split; [lia |]. split; [tauto | now left].
  - specialize (IH (if Nat.ltb (snd best) n0 then (t0, n0) else best)).
    cbv zeta in IH. destruct IH as [Hge [Hall Hin]].
    destruct (Nat.ltb_spec (snd best) n0) as [Hlt | Hnlt]; simpl in *.
    + split; [lia |]. split.
      * intros t n [[= <- <-] | Hmem]; [assumption | now apply (Hall t)].
      * destruct Hin as [-> | Hin]; right; [now left | now right].
    + split; [assumption |]. split.
      * intros t n [[= <- <-] | Hmem]; [lia | now apply (Hall t)].
      * destruct Hin as [-> | Hin]; [now left | right; now right].
Qed.

(** The dominant type is one that occurs most often in the sample, and
    [string] when the sample is empty. *)
Lemma dominantOf_most (data : list (gmap string Cell)) (column : string) :
  let dominant := fst (dominantOf (sampleTypes data column)) in
  (forall t, count_occ string_dec (sampledTypes data column) t
             <= count_occ string_dec (sampledTypes data column) dominant)
  /\ In dominant dataTypes
  /\ (data = [] -> dominant = "string").
Proof.
  pose proof (sampleTypes_counts data column) as [Hnd Hget].
  pose proof (dominantOf_fold (sampleTypes data column) ("string", 0))
    as [_ [Hall Hin]].
  cbv zeta in Hall, Hin. fold (dominantOf (sampleTypes data column)) in Hall, Hin.
  cbv zeta. destruct (dominantOf (sampleTypes data column)) as [d mx] eqn:Hdom.
  simpl in *.
  assert (Hle : forall t, count_occ string_dec (sampledTypes data column) t <= mx).
  { intros t. specialize (Hget t).
    destruct (Nat.eqb_spec (count_occ string_dec (sampledTypes data column) t) 0)
      as [Hz | Hnz]; [lia |].
    apply (mapGet_In _ _ _ Hnd) in Hget. now apply (Hall t) in Hget. }
  destruct Hin as [[= -> ->] | Hin].
  - split; [| split].
    + intros t. specialize (Hle t). lia.
    + unfold dataTypes. simpl. tauto.
    + reflexivity.
  - apply (mapGet_In _ _ _ Hnd) in Hin. rewrite Hget in Hin.
    destruct (Nat.eqb_spec (count_occ string_dec (sampledTypes data column) d) 0)
      as [Hz | Hnz]; [discriminate |].
    injection Hin as Hmx. split; [| split].
    + intros t. rewrite Hmx. apply Hle.
    + assert (Hocc : In d (sampledTypes data column)).
      { apply (count_occ_In string_dec). lia. }
      unfold sampledTypes in Hocc. apply in_map_iff in Hocc.
      destruct Hocc as [r [<- _]]. apply inferDataType_range.
    + intros ->. simpl in Hnz. congruence.
Qed.

(** X2.  [inferSchema] gives a type to every column and to nothing else:
    a name other than [__proto__] is a key of the schema exactly when it is
    one of the columns, every value is one of the five types, and
    [__proto__] is never a key. *)
Theorem inferSchema_keys (data : list (gmap string Cell)) (columns : list string) :
  inferSchema data columns !! "__proto__" = None
  /\ (forall c, c <> "__proto__" ->
        (In c columns <-> exists t, inferSchema data columns !! c = Some t))
  /\ (forall c t, inferSchema data columns !! c = Some t -> In t dataTypes).
Proof.
  split; [| split].
  - now rewrite inferSchema_lookup.
  - intros c Hproto. rewrite inferSchema_lookup.
    apply String.eqb_neq in Hproto. rewrite Hproto.
    rewrite <- arrayIncludes_In. destruct (arrayIncludes columns c).
    + split; [eauto | reflexivity].
    + split; [discriminate | intros [t Ht]; discriminate].
  - intros c t. rewrite inferSchema_lookup.
    destruct (String.eqb c "__proto__"); [discriminate |].
    destruct (arrayIncludes columns c); [| discriminate].
    intros [= <-]. apply dominantOf_most.
Qed.

Lemma mapSet_fst {V : Type} (m : list (string * V)) (k : string) (v : V) :
  map fst (mapSet String.eqb m k v)
  = if arrayIncludes (map fst m) k then map fst m else map fst m ++ [k].
Proof.
  unfold arrayIncludes. induction m as [| [k1 v1] m IH]; simpl; [reflexivity |].
  destruct (String.eqb_spec k k1) as [-> | Hne]; simpl; [reflexivity |].
  rewrite IH. destruct (existsb (String.eqb k) (map fst m)); reflexivity.
Qed.

Lemma firstSeenOrder_step (keys seen : list string) (t0 : string) :
  firstSeenOrder keys seen ->
  firstSeenOrder (if arrayIncludes keys t0 then keys else keys ++ [t0]) (seen ++ [t0]).
Proof.
  intros [Hmem Horder].
  destruct (arrayIncludes keys t0) eqn:Hknown.
  - apply arrayIncludes_In in Hknown. split.
    + intros x. rewrite in_app_iff, Hmem. simpl. intuition (subst; auto).
    + intros before d after Hkeys.
      destruct (Horder before d after Hkeys) as [pre [post [Hseen [Hnew Hpre]]]].
      exists pre, (post ++ [t0]). rewrite Hseen, <- app_assoc. auto.
  - assert (Hfresh : ~ In t0 keys).
    { intros Hin. apply arrayIncludes_In in Hin. congruence. }
    split.
    + intros x. rewrite !in_app_iff, Hmem. reflexivity.
    + intros before d after Hkeys.
      destruct after as [| a after].
      * apply app_inj_tail in Hkeys. destruct Hkeys as [<- <-].
        exists seen, []. split; [reflexivity |]. split.
        -- intros Hin. apply Hfresh. now apply Hmem.
        -- intros x Hx. now apply Hmem.
      * assert (Hsplit : exists after', keys = before ++ d :: after').
        { destruct (exists_last (l := a :: after)) as [after' [z Hz]]; [discriminate |].
          exists after'. rewrite Hz in Hkeys.
          change (keys ++ [t0] = before ++ (d :: after') ++ [z]) in Hkeys.
          rewrite app_assoc in Hkeys. apply app_inj_tail in Hkeys.
          now destruct Hkeys as [Hkeys _]. }
        destruct Hsplit as [after' Hkeys'].
        destruct (Horder before d after' Hkeys') as [pre [post [Hseen [Hnew Hpre]]]].
        exists pre, (post ++ [t0]). rewrite Hseen, <- app_assoc. auto.
Qed.

Lemma fold_countType_order (l seen : list string) (types : list (string * nat)) :
  firstSeenOrder (map fst types) seen ->
  firstSeenOrder (map fst (fold_left countType l types)) (seen ++ l).
Proof.
  revert seen types. induction l as [| t l IH]; intros seen types Horder; simpl.
  - now rewrite app_nil_r.
  - replace (seen ++ t :: l) with ((seen ++ [t]) ++ l)
      by (rewrite <- app_assoc; reflexivity).
    apply IH. unfold countType. rewrite mapSet_fst. now apply firstSeenOrder_step.
Qed.

Lemma sampleTypes_order (data : list (gmap string Cell)) (column : string) :
  firstSeenOrder (map fst (sampleTypes data column)) (sampledTypes data column).
Proof.
  unfold sampleTypes, sampledTypes. rewrite sample_firstn.
  assert (Hfold : forall (l : list (gmap string Cell)) acc,
             fold_left (fun types r => countType types (inferDataType (getCell r column)))
               l acc
             = fold_left countType (map (fun r => inferDataType (getCell r column)) l) acc).
  { induction l as [| r l IH]; intros acc; simpl; [reflexivity | apply IH]. }
  rewrite Hfold. apply (fold_countType_order _ [] []).
  split; [tauto |]. intros before d after Hkeys. destruct before; discriminate.
Qed.

(** The scan for the dominant type keeps the first entry that beats all
    the entries before it and is not beaten after. *)
Lemma dominantOf_first (types : list (string * nat)) (best : string * nat) :
  let result := fold_left (fun best entry =>
                  if Nat.ltb (snd best) (snd entry) then (fst entry, snd entry) else best)
                  types best in
  (result = best /\ forall t n, In (t, n) types -> n <= snd best)
  \/ (snd best < snd result
      /\ exists before after, types = before ++ result :: after
           /\ forall t n, In (t, n) before -> n < snd result).
Proof.
  revert best. induction types as [| [t0 n0] types IH]; intros best; simpl.
  - left. split; [reflexivity | tauto].
  - specialize (IH (if Nat.ltb (snd best) n0 then (t0, n0) else best)).
    cbv zeta in IH.
    destruct (Nat.ltb_spec (snd best) n0) as [Hlt | Hnlt]; simpl in *.
    + right. destruct IH as [[-> Hall] | [Hgt [before [after [Htypes Hbefore]]]]].
      * split; [assumption |]. exists [], types. split; [reflexivity |]. intros t n [].
      * split; [lia |]. exists ((t0, n0) :: before), after.
        split; [simpl; f_equal; exact Htypes |].
        intros t n [[= <- <-] | Hin]; [lia | now apply (Hbefore t)].
    + destruct IH as [[-> Hall] | [Hgt [before [after [Htypes Hbefore]]]]].
      * left. split; [reflexivity |].
        intros t n [[= <- <-] | Hin]; [assumption | now apply (Hall t)].
      * right. split; [assumption |]. exists ((t0, n0) :: before), after.
        split; [simpl; f_equal; exact Htypes |].
        intros t n [[= <- <-] | Hin]; [lia | now apply (Hbefore t)].
Qed.

(** The count kept under a key is the number of occurrences in the sample. *)
Lemma sampleTypes_entry (data : list (gmap string Cell)) (column t : string) (n : nat) :
  In (t, n) (sampleTypes data column) ->
  n = count_occ string_dec (sampledTypes data column) t /\ 1 <= n.
Proof.
  pose proof (sampleTypes_counts data column) as [Hnd Hget].
  intros Hin. apply (mapGet_In _ _ _ Hnd) in Hin. rewrite Hget in Hin.
  destruct (Nat.eqb_spec (count_occ string_dec (sampledTypes data column) t) 0)
    as [Hz | Hnz]; [discriminate |].
  injection Hin as <-. split; [reflexivity | lia].
Qed.

(** With at least one row the dominant type is the first of the sample
    that beats every type seen before it. *)
Lemma dominantOf_tie_break (data : list (gmap string Cell)) (column : string) :
  data <> [] ->
  let dominant := fst (dominantOf (sampleTypes data column)) in
  exists pre post,
    sampledTypes data column = pre ++ dominant :: post
    /\ ~ In dominant pre
    /\ forall t, In t pre ->
         count_occ string_dec (sampledTypes data column) t
         < count_occ string_dec (sampledTypes data column) dominant.
Proof.
  intros Hdata. cbv zeta.
  pose proof (sampleTypes_order data column) as [Hmem Horder].
  pose proof (dominantOf_first (sampleTypes data column) ("string", 0)) as Hfirst.
  cbv zeta in Hfirst. fold (dominantOf (sampleTypes data column)) in Hfirst.
  destruct Hfirst as [[_ Hall] | [_ [before [after [Htypes Hbefore]]]]].
  - exfalso.
    assert (Hsome : exists t, In t (sampledTypes data column)).
    { unfold sampledTypes. destruct data as [| r data]; [congruence |].
      simpl. eauto. }
    destruct Hsome as [t Ht]. apply Hmem, in_map_iff in Ht.
    destruct Ht as [[t' n] [_ Hentry]].
    pose proof (sampleTypes_entry data column t' n Hentry) as [_ Hpos].
    specialize (Hall t' n Hentry). simpl in Hall. lia.
  - destruct (dominantOf (sampleTypes data column)) as [d mx] eqn:Hdom. simpl in *.
    assert (Hkeys : map fst (sampleTypes data column)
                    = map fst before ++ d :: map fst after).
    { rewrite Htypes, map_app. reflexivity. }
    destruct (Horder _ _ _ Hkeys) as [pre [post [Hseen [Hnew Hpre]]]].
    exists pre, post. split; [assumption |]. split; [assumption |].
    intros t Ht. apply Hpre, in_map_iff in Ht. destruct Ht as [[t' n] [Hfst Hentry]].
    simpl in Hfst. subst t'.
    assert (Hin : In (t, n) (sampleTypes data column)).
    { rewrite Htypes. apply in_or_app. now left. }
    assert (Hd : In (d, mx) (sampleTypes data column)).
    { rewrite Htypes. apply in_or_app. right. now left. }
    apply sampleTypes_entry in Hin, Hd. destruct Hin as [<- _]. destruct Hd as [<- _].
    now apply (Hbefore t).
Qed.

(** X3.  The type of a column is the majority type of its sample, ties
    going to the type seen first.  No type is inferred for more of the
    first hundred cells of the column than the type the schema gives it;
    with at least one row that type occurs in the sample, and every type
    seen before its first occurrence is inferred for strictly fewer cells;
    without rows the type is [string]. *)
Theorem inferSchema_majority (data : list (gmap string Cell)) (columns : list string)
    (c : string) :
  In c columns -> c <> "__proto__" ->
  exists t, inferSchema data columns !! c = Some t
            /\ (forall t', count_occ string_dec (sampledTypes data c) t'
                           <= count_occ string_dec (sampledTypes data c) t)
            /\ (data = [] -> t = "string")
            /\ (data <> [] ->
                exists pre post,
                  sampledTypes data c = pre ++ t :: post
                  /\ ~ In t pre
                  /\ forall t', In t' pre ->
                       count_occ string_dec (sampledTypes data c) t'
                       < count_occ string_dec (sampledTypes data c) t).
Proof.
  intros Hin Hproto. rewrite inferSchema_lookup.
  apply String.eqb_neq in Hproto. rewrite Hproto.
  apply arrayIncludes_In in Hin. rewrite Hin.
  eexists. split; [reflexivity |].
  pose proof (dominantOf_most data c) as [Hmost [_ Hempty]].
  split; [assumption |]. split; [assumption |].
  intros Hdata. now apply dominantOf_tie_break.
Qed.

End InferSchemaFacts.

Lemma inferSchema_majority_witness :
  exists t, inferSchema typedRows ["n"] !! "n" = Some t
            /\ (forall t', count_occ string_dec (sampledTypes typedRows "n") t'
                           <= count_occ string_dec (sampledTypes typedRows "n") t)
            /\ (typedRows = [] -> t = "string")
            /\ (typedRows <> [] ->
                exists pre post,
                  sampledTypes typedRows "n" = pre ++ t :: post
                  /\ ~ In t pre
                  /\ forall t', In t' pre ->
                       count_occ string_dec (sampledTypes typedRows "n") t'
                       < count_occ string_dec (sampledTypes typedRows "n") t).
Proof.
  apply (inferSchema_majority typedRows ["n"] "n"); [now left | discriminate].
Defined.

(** On a tie the type seen first wins. *)
Example inferSchema_tiedRows :
  sampledTypes tiedRows "n" = ["integer"; "number"]
  /\ inferSchema tiedRows ["n"] !! "n" = Some "integer".
Proof. split; vm_compute; reflexivity. Qed.

Example inferSchema_typedRows : inferSchema typedRows ["n"] !! "n" = Some "integer".
Proof. vm_compute. reflexivity. Qed.

(* ================================================================== *)
(** * Further properties: the row validator *)
(* ================================================================== *)

Section RowValidationFacts.
Context {rt : Runtime}.

(** What a successful parse of a row guarantees. *)
Lemma safeParse_inl (timestamp event_type value : Cell) (v : ValidatedCSVRow) :
  csvRowSchema_safeParse timestamp event_type value = inl v ->
  timestamp = CString (v_timestamp v)
  /\ (exists time, Date_parse (v_timestamp v) = Some time)
  /\ event_type = CString (v_event_type v)
  /\ v_event_type v <> ""
  /\ (exists raw, value = CString raw /\ v_value v = Number raw)
  /\ isNaN (v_value v) = false.
Proof.
  unfold csvRowSchema_safeParse, checkTimestamp, checkEventType, checkValue.
  destruct timestamp as [| | ts]; try discriminate.
  destruct (Date_parse ts) as [time |] eqn:Hdate; [| discriminate].
  destruct event_type as [| | ty]; try discriminate.
  destruct (Nat.leb 1 (String.length ty)) eqn:Hlen; [| discriminate].
  destruct value as [| | raw]; try discriminate.
  destruct (isNaN (Number raw)) eqn:Hnan; [discriminate |].
  simpl. intros [= <-]. simpl.
  split; [reflexivity |]. split; [eauto |]. split; [reflexivity |]. split.
  - intros ->. discriminate.
  - split; [eauto | assumption].
Qed.

(** A failed parse reports at least one issue and at most one per field. *)
Lemma safeParse_inr (timestamp event_type value : Cell) (issues : list Issue) :
  csvRowSchema_safeParse timestamp event_type value = inr issues ->
  1 <= List.length issues <= 3.
Proof.
  unfold csvRowSchema_safeParse.
  destruct (checkTimestamp timestamp), (checkEventType event_type), (checkValue value);
    try discriminate; intros [= <-]; simpl; lia.
Qed.

Lemma rowPasses_true (tc ec vc : string) (r : gmap string Cell) :
  rowPasses tc ec vc r = true
  <-> exists v, csvRowSchema_safeParse (getCell r tc) (getCell r ec) (getCell r vc) = inl v.
Proof.
  unfold rowPasses.
  destruct (csvRowSchema_safeParse (getCell r tc) (getCell r ec) (getCell r vc)) as [v | i].
  - split; [eauto | reflexivity].
  - split; [discriminate | intros [v Hv]; discriminate].
Qed.

(** The loop over the rows: what it adds to the two arrays. *)
Lemma validateEach_spec (tc ec vc : string) (data : list (gmap string Cell)) :
  forall i validAcc errorAcc,
    exists newValid newErrors,
      validateEach tc ec vc data i validAcc errorAcc
      = (validAcc ++ newValid, errorAcc ++ newErrors)
      /\ map original newValid = List.filter (rowPasses tc ec vc) data
      /\ (forall v, In v newValid ->
            csvRowSchema_safeParse (getCell (original v) tc) (getCell (original v) ec)
              (getCell (original v) vc) = inl (_validated v)
            /\ _timestampCol v = tc /\ _eventTypeCol v = ec /\ _valueCol v = vc)
      /\ (newErrors = [] <-> forallb (rowPasses tc ec vc) data = true)
      /\ (forall e, In e newErrors -> i + 2 <= row e < i + 2 + List.length data).
Proof.
  induction data as [| r data IH]; intros i validAcc errorAcc; simpl.
  - exists [], []. rewrite !app_nil_r.
    split; [reflexivity |]. split; [reflexivity |]. split; [intros v [] |].
    split; [tauto | intros e []].
  - pose proof (eq_refl (rowPasses tc ec vc r)) as Hpass.
    unfold rowPasses at 2 in Hpass.
    destruct (csvRowSchema_safeParse (getCell r tc) (getCell r ec) (getCell r vc))
      as [v | issues] eqn:Hparse; rewrite Hpass; clear Hpass.
    + destruct (IH (S i) (validAcc ++ [ {| original := r; _validated := v;
                                            _timestampCol := tc; _eventTypeCol := ec;
                                            _valueCol := vc |} ]) errorAcc)
        as [newValid [newErrors [Heq [Hmap [Hvalid [Hnil Hrows]]]]]].
      exists ({| original := r; _validated := v; _timestampCol := tc;
                 _eventTypeCol := ec; _valueCol := vc |} :: newValid), newErrors.
      rewrite Heq, <- app_assoc. simpl. split; [reflexivity |]. split.
      { now rewrite Hmap. }
      split.
      { intros w [<- | Hw]; [simpl; auto | now apply Hvalid]. }
      split; [assumption |].
      intros e He. specialize (Hrows e He). lia.
    + destruct (IH (S i) validAcc
                  (errorAcc ++ map (fun err => {| row := i + 2; field := fieldOf err;
                                                  message := issueMessage err |}) issues))
        as [newValid [newErrors [Heq [Hmap [Hvalid [Hnil Hrows]]]]]].
      exists newValid,
        (map (fun err => {| row := i + 2; field := fieldOf err;
                            message := issueMessage err |}) issues ++ newErrors).
      rewrite Heq, <- app_assoc. split; [reflexivity |]. split; [assumption |].
      split; [assumption |]. split.
      { apply safeParse_inr in Hparse. split; [| discriminate].
        intros Hnil'. apply (f_equal (@List.length _)) in Hnil'.
        rewrite length_app, length_map in Hnil'. simpl in Hnil'. lia. }
      intros e He. apply in_app_or in He. destruct He as [He | He].
      * apply in_map_iff in He. destruct He as [err [<- _]]. simpl. lia.
      * specialize (Hrows e He). lia.
Qed.

(** The result of [validateCSVData] once the three roles have a column. *)
Lemma validateCSVData_rows_spec (data : list (gmap string Cell)) (columns : list string) :
  let tc := asKey (findColumn timestampAliases columns) in
  let ec := asKey (findColumn eventTypeAliases columns) in
  let vc := asKey (findColumn valueAliases columns) in
  missingColumns (findColumn timestampAliases columns)
    (findColumn eventTypeAliases columns) (findColumn valueAliases columns) = [] ->
  exists newErrors,
    map original (validRows (validateCSVData data columns))
    = List.filter (rowPasses tc ec vc) data
    /\ (forall v, In v (validRows (validateCSVData data columns)) ->
          csvRowSchema_safeParse (getCell (original v) tc) (getCell (original v) ec)
            (getCell (original v) vc) = inl (_validated v)
          /\ _timestampCol v = tc /\ _eventTypeCol v = ec /\ _valueCol v = vc)
    /\ valid (validateCSVData data columns) = Nat.eqb (List.length newErrors) 0
    /\ (newErrors = [] <-> forallb (rowPasses tc ec vc) data = true)
    /\ errors (validateCSVData data columns)
       = (if Nat.ltb 10 (List.length newErrors)
          then firstn 10 newErrors
               ++ [ {| row := 0; field := "summary";
                       message := "... and " ++ ofNat (List.length newErrors - 10)
                                  ++ " more validation errors" |} ]
          else firstn 10 newErrors).
Proof.
  intros tc ec vc Hmissing. unfold validateCSVData. rewrite Hmissing. simpl.
  fold tc ec vc.
  destruct (validateEach_spec tc ec vc data 0 [] [])
    as [newValid [newErrors [Heq [Hmap [Hvalid [Hnil _]]]]]].
  rewrite Heq. simpl. exists newErrors.
  split; [assumption |]. split; [assumption |]. split; [reflexivity |].
  split; [assumption | reflexivity].
Qed.

Lemma missingColumns_cases (data : list (gmap string Cell)) (columns : list string) :
  let missing := missingColumns (findColumn timestampAliases columns)
                   (findColumn eventTypeAliases columns)
                   (findColumn valueAliases columns) in
  (missing <> [] /\ validateCSVData data columns = schemaFailure data missing)
  \/ missing = [].
Proof.
  intros missing. destruct missing as [| x rest] eqn:Hm; [now right |].
  left. split; [discriminate |].
  unfold validateCSVData. fold missing. now rewrite Hm.
Qed.

(** X4.  The summary always adds up: [totalRows] is the number of rows
    given, [validRowCount] the number of rows returned as valid, and the
    valid and invalid counts sum to the total. *)
Theorem validateCSVData_summary (data : list (gmap string Cell)) (columns : list string) :
  let result := validateCSVData data columns in
  totalRows (summary result) = List.length data
  /\ validRowCount (summary result) = List.length (validRows result)
  /\ validRowCount (summary result) + invalidRowCount (summary result)
     = totalRows (summary result).
Proof.
  intros result. subst result.
  destruct (missingColumns_cases data columns) as [[_ ->] | Hmissing].
  - simpl. auto.
  - unfold validateCSVData. rewrite Hmissing. simpl.
    pose proof (validateEach_counts
                  (asKey (findColumn timestampAliases columns))
                  (asKey (findColumn eventTypeAliases columns))
                  (asKey (findColumn valueAliases columns)) data 0 [] []) as Hcount.
    destruct (validateEach _ _ _ data 0 [] []) as [valids errs]. simpl in *.
    split; [reflexivity |]. split; [reflexivity | lia].
Qed.


(** X6.  Every row returned as valid is a row of the input that meets the
    contract: its timestamp cell is a string that parses as a date, its
    event-type cell is a non-empty string, and its value cell is a string
    that [Number] reads; the validated value is that number and is never
    [NaN]. *)
Theorem validateCSVData_valid_rows (data : list (gmap string Cell)) (columns : list string)
    (v : ValidRow) :
  In v (validRows (validateCSVData data columns)) ->
  In (original v) data
  /\ getCell (original v) (_timestampCol v) = CString (v_timestamp (_validated v))
  /\ (exists time, Date_parse (v_timestamp (_validated v)) = Some time)
  /\ getCell (original v) (_eventTypeCol v) = CString (v_event_type (_validated v))
  /\ v_event_type (_validated v) <> ""
  /\ (exists raw, getCell (original v) (_valueCol v) = CString raw
                  /\ v_value (_validated v) = Number raw)
  /\ isNaN (v_value (_validated v)) = false.
Proof.
  destruct (missingColumns_cases data columns) as [[_ ->] | Hmissing]; [intros [] |].
  destruct (validateCSVData_rows_spec data columns Hmissing)
    as [newErrors [Hmap [Hvalid _]]].
  intros Hin. destruct (Hvalid v Hin) as [Hparse [-> [-> ->]]].
  split.
  - assert (Hmem : In (original v) (map original (validRows (validateCSVData data columns))))
      by (now apply in_map).
    rewrite Hmap in Hmem. now apply filter_In in Hmem.
  - now apply safeParse_inl in Hparse.
Qed.

(** X7.  The file is valid exactly when no role lacks a column and every
    row passes; the valid rows are then all the rows, in the order of the
    file, and no error is reported. *)
Theorem validateCSVData_valid (data : list (gmap string Cell)) (columns : list string) :
  let result := validateCSVData data columns in
  (valid result = true
   <-> missingColumns (findColumn timestampAliases columns)
         (findColumn eventTypeAliases columns) (findColumn valueAliases columns) = []
       /\ forallb (rowPasses (asKey (findColumn timestampAliases columns))
                     (asKey (findColumn eventTypeAliases columns))
                     (asKey (findColumn valueAliases columns))) data = true)
  /\ (valid result = true ->
      map original (validRows result) = data /\ errors result = []).
Proof.
  intros result. subst result.
  destruct (missingColumns_cases data columns) as [[Hne ->] | Hmissing].
  - simpl. split; [| discriminate]. split; [discriminate | tauto].
  - destruct (validateCSVData_rows_spec data columns Hmissing)
      as [newErrors [Hmap [_ [Hvalid [Hnil Herrors]]]]].
    assert (Hiff : valid (validateCSVData data columns) = true <-> newErrors = []).
    { rewrite Hvalid, Nat.eqb_eq. destruct newErrors; simpl; split; congruence. }
    split.
    + rewrite Hiff, Hnil. tauto.
    + intros Hv. apply Hiff in Hv. split.
      * rewrite Hmap. apply forallb_filter_id. now apply Hnil.
      * rewrite Herrors, Hv. reflexivity.
Qed.

Lemma join_nonempty (sep x : string) (rest : list string) :
  x <> "" -> join sep (x :: rest) <> "".
Proof.
  intros Hx. destruct x as [| a x]; [congruence |].
  destruct rest; simpl; discriminate.
Qed.

(** X8.  [formatValidationErrors] returns the empty string exactly for a
    valid result; an invalid one always gets a message. *)
Theorem formatValidationErrors_empty (result : ValidationResult) :
  formatValidationErrors result = "" <-> valid result = true.
Proof.
  unfold formatValidationErrors. destruct (valid result).
  - tauto.
  - split; [| discriminate]. intros Hempty. exfalso. revert Hempty.
    cbn [app]. apply join_nonempty. discriminate.
Qed.

End RowValidationFacts.

Lemma validateCSVData_valid_rows_witness :
  exists v, In v (validRows (validateCSVData [sampleRow "2024-01-01" "signup" "3"]
                               ["Timestamp"; "type"; "amount"]))
            /\ isNaN (v_value (_validated v)) = false
            /\ v_event_type (_validated v) <> "".
Proof.
  eexists. split; [left; reflexivity |].
  match goal with
  | |- isNaN (v_value (_validated ?v)) = false /\ _ =>
      pose proof (validateCSVData_valid_rows [sampleRow "2024-01-01" "signup" "3"]
                    ["Timestamp"; "type"; "amount"] v) as Hrow
  end.
  destruct Hrow as [_ [_ [_ [_ [Hty [_ Hnan]]]]]]; [left; reflexivity |].
  split; assumption.
Defined.

Example formatValidationErrors_schema :
  formatValidationErrors (validateCSVData [sampleRowNoValue] ["timestamp"; "event_type"; "user"])
  = ("CSV Validation Failed: 1 of 1 rows are invalid." ++ newline ++ newline
     ++ "  - Missing required columns: value. Expected: timestamp (or time/date), event_type (or type/event), value (or amount/metric).")%string.
Proof. reflexivity. Qed.

(* ================================================================== *)
(** * Further properties: the roles of the field mapping *)
(* ================================================================== *)

Section FieldMappingRoles.
Variable schema : gmap string string.
Variable columns : list string.

Lemma roleColumns_In (m : AnalyticsEventMapping) (c : string) :
  In c (roleColumns m)
  <-> timestampColumn m = Some c \/ eventTypeColumn m = Some c
      \/ metricValueColumn m = Some c.
Proof.
  unfold roleColumns.
  destruct (timestampColumn m) as [t |], (eventTypeColumn m) as [e |],
    (metricValueColumn m) as [v |]; simpl;
    intuition (subst; auto; congruence).
Qed.

(** The timestamp role stays empty only when no column is typed
    [timestamp]. *)
Lemma afterTimestampFallback_none :
  timestampColumn (afterTimestampFallback schema columns) = None
  <-> forall c, In c columns -> schemaIs schema c "timestamp" = false.
Proof.
  pose proof (afterTimestampFallback_invariant schema columns) as [Hts _ _ Hcover _].
  split.
  - unfold afterTimestampFallback, timestampFallback in *.
    set (m := fold_left (mapColumn schema) columns emptyMapping) in *.
    destruct (unset (timestampColumn m)) eqn:Hun.
    + destruct (List.filter (fun c => schemaIs schema c "timestamp") columns)
        as [| first rest] eqn:Hfilter; [| discriminate].
      intros _ c Hc. apply Bool.not_true_iff_false. intros Hty.
      assert (Hin : In c (List.filter (fun c => schemaIs schema c "timestamp") columns))
        by (apply filter_In; auto).
      rewrite Hfilter in Hin. destruct Hin.
    + intros Hnone. rewrite Hnone in Hun. discriminate.
  - intros Hnone.
    destruct (timestampColumn (afterTimestampFallback schema columns)) as [t |] eqn:Ht;
      [| reflexivity].
    assert (Hin : In t columns).
    { apply Hcover, in_or_app. left. apply roleColumns_In. auto. }
    specialize (Hts t eq_refl). rewrite (Hnone t Hin) in Hts. discriminate.
Qed.

(** X9.  The roles of the mapping.  The event-type role is never left
    empty: it names a column typed [string], or is the literal
    [default_event].  A timestamp role names a column typed [timestamp],
    and is missing exactly when no column has that type.  A metric role
    names a column typed [number] or [integer]. *)
Theorem detectEventMapping_roles :
  let m := detectEventMapping columns schema in
  (exists e, eventTypeColumn m = Some e /\ e <> ""
             /\ (e = default_event \/ (In e columns /\ schemaIs schema e "string" = true)))
  /\ (forall t, timestampColumn m = Some t ->
                In t columns /\ schemaIs schema t "timestamp" = true)
  /\ (timestampColumn m = None
      <-> forall c, In c columns -> schemaIs schema c "timestamp" = false)
  /\ (forall v, metricValueColumn m = Some v ->
                In v columns
                /\ (schemaIs schema v "number" || schemaIs schema v "integer") = true).
Proof.
  intros m. subst m. rewrite detectEventMapping_unfold.
  pose proof (afterTimestampFallback_invariant schema columns) as [Hts Het Hmv Hcover _].
  pose proof afterTimestampFallback_none as Hnone.
  set (after := afterTimestampFallback schema columns) in *.
  assert (Hcol : forall c, In c (roleColumns after) -> In c columns).
  { intros c Hc. apply Hcover, in_or_app. now left. }
  assert (Hsame : timestampColumn (eventTypeFallback after) = timestampColumn after
                  /\ metricValueColumn (eventTypeFallback after) = metricValueColumn after).
  { unfold eventTypeFallback. destruct (unset (eventTypeColumn after)); auto. }
  destruct Hsame as [-> ->].
  split; [| split; [| split]].
  - unfold eventTypeFallback.
    destruct (unset (eventTypeColumn after)) eqn:Hun; simpl.
    + exists default_event. split; [reflexivity |]. split; [discriminate | now left].
    + destruct (eventTypeColumn after) as [e |] eqn:He; [| discriminate].
      exists e. destruct (Het e eq_refl) as [Hne Hty].
      split; [reflexivity |]. split; [assumption |]. right. split; [| assumption].
      apply Hcol, roleColumns_In. auto.
  - intros t Ht. split; [| now apply Hts]. apply Hcol, roleColumns_In. auto.
  - assumption.
  - intros v Hv. split; [| now apply Hmv]. apply Hcol, roleColumns_In. auto.
Qed.

End FieldMappingRoles.

(* ================================================================== *)
(** * Further properties: the anomaly detector *)
(* ================================================================== *)

Section DetectorFacts.
Import Anomaly Textbook.
Local Open Scope R_scope.

(** X11.  Severity grows with the deviation and with the sensitivity: for
    sensitivities above zero, a larger deviation at a sensitivity that is
    at least as high never gets a lower severity. *)
Theorem getSeverity_monotone (d1 d2 s1 s2 : R) :
  0 < s1 -> s1 <= s2 -> d1 <= d2 ->
  (severityRank (getSeverity d1 s1) <= severityRank (getSeverity d2 s2))%nat.
Proof.
  intros Hs1 Hs Hd. unfold getSeverity.
  assert (Ht2 : 0 < 100 / s2) by (apply Rdiv_lt_0_compat; lra).
  assert (Ht : 100 / s2 <= 100 / s1).
  { unfold Rdiv. apply Rmult_le_compat_l; [lra |]. apply Rinv_le_contravar; lra. }
  set (t1 := 100 / s1) in *. set (t2 := 100 / s2) in *.
  unfold Num.geb.
  destruct (Rge_dec d1 (t1 * 3)), (Rge_dec d1 (t1 * 2)), (Rge_dec d1 t1),
    (Rge_dec d2 (t2 * 3)), (Rge_dec d2 (t2 * 2)), (Rge_dec d2 t2);
    simpl; try lia; exfalso; lra.
Qed.

(** ** The quartiles of [calculateStatistics] *)







(** ** The summary of stored anomalies *)





End DetectorFacts.

Section DetectorWitnesses.
Import Anomaly.
Local Open Scope R_scope.

Lemma getSeverity_monotone_witness :
  (severityRank (getSeverity 50 3) <= severityRank (getSeverity 100 3))%nat.
Proof. apply (getSeverity_monotone 50 100 3 3); lra. Defined.


End DetectorWitnesses.

(* ================================================================== *)
(** * Further properties: the chart queries *)
(* ================================================================== *)

Section ChartFacts.
Import Aggregation Textbook.

Lemma insertStart_In (start z : Z) (sorted : list Z) :
  In z (insertStart start sorted) <-> z = start \/ In z sorted.
Proof.
  induction sorted as [| s rest IH]; simpl.
  - intuition.
  - destruct (start <=? s)%Z; simpl; [intuition |]. rewrite IH. intuition.
Qed.

Lemma orderByStart_In (z : Z) (starts : list Z) :
  In z (orderByStart starts) <-> In z starts.
Proof.
  induction starts as [| s starts IH]; simpl; [tauto |].
  rewrite insertStart_In, IH. intuition.
Qed.

Lemma insertStart_sorted (start : Z) (sorted : list Z) :
  StronglySorted Z.lt sorted -> ~ In start sorted ->
  StronglySorted Z.lt (insertStart start sorted).
Proof.
  induction 1 as [| s rest Hsorted IH Hall]; intros Hnew; simpl.
  - constructor; constructor.
  - assert (Hne : start <> s) by (intros ->; apply Hnew; now left).
    destruct (start <=? s)%Z eqn:Hle.
    + apply Z.leb_le in Hle. constructor; [now constructor |].
      constructor; [lia |].
      eapply List.Forall_impl; [| exact Hall]. simpl. intros z Hz. lia.
    + apply Z.leb_gt in Hle. constructor.
      * apply IH. intros Hin. apply Hnew. now right.
      * apply List.Forall_forall. intros z Hz. apply insertStart_In in Hz.
        destruct Hz as [-> | Hz]; [lia |].
        rewrite List.Forall_forall in Hall. now apply Hall.
Qed.

Lemma orderByStart_sorted (starts : list Z) :
  List.NoDup starts -> StronglySorted Z.lt (orderByStart starts).
Proof.
  induction 1 as [| s starts Hnew Hnd IH]; simpl; [constructor |].
  apply insertStart_sorted; [assumption |]. now rewrite orderByStart_In.
Qed.

Lemma sorted_lt_NoDup (l : list Z) : StronglySorted Z.lt l -> List.NoDup l.
Proof.
  induction 1 as [| s rest Hsorted IH Hall]; constructor; [| assumption].
  intros Hin. rewrite List.Forall_forall in Hall. specialize (Hall s Hin). lia.
Qed.

Lemma aggregateMetrics_unfold (events : list AnalyticsEvent) (options : AggregationOptions) :
  aggregateMetrics events options
  = map (fun start =>
           {| Anomaly.timestamp := start;
              Anomaly.value :=
                floatOrZero (AVG (map metric_value (chartBucket options events start)));
              Anomaly.count := Z.of_nat (List.length (chartBucket options events start)) |})
        (orderByStart
           (nodup Z.eq_dec (map (fun e => truncate (period options) (event_timestamp e))
                                (selectedBy options events)))).
Proof.
  unfold aggregateMetrics, aggregateByHour, aggregateByDay, aggregateByWeek,
    aggregateByMonth.
  destruct (period options) eqn:Hperiod; unfold aggregateBy; rewrite map_map;
    unfold chartBucket, selectedBy; rewrite Hperiod; reflexivity.
Qed.

Lemma aggregateMetrics_timestamps (events : list AnalyticsEvent)
    (options : AggregationOptions) :
  map Anomaly.timestamp (aggregateMetrics events options)
  = orderByStart
      (nodup Z.eq_dec (map (fun e => truncate (period options) (event_timestamp e))
                           (selectedBy options events))).
Proof. rewrite aggregateMetrics_unfold, map_map. simpl. apply map_id. Qed.

(** X15.  The chart series comes by strictly ascending timestamp, one
    point per bucket: a timestamp appears exactly when it is the bucket
    start of an event of the tenant and event type within the window. *)
Theorem aggregateMetrics_ordered (events : list AnalyticsEvent)
    (options : AggregationOptions) :
  StronglySorted Z.lt (map Anomaly.timestamp (aggregateMetrics events options))
  /\ forall start,
       In start (map Anomaly.timestamp (aggregateMetrics events options))
       <-> exists e, In e events
                     /\ tenant_id e = tenantId options /\ event_type e = eventType options
                     /\ (startDate options <= event_timestamp e <= endDate options)%Z
                     /\ truncate (period options) (event_timestamp e) = start.
Proof.
  rewrite aggregateMetrics_timestamps. split.
  - apply orderByStart_sorted, List.NoDup_nodup.
  - intros start. rewrite orderByStart_In, nodup_In, in_map_iff.
    unfold selectedBy, selects. split.
    + intros [e [Hstart He]]. apply filter_In in He. destruct He as [He Hsel].
      rewrite !Bool.andb_true_iff, !String.eqb_eq, !Z.leb_le in Hsel.
      exists e. tauto.
    + intros [e [He [Ht [Hty [Hwin Hstart]]]]]. exists e. split; [assumption |].
      apply filter_In. split; [assumption |].
      rewrite !Bool.andb_true_iff, !String.eqb_eq, !Z.leb_le. tauto.
Qed.

Lemma list_sum_zero {A : Type} (l : list A) : list_sum (map (fun _ => 0%nat) l) = 0%nat.
Proof. induction l; simpl; auto. Qed.

Lemma list_sum_none (k : Z) (l : list Z) :
  ~ In k l -> list_sum (map (fun s => if (k =? s)%Z then 1%nat else 0%nat) l) = 0%nat.
Proof.
  induction l as [| s l IH]; intros Hnew; [reflexivity |]. simpl.
  destruct (Z.eqb_spec k s) as [-> | _]; [exfalso; apply Hnew; now left |].
  apply IH. intros Hin. apply Hnew. now right.
Qed.

Lemma list_sum_one (k : Z) (l : list Z) :
  List.NoDup l -> In k l ->
  list_sum (map (fun s => if (k =? s)%Z then 1%nat else 0%nat) l) = 1%nat.
Proof.
  induction 1 as [| s l Hnew Hnd IH]; intros Hin; [destruct Hin |]. simpl.
  destruct (Z.eqb_spec k s) as [-> | Hne].
  - f_equal. now apply list_sum_none.
  - destruct Hin as [-> | Hin]; [congruence | now apply IH].
Qed.

Lemma list_sum_add {A : Type} (f g : A -> nat) (l : list A) :
  (list_sum (map f l) + list_sum (map g l))%nat = list_sum (map (fun s => (f s + g s)%nat) l).
Proof. induction l as [| s l IH]; simpl; [reflexivity | rewrite <- IH; lia]. Qed.

Lemma list_sum_of_nat {A : Type} (f : A -> nat) (l : list A) :
  fold_right Z.add 0%Z (map (fun s => Z.of_nat (f s)) l) = Z.of_nat (list_sum (map f l)).
Proof. induction l as [| s l IH]; simpl; [reflexivity | rewrite IH; lia]. Qed.

(** Groups by a key partition a list: the sizes of the groups of the
    distinct keys add up to its length. *)
Lemma group_sizes {A : Type} (key : A -> Z) (xs : list A) (keys : list Z) :
  List.NoDup keys -> (forall x, In x xs -> In (key x) keys) ->
  list_sum (map (fun s => List.length (List.filter (fun x => (key x =? s)%Z) xs)) keys)
  = List.length xs.
Proof.
  intros Hnd. induction xs as [| x xs IH]; intros Hkeys.
  - simpl. apply list_sum_zero.
  - transitivity
      (list_sum (map (fun s => if (key x =? s)%Z then 1%nat else 0%nat) keys)
       + list_sum (map (fun s => List.length (List.filter (fun x => (key x =? s)%Z) xs))
                       keys))%nat.
    + rewrite list_sum_add. f_equal. apply map_ext. intros s. simpl.
      destruct (key x =? s)%Z; reflexivity.
    + rewrite IH by (intros y Hy; apply Hkeys; now right).
      rewrite list_sum_one; [reflexivity | assumption | apply Hkeys; now left].
Qed.

(** X16.  The counts of the chart series partition the selected events:
    every point counts at least one event, and the counts add up to the
    number of events of the tenant and event type within the window. *)
Theorem aggregateMetrics_counts (events : list AnalyticsEvent)
    (options : AggregationOptions) :
  (forall point, In point (aggregateMetrics events options) ->
                 (1 <= Anomaly.count point)%Z)
  /\ fold_right Z.add 0%Z (map Anomaly.count (aggregateMetrics events options))
     = Z.of_nat (List.length (selectedBy options events)).
Proof.
  pose proof (aggregateMetrics_timestamps events options) as Hts.
  rewrite aggregateMetrics_unfold in *.
  set (key := fun e => truncate (period options) (event_timestamp e)) in *.
  set (starts := orderByStart (nodup Z.eq_dec (map key (selectedBy options events)))) in *.
  assert (Hin : forall s, In s starts <-> In s (map key (selectedBy options events))).
  { intros s. unfold starts. now rewrite orderByStart_In, nodup_In. }
  split.
  - intros point Hpoint. apply in_map_iff in Hpoint. destruct Hpoint as [s [<- Hs]].
    simpl. apply Hin, in_map_iff in Hs. destruct Hs as [e [Hkey He]].
    assert (Hmem : In e (chartBucket options events s)).
    { apply filter_In. split; [assumption |]. apply Z.eqb_eq. exact Hkey. }
    destruct (chartBucket options events s); [destruct Hmem | simpl; lia].
  - rewrite map_map. simpl.
    rewrite <- (group_sizes key (selectedBy options events) starts).
    + apply (list_sum_of_nat (fun s => List.length (chartBucket options events s))).
    + unfold starts. apply sorted_lt_NoDup, orderByStart_sorted, List.NoDup_nodup.
    + intros x Hx. apply Hin. now apply in_map.
Qed.

End ChartFacts.

Section ChartValueFacts.
Import Aggregation Textbook.
Local Open Scope R_scope.

(** X17.  The value and count of a chart point: the count is the number
    of selected events of its bucket, the value the average of their
    non-null metric values; a bucket none of whose events has a value is
    charted as 0. *)
Theorem aggregateMetrics_value (events : list AnalyticsEvent)
    (options : AggregationOptions) (point : Anomaly.TimeSeriesDataPoint) :
  In point (aggregateMetrics events options) ->
  let group := chartBucket options events (Anomaly.timestamp point) in
  let values := nonNull (map metric_value group) in
  Anomaly.count point = Z.of_nat (List.length group)
  /\ (values = [] -> Anomaly.value point = 0)
  /\ (values <> [] -> Anomaly.value point = average values).
Proof.
  rewrite aggregateMetrics_unfold, in_map_iff. intros [start [<- _]]. simpl.
  split; [reflexivity |]. unfold AVG, average.
  destruct (nonNull (map metric_value (chartBucket options events start))) as [| v values].
  - split; [reflexivity | congruence].
  - split; [discriminate | reflexivity].
Qed.

Lemma selects_eventsOf (tenantId eventType : string) (startDate endDate : Z)
    (events : list AnalyticsEvent) :
  List.filter (selects tenantId eventType startDate endDate)
    (eventsOf tenantId eventType events)
  = List.filter (selects tenantId eventType startDate endDate) events.
Proof.
  unfold eventsOf. rewrite filter_filter. apply filter_ext. intros e. unfold selects.
  destruct (String.eqb (tenant_id e) tenantId), (String.eqb (event_type e) eventType);
    reflexivity.
Qed.

(** X18.  Tenant isolation of the two aggregation paths: the chart series
    and the metrics written to the store depend only on the events of the
    tenant and event type asked for; events of other tenants, or of other
    types, change neither. *)
Theorem aggregation_tenant_isolation (events : list AnalyticsEvent)
    (options : AggregationOptions) (store : list AggregatedMetric) :
  let own := eventsOf (tenantId options) (eventType options) events in
  aggregateMetrics events options = aggregateMetrics own options
  /\ computeAndStoreAggregations events (tenantId options) (eventType options)
       (period options) (startDate options) (endDate options) store
     = computeAndStoreAggregations own (tenantId options) (eventType options)
         (period options) (startDate options) (endDate options) store.
Proof.
  intros own. subst own. split.
  - rewrite !aggregateMetrics_unfold. unfold chartBucket, selectedBy.
    now rewrite selects_eventsOf.
  - unfold computeAndStoreAggregations, computedMetrics. rewrite !resultsFor_unit.
    unfold computeAggregationBy. now rewrite selects_eventsOf.
Qed.

End ChartValueFacts.

Section TruncationFacts.
Import Aggregation.
Local Open Scope Z_scope.

Lemma dayOfMonth_range (days : Z) : 1 <= dayOfMonth days <= 31.
Proof. unfold dayOfMonth. cbv zeta. Z.div_mod_to_equations. lia. Qed.

(** X19.  Truncation to a unit.  The bucket start is at or before the
    timestamp and less than the longest duration of the unit away (an hour,
    a day, seven days, thirty-one days).  For hours, days and weeks the
    start of a bucket start is itself, and later timestamps never get an
    earlier bucket. *)
Theorem truncate_bounds (unit : AggregationPeriod) (ts : Z) :
  truncate unit ts <= ts < truncate unit ts + longestUnit unit
  /\ (unit <> month ->
      truncate unit (truncate unit ts) = truncate unit ts
      /\ forall later, ts <= later -> truncate unit ts <= truncate unit later).
Proof.
  destruct unit; unfold truncate, date_trunc, truncWeek, truncMonth, msPerUnit, longestUnit.
  - split; [| intros _; split; [| intros later Hlater]];
      Z.div_mod_to_equations; lia.
  - split; [| intros _; split; [| intros later Hlater]];
      Z.div_mod_to_equations; lia.
  - split; [| intros _; split; [| intros later Hlater]];
      Z.div_mod_to_equations; lia.
  - split; [| congruence]. cbv zeta.
    pose proof (dayOfMonth_range (ts / 86400000)) as Hday.
    set (d := dayOfMonth (ts / 86400000)) in *.
    Z.div_mod_to_equations. lia.
Qed.

(** 2024-02-29T23:59:59.999Z, a Thursday, lies in the week of Monday
    2024-02-26 and in the month of 2024-02-01; 1969-12-31T12:00Z lies in
    the month of 1969-12-01. *)
Example truncate_leap_day :
  truncate week 1709251199999 = 1708905600000
  /\ truncate month 1709251199999 = 1706745600000
  /\ truncate month (-43200000) = -2678400000
  /\ truncate day 1709251199999 = 1709164800000.
Proof. repeat split; reflexivity. Qed.

End TruncationFacts.

(* ================================================================== *)
(** * Further properties: the store of aggregated metrics *)
(* ================================================================== *)

Section UpsertFacts.
Import Aggregation Textbook.
Local Open Scope R_scope.

Lemma conflicts_refl (m : AggregatedMetric) : conflicts m m = true.
Proof. now apply conflicts_key. Qed.

Lemma insertAggregatedMetric_keys (store : list AggregatedMetric) (m : AggregatedMetric) :
  map keyOf (insertAggregatedMetric store m)
  = if existsb (fun s => conflicts s m) store then map keyOf store
    else map keyOf store ++ [keyOf m].
Proof.
  induction store as [| s store IH]; simpl; [reflexivity |].
  destruct (conflicts s m) eqn:Hc; simpl; [reflexivity |].
  rewrite IH. destruct (existsb (fun s => conflicts s m) store); reflexivity.
Qed.

Lemma insertAggregatedMetric_row (store : list AggregatedMetric) (m : AggregatedMetric) :
  exists stored, In stored (insertAggregatedMetric store m)
                 /\ keyOf stored = keyOf m /\ statisticsOf stored = statisticsOf m.
Proof.
  induction store as [| s store IH]; simpl.
  - exists m. split; [now left | split; reflexivity].
  - destruct (conflicts s m) eqn:Hc.
    + apply conflicts_key in Hc. eexists. split; [now left |]. split; [| reflexivity].
      rewrite <- Hc. reflexivity.
    + destruct IH as [stored [Hin Hrest]]. exists stored. split; [now right | assumption].
Qed.

(** X20.  [insertAggregatedMetric] is an upsert.  On a store whose keys
    are pairwise distinct, the keys stay pairwise distinct; the store then
    holds a row with the key of the metric and its six statistics; rows
    with another key are kept; and the store grows by one row when the key
    is new and by none when it is known. *)
Theorem insertAggregatedMetric_upsert (store : list AggregatedMetric)
    (m : AggregatedMetric) :
  List.NoDup (map keyOf store) ->
  List.NoDup (map keyOf (insertAggregatedMetric store m))
  /\ (exists stored, In stored (insertAggregatedMetric store m)
                     /\ keyOf stored = keyOf m /\ statisticsOf stored = statisticsOf m)
  /\ (forall s, In s store -> keyOf s <> keyOf m -> In s (insertAggregatedMetric store m))
  /\ List.length (insertAggregatedMetric store m)
     = (if existsb (fun s => conflicts s m) store then List.length store
        else S (List.length store)).
Proof.
  intros Hnd.
  pose proof (insertAggregatedMetric_keys store m) as Hkeys.
  split; [| split; [| split]].
  - rewrite Hkeys. destruct (existsb (fun s => conflicts s m) store) eqn:Hex;
      [assumption |].
    apply Permutation.Permutation_NoDup with (l := keyOf m :: map keyOf store).
    + apply Permutation_cons_append.
    + constructor; [| assumption]. intros Hin. apply in_map_iff in Hin.
      destruct Hin as [s [Hkey Hs]].
      assert (Hc : existsb (fun s => conflicts s m) store = true).
      { apply existsb_exists. exists s. split; [assumption | now apply conflicts_key]. }
      congruence.
  - apply insertAggregatedMetric_row.
  - intros s Hs Hkey. now apply insertAggregatedMetric_keeps.
  - rewrite <- (length_map keyOf (insertAggregatedMetric store m)), Hkeys.
    destruct (existsb (fun s => conflicts s m) store).
    + apply length_map.
    + rewrite length_app, length_map. simpl. lia.
Qed.

(** A metric is settled in a store when inserting it changes nothing. *)
Lemma insertAggregatedMetric_twice (store : list AggregatedMetric) (m : AggregatedMetric) :
  insertAggregatedMetric (insertAggregatedMetric store m) m
  = insertAggregatedMetric store m.
Proof.
  induction store as [| s store IH]; simpl.
  - rewrite conflicts_refl. now destruct m.
  - destruct (conflicts s m) eqn:Hc; simpl.
    + assert (Hc' : conflicts
                      {| m_tenant_id := m_tenant_id s; m_event_type := m_event_type s;
                         aggregation_period := aggregation_period s;
                         period_start := period_start s; period_end := period_end s;
                         count_events := count_events m; sum_value := sum_value m;
                         avg_value := avg_value m; min_value := min_value m;
                         max_value := max_value m; stddev_value := stddev_value m;
                         dimensions := dimensions s |} m = true) by exact Hc.
      rewrite Hc'. reflexivity.
    + rewrite Hc, IH. reflexivity.
Qed.

Lemma insertAggregatedMetric_settled (store : list AggregatedMetric)
    (m other : AggregatedMetric) :
  keyOf m <> keyOf other ->
  insertAggregatedMetric store m = store ->
  insertAggregatedMetric (insertAggregatedMetric store other) m
  = insertAggregatedMetric store other.
Proof.
  intros Hkey. induction store as [| s store IH]; simpl; [discriminate |].
  destruct (conflicts s m) eqn:Hm, (conflicts s other) eqn:Ho.
  - apply conflicts_key in Hm, Ho. congruence.
  - intros Hsame. simpl. rewrite Hm. injection Hsame as Hhead. now rewrite Hhead.
  - intros Hsame. injection Hsame as Hrest. simpl.
    assert (Hc' : conflicts
                    {| m_tenant_id := m_tenant_id s; m_event_type := m_event_type s;
                       aggregation_period := aggregation_period s;
                       period_start := period_start s; period_end := period_end s;
                       count_events := count_events other; sum_value := sum_value other;
                       avg_value := avg_value other; min_value := min_value other;
                       max_value := max_value other; stddev_value := stddev_value other;
                       dimensions := dimensions s |} m = false) by exact Hm.
    rewrite Hc', Hrest. reflexivity.
  - intros Hsame. injection Hsame as Hrest. simpl. rewrite Hm, (IH Hrest). reflexivity.
Qed.

Lemma fold_insert_settled (ms store : list AggregatedMetric) (m : AggregatedMetric) :
  (forall other, In other ms -> keyOf m <> keyOf other) ->
  insertAggregatedMetric store m = store ->
  insertAggregatedMetric (fold_left insertAggregatedMetric ms store) m
  = fold_left insertAggregatedMetric ms store.
Proof.
  revert store. induction ms as [| other ms IH]; intros store Hkeys Hsame; simpl;
    [assumption |].
  apply IH.
  - intros o Ho. apply Hkeys. now right.
  - apply insertAggregatedMetric_settled; [apply Hkeys; now left | assumption].
Qed.

Lemma fold_insert_idempotent (ms : list AggregatedMetric) :
  List.NoDup (map keyOf ms) ->
  forall store,
    (forall m, In m ms -> insertAggregatedMetric store m = store) ->
    fold_left insertAggregatedMetric ms store = store.
Proof.
  induction ms as [| m ms IH]; intros Hnd store Hall; simpl; [reflexivity |].
  inversion Hnd as [| ? ? Hnew Hnd']; subst.
  rewrite (Hall m) by now left. apply IH; [assumption |].
  intros m' Hm'. apply Hall. now right.
Qed.

Lemma fold_insert_all_settled (ms : list AggregatedMetric) :
  List.NoDup (map keyOf ms) ->
  forall store m, In m ms ->
    insertAggregatedMetric (fold_left insertAggregatedMetric ms store) m
    = fold_left insertAggregatedMetric ms store.
Proof.
  induction ms as [| m0 ms IH]; intros Hnd store m Hin; [destruct Hin |].
  inversion Hnd as [| ? ? Hnew Hnd']; subst. simpl.
  destruct Hin as [-> | Hin].
  - apply fold_insert_settled.
    + intros other Hother Hkey. apply Hnew. rewrite Hkey. now apply in_map.
    + apply insertAggregatedMetric_twice.
  - now apply IH.
Qed.

(** X21.  Running [computeAndStoreAggregations] again over the same events
    leaves the store as the first run left it: nothing is duplicated and
    nothing changes. *)
Theorem computeAndStoreAggregations_idempotent (events : list AnalyticsEvent)
    (tenantId eventType : string) (period : AggregationPeriod) (startDate endDate : Z)
    (store : list AggregatedMetric) :
  computeAndStoreAggregations events tenantId eventType period startDate endDate
    (computeAndStoreAggregations events tenantId eventType period startDate endDate store)
  = computeAndStoreAggregations events tenantId eventType period startDate endDate store.
Proof.
  unfold computeAndStoreAggregations.
  pose proof (computedMetrics_keys events tenantId eventType period startDate endDate)
    as Hnd.
  apply fold_insert_idempotent; [assumption |].
  intros m Hm. now apply fold_insert_all_settled.
Qed.

Lemma foreignTo_key (tenantId eventType : string) (period : AggregationPeriod)
    (a b : AggregatedMetric) :
  keyOf a = keyOf b ->
  foreignTo tenantId eventType period a = foreignTo tenantId eventType period b.
Proof. unfold keyOf, foreignTo. intros [= -> -> -> _ _]. reflexivity. Qed.

Lemma insertAggregatedMetric_foreign (tenantId eventType : string)
    (period : AggregationPeriod) (store : list AggregatedMetric) (m : AggregatedMetric) :
  foreignTo tenantId eventType period m = false ->
  List.filter (foreignTo tenantId eventType period) (insertAggregatedMetric store m)
  = List.filter (foreignTo tenantId eventType period) store.
Proof.
  intros Hm. induction store as [| s store IH]; simpl; [now rewrite Hm |].
  destruct (conflicts s m) eqn:Hc; simpl.
  - apply conflicts_key in Hc.
    rewrite (foreignTo_key tenantId eventType period s m Hc), Hm.
    assert (Hupd : foreignTo tenantId eventType period
                     {| m_tenant_id := m_tenant_id s; m_event_type := m_event_type s;
                        aggregation_period := aggregation_period s;
                        period_start := period_start s; period_end := period_end s;
                        count_events := count_events m; sum_value := sum_value m;
                        avg_value := avg_value m; min_value := min_value m;
                        max_value := max_value m; stddev_value := stddev_value m;
                        dimensions := dimensions s |}
                   = foreignTo tenantId eventType period s) by reflexivity.
    rewrite Hupd, (foreignTo_key tenantId eventType period s m Hc), Hm. reflexivity.
  - rewrite IH. reflexivity.
Qed.

(** X22.  [computeAndStoreAggregations] touches only rows of its tenant,
    event type and period: the other rows of the store are the same
    before and after, in the same order. *)
Theorem computeAndStoreAggregations_foreign (events : list AnalyticsEvent)
    (tenantId eventType : string) (period : AggregationPeriod) (startDate endDate : Z)
    (store : list AggregatedMetric) :
  List.filter (foreignTo tenantId eventType period)
    (computeAndStoreAggregations events tenantId eventType period startDate endDate store)
  = List.filter (foreignTo tenantId eventType period) store.
Proof.
  unfold computeAndStoreAggregations, computedMetrics.
  generalize (resultsFor period events tenantId eventType startDate endDate).
  intros rows. revert store. induction rows as [| r rows IH]; intros store; simpl;
    [reflexivity |].
  rewrite IH. apply insertAggregatedMetric_foreign.
  unfold foreignTo, metricOf. simpl. rewrite !String.eqb_refl.
  now destruct period.
Qed.

End UpsertFacts.

Section UpsertWitness.
Import Aggregation.

Lemma insertAggregatedMetric_upsert_witness :
  List.NoDup (map keyOf (insertAggregatedMetric [newYearHour] newYearHour)).
Proof.
  apply (insertAggregatedMetric_upsert [newYearHour] newYearHour).
  simpl. constructor; [intros [] | constructor].
Defined.

End UpsertWitness.

(* ================================================================== *)
(** * Further properties: the buckets of the compute-and-persist path *)
(* ================================================================== *)

Section BucketFacts.
Import Aggregation Textbook.
Local Open Scope R_scope.

(** An aligned start is the bucket of exactly the timestamps of its
    window. *)
Lemma date_trunc_window (unit : AggregationPeriod) (start ts : Z) :
  (start mod msPerUnit unit = 0)%Z ->
  (date_trunc unit ts =? start)%Z
  = ((start <=? ts)%Z && (ts <? start + msPerUnit unit)%Z).
Proof.
  intros Haligned.
  destruct (Z.eqb_spec (date_trunc unit ts) start) as [Heq | Hne],
    (Z.leb_spec start ts), (Z.ltb_spec ts (start + msPerUnit unit)); simpl;
    try reflexivity; exfalso; unfold date_trunc in *;
    destruct unit; unfold msPerUnit in *; Z.div_mod_to_equations; lia.
Qed.

Lemma date_trunc_aligned (unit : AggregationPeriod) (ts : Z) :
  (date_trunc unit ts mod msPerUnit unit = 0)%Z.
Proof.
  unfold date_trunc. destruct unit; unfold msPerUnit; Z.div_mod_to_equations; lia.
Qed.

Lemma parseNullable_id (x : option R) : parseNullable x = x.
Proof. now destruct x. Qed.

(** The metric of a bucket, in terms of the events of the table. *)
Lemma computedMetrics_row (events : list AnalyticsEvent) (tenantId eventType : string)
    (period : AggregationPeriod) (startDate endDate : Z) (m : AggregatedMetric) :
  In m (computedMetrics events tenantId eventType period startDate endDate) ->
  exists start group,
    group = List.filter (fun e => selects tenantId eventType startDate endDate e
                                  && (date_trunc (unitOf period) (event_timestamp e)
                                      =? start)%Z) events
    /\ (exists e, In e group)
    /\ (start mod msPerUnit (unitOf period) = 0)%Z
    /\ m = {| m_tenant_id := tenantId; m_event_type := eventType;
              aggregation_period := period;
              period_start := start;
              period_end := (start + msPerUnit (unitOf period))%Z;
              count_events := List.length group;
              sum_value := SUM (map metric_value group);
              avg_value := AVG (map metric_value group);
              min_value := MIN (map metric_value group);
              max_value := MAX (map metric_value group);
              stddev_value := STDDEV (map metric_value group);
              dimensions := ∅ |}.
Proof.
  unfold computedMetrics. rewrite resultsFor_unit. unfold computeAggregationBy.
  rewrite map_map, in_map_iff. intros [start [<- Hstart]].
  apply nodup_In, in_map_iff in Hstart. destruct Hstart as [e [Htrunc He]].
  exists start, (bucket (unitOf period) start
                   (List.filter (selects tenantId eventType startDate endDate) events)).
  split; [unfold bucket; apply filter_filter |]. split.
  - exists e. apply filter_In. split; [assumption | now apply Z.eqb_eq].
  - split; [rewrite <- Htrunc; apply date_trunc_aligned |].
    unfold metricOf. cbn [row_period_start row_period_end row_count_events
      row_sum_value row_avg_value row_min_value row_max_value row_stddev_value].
    now rewrite !parseNullable_id.
Qed.

(** X23.  The buckets handed to the store.  Each metric carries the
    tenant, event type and period of the call and no dimension; its bucket
    is one hour long for the period [hour] and one day long for every
    other period (also [week] and [month]), starts on a multiple of that
    length, and counts exactly the selected events whose timestamp lies in
    it, at least one. *)
Theorem computedMetrics_buckets (events : list AnalyticsEvent)
    (tenantId eventType : string) (period : AggregationPeriod)
    (startDate endDate : Z) (m : AggregatedMetric) :
  In m (computedMetrics events tenantId eventType period startDate endDate) ->
  let width := match period with hour => 3600000%Z | _ => 86400000%Z end in
  m_tenant_id m = tenantId /\ m_event_type m = eventType
  /\ aggregation_period m = period /\ dimensions m = ∅
  /\ (period_start m mod width = 0)%Z
  /\ period_end m = (period_start m + width)%Z
  /\ count_events m
     = List.length
         (List.filter (fun e => selects tenantId eventType startDate endDate e
                                && ((period_start m <=? event_timestamp e)%Z
                                    && (event_timestamp e <? period_end m)%Z)) events)
  /\ (1 <= count_events m)%nat.
Proof.
  intros Hin width.
  assert (Hwidth : width = msPerUnit (unitOf period)) by (now destruct period).
  apply computedMetrics_row in Hin.
  destruct Hin as [start [group [Hgroup [[e He] [Haligned ->]]]]]. simpl.
  rewrite Hwidth.
  repeat (split; [first [reflexivity | assumption] |]). split.
  - rewrite Hgroup. f_equal. apply filter_ext. intros e'.
    now rewrite (date_trunc_window (unitOf period) start _ Haligned).
  - destruct group; [destruct He | simpl; lia].
Qed.

Lemma fold_Rmin (v : R) (values : list R) :
  In (fold_right Rmin v values) (v :: values)
  /\ forall x, In x (v :: values) -> fold_right Rmin v values <= x.
Proof.
  induction values as [| y values [IHin IHle]].
  - simpl. split; [now left |]. intros x [<- | []]. lra.
  - cbn [fold_right]. set (rest := fold_right Rmin v values) in *.
    pose proof (Rmin_l y rest) as Hl. pose proof (Rmin_r y rest) as Hr. split.
    + destruct (Rle_dec y rest) as [Hle | Hgt].
      * rewrite Rmin_left by assumption. right. now left.
      * rewrite Rmin_right by lra.
        destruct IHin as [Hv | Hin]; [now left | right; now right].
    + intros x [Hx | [Hx | Hx]].
      * specialize (IHle v (or_introl eq_refl)). lra.
      * lra.
      * specialize (IHle x (or_intror Hx)). lra.
Qed.

Lemma fold_Rmax (v : R) (values : list R) :
  In (fold_right Rmax v values) (v :: values)
  /\ forall x, In x (v :: values) -> x <= fold_right Rmax v values.
Proof.
  induction values as [| y values [IHin IHle]].
  - simpl. split; [now left |]. intros x [<- | []]. lra.
  - cbn [fold_right]. set (rest := fold_right Rmax v values) in *.
    pose proof (Rmax_l y rest) as Hl. pose proof (Rmax_r y rest) as Hr. split.
    + destruct (Rle_dec y rest) as [Hle | Hgt].
      * rewrite Rmax_right by assumption.
        destruct IHin as [Hv | Hin]; [now left | right; now right].
      * rewrite Rmax_left by lra. right. now left.
    + intros x [Hx | [Hx | Hx]].
      * specialize (IHle v (or_introl eq_refl)). lra.
      * lra.
      * specialize (IHle x (or_intror Hx)). lra.
Qed.

Lemma total_between (lowest highest : R) (values : list R) :
  (forall x, In x values -> lowest <= x <= highest) ->
  INR (List.length values) * lowest <= total values
  <= INR (List.length values) * highest.
Proof.
  induction values as [| x values IH]; intros Hall.
  - simpl. lra.
  - cbn [total fold_right List.length]. fold (total values). rewrite S_INR.
    pose proof (Hall x (or_introl eq_refl)).
    assert (Hrest : forall y, In y values -> lowest <= y <= highest)
      by (intros y Hy; apply Hall; now right).
    specialize (IH Hrest). lra.
Qed.

Lemma average_between (lowest highest : R) (values : list R) :
  values <> [] ->
  (forall x, In x values -> lowest <= x <= highest) ->
  lowest <= average values <= highest.
Proof.
  intros Hne Hall. pose proof (total_between lowest highest values Hall) as Htotal.
  assert (Hn : 0 < INR (List.length values)).
  { apply lt_0_INR. destruct values; [congruence | simpl; lia]. }
  unfold average. set (n := INR (List.length values)) in *.
  split.
  - apply Rmult_le_reg_r with n; [assumption |].
    unfold Rdiv. rewrite Rmult_assoc, Rinv_l by lra. lra.
  - apply Rmult_le_reg_r with n; [assumption |].
    unfold Rdiv. rewrite Rmult_assoc, Rinv_l by lra. lra.
Qed.

(** X24.  The statistics of a bucket are those of its non-null metric
    values.  When the bucket has none, sum, average, minimum, maximum and
    deviation are all [null].  Otherwise the minimum and the maximum are
    values of the bucket that bound all of them, the sum is their total,
    and the average is the total over their number and lies between the
    minimum and the maximum. *)
Theorem computedMetrics_statistics (events : list AnalyticsEvent)
    (tenantId eventType : string) (period : AggregationPeriod)
    (startDate endDate : Z) (m : AggregatedMetric) :
  In m (computedMetrics events tenantId eventType period startDate endDate) ->
  let values := bucketValues events tenantId eventType period startDate endDate
                  (period_start m) in
  (values = [] ->
   sum_value m = None /\ avg_value m = None /\ min_value m = None
   /\ max_value m = None /\ stddev_value m = None)
  /\ (values <> [] ->
      exists lowest highest,
        min_value m = Some lowest /\ max_value m = Some highest
        /\ In lowest values /\ In highest values
        /\ (forall v, In v values -> lowest <= v <= highest)
        /\ sum_value m = Some (total values)
        /\ avg_value m = Some (average values)
        /\ lowest <= average values <= highest).
Proof.
  intros Hin. apply computedMetrics_row in Hin.
  destruct Hin as [start [group [Hgroup [_ [_ ->]]]]].
  cbn [period_start sum_value avg_value min_value max_value stddev_value].
  unfold bucketValues. rewrite <- Hgroup. cbv zeta.
  unfold SUM, AVG, MIN, MAX, STDDEV.
  destruct (nonNull (map metric_value group)) as [| v values] eqn:Hvalues.
  - split; [| congruence]. intros _. simpl. auto.
  - split; [discriminate |]. intros _.
    destruct (fold_Rmin v values) as [Hmin_in Hmin]. destruct (fold_Rmax v values) as [Hmax_in Hmax].
    exists (fold_right Rmin v values), (fold_right Rmax v values).
    assert (Hall : forall x, In x (v :: values) ->
                     fold_right Rmin v values <= x <= fold_right Rmax v values)
      by (intros x Hx; split; [now apply Hmin | now apply Hmax]).
    repeat (split; [first [reflexivity | assumption] |]).
    apply average_between; [discriminate | assumption].
Qed.

End BucketFacts.

Section BucketWitnesses.
Import Aggregation Textbook.
Local Open Scope R_scope.

Lemma computedMetrics_buckets_witness :
  period_end newYearHour = (period_start newYearHour + 3600000)%Z
  /\ count_events newYearHour = 2%nat.
Proof.
  pose proof (computedMetrics_buckets twoPurchases "acme" "purchase" hour
                1704067200000 1704070800000 newYearHour) as Hbucket.
  destruct Hbucket as [_ [_ [_ [_ [_ [Hend [Hcount _]]]]]]].
  - left. reflexivity.
  - split; [exact Hend | reflexivity].
Defined.

Lemma computedMetrics_statistics_witness :
  avg_value newYearHour = Some (average [1; 3]).
Proof.
  pose proof (computedMetrics_statistics twoPurchases "acme" "purchase" hour
                1704067200000 1704070800000 newYearHour) as Hstats.
  destruct Hstats as [_ Hsome].
  - left. reflexivity.
  - destruct Hsome as [lowest [highest [_ [_ [_ [_ [_ [_ [Havg _]]]]]]]]].
    + discriminate.
    + exact Havg.
Defined.

End BucketWitnesses.

(* ================================================================== *)
(** * Further properties: the upload action *)
(* ================================================================== *)

Section EventFacts.
Context {rt : Runtime}.

Lemma differs_true (dimColumn : string) (column : option string) :
  differs dimColumn column = true <-> column <> Some dimColumn.
Proof.
  destruct column as [c |]; simpl; [| split; [discriminate | reflexivity]].
  rewrite Bool.negb_true_iff, String.eqb_neq. split; congruence.
Qed.

Lemma setProperty_lookup {V : Type} (obj : gmap string V) (key k : string) (v : V) :
  setProperty obj key v !! k
  = if String.eqb key "__proto__" then obj !! k
    else if String.eqb k key then Some v else obj !! k.
Proof.
  unfold setProperty. destruct (String.eqb key "__proto__"); [reflexivity |].
  destruct (String.eqb_spec k key) as [-> | Hne].
  - apply lookup_insert_eq.
  - apply lookup_insert_ne. congruence.
Qed.

(** A loop that copies the cells of the columns that pass a test. *)
Lemma setProperty_fold (keep : string -> bool) (row : gmap string Cell)
    (dimColumns : list string) (start : gmap string Cell) (k : string) :
  fold_left (fun dimensions dimColumn =>
               if keep dimColumn
               then setProperty dimensions dimColumn (getCell row dimColumn)
               else dimensions) dimColumns start !! k
  = if arrayIncludes dimColumns k && negb (String.eqb k "__proto__") && keep k
    then Some (getCell row k) else start !! k.
Proof.
  revert start. induction dimColumns as [| c dimColumns IH]; intros start; simpl;
    [reflexivity |].
  rewrite IH. unfold arrayIncludes.
  destruct (existsb (String.eqb k) dimColumns); simpl.
  - rewrite Bool.orb_true_r. simpl.
    destruct (negb (String.eqb k "__proto__") && keep k) eqn:Hkeep; [reflexivity |].
    destruct (keep c) eqn:Hc; [| reflexivity].
    rewrite setProperty_lookup.
    destruct (String.eqb c "__proto__") eqn:Hproto; [reflexivity |].
    destruct (String.eqb_spec k c) as [-> | Hne]; [| reflexivity].
    rewrite Hc, Hproto in Hkeep. discriminate.
  - rewrite Bool.orb_false_r.
    destruct (String.eqb_spec k c) as [-> | Hne]; simpl.
    + destruct (keep c) eqn:Hc.
      * rewrite setProperty_lookup, String.eqb_refl.
        destruct (String.eqb c "__proto__"); reflexivity.
      * now rewrite Bool.andb_false_r.
    + destruct (keep c); [| reflexivity].
      rewrite setProperty_lookup.
      destruct (String.eqb c "__proto__"); [reflexivity |].
      apply String.eqb_neq in Hne. now rewrite Hne.
Qed.

(** X25.  The dimensions of an event.  A name is a key of the dimensions
    exactly when it is one of the mapping's dimension columns, is not the
    column of a role, and is not [__proto__]; its value is the cell of the
    row under that name ([undefined] when the row has none). *)
Theorem dimensionsOf_lookup (mapping : AnalyticsEventMapping) (row : gmap string Cell)
    (k : string) (v : Cell) :
  dimensionsOf mapping row !! k = Some v
  <-> In k (dimensionColumns mapping)
      /\ k <> "__proto__"
      /\ timestampColumn mapping <> Some k
      /\ eventTypeColumn mapping <> Some k
      /\ metricValueColumn mapping <> Some k
      /\ v = getCell row k.
Proof.
  unfold dimensionsOf.
  rewrite (setProperty_fold
             (fun c => differs c (timestampColumn mapping)
                       && differs c (eventTypeColumn mapping)
                       && differs c (metricValueColumn mapping))), lookup_empty.
  destruct (arrayIncludes (dimensionColumns mapping) k
            && negb (String.eqb k "__proto__")
            && (differs k (timestampColumn mapping)
                && differs k (eventTypeColumn mapping)
                && differs k (metricValueColumn mapping))) eqn:Hkeep.
  - rewrite !Bool.andb_true_iff, arrayIncludes_In, Bool.negb_true_iff, String.eqb_neq,
      !differs_true in Hkeep.
    split; [intros [= <-]; tauto | intros [_ [_ [_ [_ [_ ->]]]]]; reflexivity].
  - split; [discriminate |]. intros [Hin [Hproto [Hts [Het [Hmv _]]]]].
    assert (Hall : arrayIncludes (dimensionColumns mapping) k
                   && negb (String.eqb k "__proto__")
                   && (differs k (timestampColumn mapping)
                       && differs k (eventTypeColumn mapping)
                       && differs k (metricValueColumn mapping)) = true).
    { rewrite !Bool.andb_true_iff, arrayIncludes_In, Bool.negb_true_iff, String.eqb_neq,
        !differs_true. tauto. }
    congruence.
Qed.

Lemma buildEvents_Forall (P : NewAnalyticsEvent -> Prop) (tenantId fileId : string)
    (schema : gmap string string) (mapping : AnalyticsEventMapping) (clock : nat -> Z)
    (data : list (gmap string Cell)) :
  (forall now row, In row data -> P (eventOf tenantId fileId schema mapping now row)) ->
  forall i, List.Forall P (buildEvents tenantId fileId schema mapping clock data i).
Proof.
  induction data as [| row data IH]; intros Hall i; simpl; constructor.
  - apply Hall. now left.
  - apply IH. intros now r Hr. apply Hall. now right.
Qed.

Lemma buildEvents_raw (tenantId fileId : string) (schema : gmap string string)
    (mapping : AnalyticsEventMapping) (clock : nat -> Z) (data : list (gmap string Cell)) :
  forall i, map ev_raw_data (buildEvents tenantId fileId schema mapping clock data i) = data.
Proof. induction data as [| row data IH]; intros i; simpl; [| rewrite IH]; reflexivity. Qed.

Lemma eventTypeOf_nonempty (mapping : AnalyticsEventMapping) (row : gmap string Cell) :
  eventTypeOf mapping row <> "".
Proof.
  unfold eventTypeOf. destruct (eventTypeColumn mapping) as [c |]; [| discriminate].
  destruct (String.eqb c ""); [discriminate |].
  destruct (getCell row c) as [| | s]; simpl; try discriminate.
  destruct (String.eqb_spec s "") as [-> | Hne]; [discriminate | assumption].
Qed.

Lemma timestampOf_cases (now : Z) (mapping : AnalyticsEventMapping)
    (row : gmap string Cell) :
  timestampOf now mapping row = NNull \/ exists time, timestampOf now mapping row = NDate time.
Proof.
  unfold timestampOf. destruct (timestampColumn mapping) as [c |]; [| eauto].
  destruct (String.eqb c ""); [eauto |]. unfold normalizeValue.
  destruct (isBlank (getCell row c)); [now left |]. simpl.
  destruct (Date_parse (ToString (getCell row c))); eauto.
Qed.

(** The metric role of a detected mapping names a column typed as a
    number. *)
Lemma detectEventMapping_metric (columns : list string) (schema : gmap string string)
    (c : string) :
  metricValueColumn (detectEventMapping columns schema) = Some c ->
  schemaType schema c = "number" \/ schemaType schema c = "integer".
Proof.
  rewrite detectEventMapping_unfold.
  pose proof (afterTimestampFallback_invariant schema columns) as [_ _ Hmv _ _].
  unfold eventTypeFallback.
  intros Hc.
  assert (Hafter : metricValueColumn (afterTimestampFallback schema columns) = Some c).
  { destruct (unset (eventTypeColumn (afterTimestampFallback schema columns)));
      exact Hc. }
  specialize (Hmv c Hafter). unfold schemaIs, schemaType in *.
  destruct (schema !! c) as [t |]; [| discriminate]. simpl.
  apply Bool.orb_true_iff in Hmv. rewrite !String.eqb_eq in Hmv. exact Hmv.
Qed.

Lemma metricValueOf_cases (now : Z) (columns : list string) (schema : gmap string string)
    (row : gmap string Cell) :
  let metric := metricValueOf now schema (detectEventMapping columns schema) row in
  metric = NNull \/ exists num, metric = NNumber num /\ isNaN num = false.
Proof.
  cbv zeta. unfold metricValueOf.
  destruct (metricValueColumn (detectEventMapping columns schema)) as [c |] eqn:Hc;
    [| now left].
  destruct (String.eqb c ""); [now left |].
  apply detectEventMapping_metric in Hc. unfold normalizeValue.
  destruct (isBlank (getCell row c)); [now left |].
  assert (Hnum : String.eqb (schemaType schema c) "number"
                 || String.eqb (schemaType schema c) "integer" = true).
  { destruct Hc as [-> | ->]; reflexivity. }
  rewrite Hnum.
  destruct (isNaN (Number (ToString (getCell row c)))) eqn:Hnan; [now left |].
  right. eauto.
Qed.

(** X26.  The events built from a parsed file: one per row, in the order
    of the file, each carrying the tenant, the file and the row itself; no
    event type is empty; a timestamp is [null] or a date; a metric value is
    [null] or a number that is not [NaN]. *)
Theorem buildEvents_shape (tenantId fileId : string) (columns : list string)
    (schema : gmap string string) (clock : nat -> Z) (data : list (gmap string Cell))
    (i : nat) :
  let events := buildEvents tenantId fileId schema (detectEventMapping columns schema)
                  clock data i in
  map ev_raw_data events = data
  /\ List.Forall
       (fun e =>
          ev_tenant_id e = tenantId /\ ev_file_id e = fileId
          /\ ev_event_type e <> ""
          /\ (ev_event_timestamp e = NNull \/ exists time, ev_event_timestamp e = NDate time)
          /\ (ev_metric_value e = NNull
              \/ exists num, ev_metric_value e = NNumber num /\ isNaN num = false))
       events.
Proof.
  cbv zeta. split; [apply buildEvents_raw |].
  apply buildEvents_Forall. intros now row _. simpl.
  split; [reflexivity |]. split; [reflexivity |].
  split; [apply eventTypeOf_nonempty |].
  split; [apply timestampOf_cases | apply (metricValueOf_cases now columns schema row)].
Qed.

Lemma mapColumn_no_type (schema : gmap string string) (m : AnalyticsEventMapping)
    (c : string) :
  (schemaIs schema c "string" = true -> somePattern typePatterns (toLowerCase c) = false) ->
  eventTypeColumn (mapColumn schema m c) = eventTypeColumn m.
Proof.
  intros Hno. unfold mapColumn.
  destruct (unset (timestampColumn m) && schemaIs schema c "timestamp"
            && somePattern timestampPatterns (toLowerCase c)); [reflexivity |].
  destruct (schemaIs schema c "string") eqn:Hty.
  - rewrite (Hno eq_refl), Bool.andb_false_r.
    destruct (unset (metricValueColumn m)
              && (schemaIs schema c "number" || schemaIs schema c "integer")
              && somePattern valuePatterns (toLowerCase c)); reflexivity.
  - rewrite Bool.andb_false_r, Bool.andb_false_l.
    destruct (unset (metricValueColumn m)
              && (schemaIs schema c "number" || schemaIs schema c "integer")
              && somePattern valuePatterns (toLowerCase c)); reflexivity.
Qed.

Lemma loop_no_type (schema : gmap string string) (columns : list string) :
  (forall c, In c columns -> schemaIs schema c "string" = true ->
             somePattern typePatterns (toLowerCase c) = false) ->
  forall m, eventTypeColumn (fold_left (mapColumn schema) columns m) = eventTypeColumn m.
Proof.
  induction columns as [| c columns IH]; intros Hno m; simpl; [reflexivity |].
  rewrite IH by (intros c' Hc'; apply Hno; now right).
  apply mapColumn_no_type, Hno. now left.
Qed.

Lemma detectEventMapping_default (schema : gmap string string) (columns : list string) :
  (forall c, In c columns -> schemaIs schema c "string" = true ->
             somePattern typePatterns (toLowerCase c) = false) ->
  eventTypeColumn (detectEventMapping columns schema) = Some default_event.
Proof.
  intros Hno. unfold detectEventMapping.
  set (looped := fold_left (mapColumn schema) columns emptyMapping).
  assert (Hloop : eventTypeColumn looped = None) by (unfold looped; now rewrite loop_no_type).
  assert (Hfallback : eventTypeColumn (timestampFallback columns schema looped) = None).
  { unfold timestampFallback. destruct (unset (timestampColumn looped)); [| assumption].
    destruct (List.filter _ columns); assumption. }
  unfold eventTypeFallback. now rewrite Hfallback.
Qed.

(** X27.  When no column typed [string] has a name that contains one of
    the type patterns, the mapping falls back to [default_event]; the rows
    have no cell of that name, and every event of the upload gets the type
    ['unknown'], whatever the file holds. *)
Theorem buildEvents_unknown_type (tenantId fileId : string) (columns : list string)
    (schema : gmap string string) (clock : nat -> Z) (data : list (gmap string Cell))
    (i : nat) :
  (forall c, In c columns -> schemaIs schema c "string" = true ->
             somePattern typePatterns (toLowerCase c) = false) ->
  (forall row, In row data -> isBlank (getCell row default_event) = true) ->
  List.Forall (fun e => ev_event_type e = "unknown")
    (buildEvents tenantId fileId schema (detectEventMapping columns schema) clock data i).
Proof.
  intros Hno Hrows. apply buildEvents_Forall. intros now row Hrow. simpl.
  unfold eventTypeOf. rewrite (detectEventMapping_default schema columns Hno).
  simpl. now rewrite (Hrows row Hrow).
Qed.

End EventFacts.

Section EventWitness.

Lemma buildEvents_unknown_type_witness :
  List.Forall (fun e => ev_event_type e = "unknown")
    (buildEvents "acme" "file-1" codedSchema (detectEventMapping codedColumns codedSchema)
       (fun _ => 0%Z) [codedRow] 0).
Proof.
  apply (buildEvents_unknown_type "acme" "file-1" codedColumns codedSchema).
  - intros c [<- | [<- | [<- | []]]] Htyped; vm_compute in Htyped; discriminate.
  - intros row [<- | []]. reflexivity.
Defined.

End EventWitness.

Section UploadFacts.
Context {rt : Runtime}.
Variable MAX_FILE_SIZE : Z.
Variable limitText : string.
Variable papa : string -> PapaOutcome.
Variable newId : string.
Variable clock : nat -> Z.
Variable accepts : NewAnalyticsEvent -> bool.
Variable dbError : NewAnalyticsEvent -> string.
Variable acceptsFile : UploadedFile -> bool.
Variable fileError : UploadedFile -> string.

Lemma canUploadFiles_role (role : UserRole) :
  canUploadFiles role = true <-> role <> MEMBER.
Proof.
  destruct role; unfold canUploadFiles, hasPermission; simpl; split; intros Hrole;
    first [reflexivity | discriminate | congruence].
Qed.

Lemma parseCSVFile_inl (outcome : PapaOutcome) (parsed : ParsedCSVResult) :
  parseCSVFile outcome = inl parsed ->
  p_data parsed <> [] /\ p_columns parsed <> []
  /\ p_rowCount parsed = List.length (p_data parsed)
  /\ p_schema parsed = inferSchema (p_data parsed) (p_columns parsed)
  /\ outcome = PapaComplete {| papa_errors := []; papa_data := p_data parsed;
                               papa_fields := Some (p_columns parsed) |}.
Proof.
  unfold parseCSVFile. destruct outcome as [[errs data fields] | message]; [| discriminate].
  simpl. destruct errs as [| e errs]; [| discriminate]. simpl.
  destruct fields as [[| c columns] |]; simpl; try discriminate.
  destruct data as [| row data]; simpl; [discriminate |].
  intros [= <-]. simpl. repeat split; discriminate.
Qed.

Lemma insertAnalyticsEvents_spec (events table : list NewAnalyticsEvent) :
  insertAnalyticsEvents accepts events table
  = (table ++ passingPrefix (storable accepts) events,
     List.find (fun e => negb (storable accepts e)) events).
Proof.
  revert table. induction events as [| e events IH]; intros table; simpl.
  - now rewrite app_nil_r.
  - destruct (storable accepts e); simpl.
    + rewrite IH, <- app_assoc. reflexivity.
    + now rewrite app_nil_r.
Qed.

Lemma find_refused (events : list NewAnalyticsEvent) :
  match List.find (fun e => negb (storable accepts e)) events with
  | Some refused => forallb (storable accepts) events = false
                    /\ In refused events /\ storable accepts refused = false
  | None => forallb (storable accepts) events = true
  end.
Proof.
  induction events as [| e events IH]; simpl; [reflexivity |].
  destruct (storable accepts e) eqn:He; simpl.
  - destruct (List.find (fun e => negb (storable accepts e)) events); [| assumption].
    destruct IH as [Hall [Hin Href]]. auto.
  - auto.
Qed.

Lemma updateFileStatus_fresh (fileId : string) (status : UploadStatus) (rowCount : nat)
    (schemaInferred : gmap string string) (files : list UploadedFile) :
  (forall f, In f files -> uf_id f <> fileId) ->
  updateFileStatus fileId status rowCount schemaInferred files = files.
Proof.
  intros Hfresh. unfold updateFileStatus. rewrite <- (map_id files) at 2.
  apply map_ext_in. intros f Hf. specialize (Hfresh f Hf).
  apply String.eqb_neq in Hfresh. now rewrite Hfresh.
Qed.

(** X28.  The gates of the upload.  Unless the caller is a member of the
    tenant whose role is not [MEMBER], a file is given whose size is within
    the limit and whose name ends in [.csv], the parser reports no error
    and at least one row and one column, and every row passes validation,
    the action fails and leaves both tables as they were. *)
Theorem uploadCSVAction_gates (tenantId : string) (tenantAuth : option TenantAuthContext)
    (file : option File) (store : Store) :
  let outcome := uploadCSVAction MAX_FILE_SIZE limitText papa newId clock accepts dbError
                   acceptsFile fileError tenantId tenantAuth file store in
  (snd outcome = store /\ exists error details, fst outcome = Failure error details)
  \/ exists auth f parsed,
       tenantAuth = Some auth /\ auth_role auth <> MEMBER
       /\ file = Some f /\ (f_size f <= MAX_FILE_SIZE)%Z
       /\ endsWith (f_name f) ".csv" = true
       /\ parseCSVFile (papa (f_text f)) = inl parsed
       /\ p_data parsed <> [] /\ p_columns parsed <> []
       /\ valid (validateCSVData (p_data parsed) (p_columns parsed)) = true.
Proof.
  cbv zeta. unfold uploadCSVAction.
  destruct tenantAuth as [auth |]; [| left; simpl; eauto].
  destruct (canUploadFiles (auth_role auth)) eqn:Hrole; simpl; [| left; simpl; eauto].
  destruct file as [f |]; [| left; simpl; eauto].
  destruct (MAX_FILE_SIZE <? f_size f)%Z eqn:Hsize; [left; simpl; eauto |].
  destruct (endsWith (f_name f) ".csv") eqn:Hname; simpl; [| left; simpl; eauto].
  destruct (parseCSVFile (papa (f_text f))) as [parsed | message] eqn:Hparse;
    [| left; simpl; eauto].
  destruct (valid (validateCSVData (p_data parsed) (p_columns parsed))) eqn:Hvalid; simpl;
    [| left; simpl; eauto].
  right. exists auth, f, parsed.
  apply canUploadFiles_role in Hrole. apply Z.ltb_ge in Hsize.
  destruct (parseCSVFile_inl _ _ Hparse) as [Hdata [Hcolumns _]].
  repeat (split; [first [reflexivity | assumption] |]). assumption.
Qed.

(** X29.  What an upload that passes the gates writes.  The file is
    registered first; when the database refuses it (a name of more than
    255 characters is always refused) the action fails with the database's
    message and nothing is written.  Otherwise the events are inserted one
    by one, in the order of the rows, up to the first one the database
    refuses (an event whose timestamp is [null] is always refused).  When
    none is refused the action succeeds, reports the number of rows, and
    marks the file completed with that number and the inferred schema.
    When one is refused the action fails with the database's message; the
    events before it stay in the table and the file stays in status
    [processing]. *)
Theorem uploadCSVAction_effect (tenantId : string) (auth : TenantAuthContext) (f : File)
    (parsed : ParsedCSVResult) (store : Store) :
  canUploadFiles (auth_role auth) = true ->
  (f_size f <= MAX_FILE_SIZE)%Z ->
  endsWith (f_name f) ".csv" = true ->
  parseCSVFile (papa (f_text f)) = inl parsed ->
  valid (validateCSVData (p_data parsed) (p_columns parsed)) = true ->
  let outcome := uploadCSVAction MAX_FILE_SIZE limitText papa newId clock accepts dbError
                   acceptsFile fileError tenantId (Some auth) (Some f) store in
  let created := createUploadedFile newId tenantId (auth_userId auth) (f_name f)
                   (f_size f) (p_columns parsed) in
  let events := buildEvents tenantId newId (p_schema parsed)
                  (detectEventMapping (p_columns parsed) (p_schema parsed))
                  clock (p_data parsed) 0 in
  ((255 < codePoints (f_name f))%nat -> registrable acceptsFile created = false)
  /\ (registrable acceptsFile created = false ->
      outcome = (Failure (fileError created) None, store))
  /\ (registrable acceptsFile created = true ->
      analytics_events (snd outcome)
      = analytics_events store ++ passingPrefix (storable accepts) events
      /\ (forall e, In e (passingPrefix (storable accepts) events) ->
                    exists time, ev_event_timestamp e = NDate time)
      /\ (forallb (storable accepts) events = true ->
          fst outcome = Success newId (List.length (p_data parsed)) (p_columns parsed)
          /\ uploaded_files (snd outcome)
             = updateFileStatus newId completed (List.length (p_data parsed))
                 (p_schema parsed) (uploaded_files store ++ [created])
          /\ ((forall old, In old (uploaded_files store) -> uf_id old <> newId) ->
              uploaded_files (snd outcome)
              = uploaded_files store
                ++ [ {| uf_id := newId; uf_tenant_id := tenantId;
                        uf_uploaded_by := auth_userId auth; uf_filename := f_name f;
                        uf_file_size_bytes := f_size f;
                        uf_row_count := List.length (p_data parsed);
                        uf_columns := p_columns parsed;
                        uf_schema_inferred := Some (p_schema parsed);
                        uf_upload_status := completed;
                        uf_error_message := None |} ]))
      /\ (forallb (storable accepts) events = false ->
          uploaded_files (snd outcome) = uploaded_files store ++ [created]
          /\ exists refused, In refused events /\ storable accepts refused = false
                             /\ fst outcome = Failure (dbError refused) None)).
Proof.
  intros Hrole Hsize Hname Hparse Hvalid outcome created events.
  destruct (parseCSVFile_inl _ _ Hparse) as [Hdata [_ [Hcount _]]].
  assert (Hrun : outcome
                 = if negb (registrable acceptsFile created)
                   then (Failure (fileError created) None, store)
                   else
                   match List.find (fun e => negb (storable accepts e)) events with
                   | Some refused =>
                       (Failure (dbError refused) None,
                        {| uploaded_files := uploaded_files store ++ [created];
                           analytics_events :=
                             analytics_events store
                             ++ passingPrefix (storable accepts) events |})
                   | None =>
                       (Success newId (p_rowCount parsed) (p_columns parsed),
                        {| uploaded_files :=
                             updateFileStatus newId completed (p_rowCount parsed)
                               (p_schema parsed) (uploaded_files store ++ [created]);
                           analytics_events :=
                             analytics_events store
                             ++ passingPrefix (storable accepts) events |})
                   end).
  { subst outcome. unfold uploadCSVAction. rewrite Hrole. simpl.
    apply Z.ltb_ge in Hsize. rewrite Hsize, Hname. simpl. rewrite Hparse, Hvalid. simpl.
    fold created. destruct (registrable acceptsFile created); [| reflexivity]. simpl.
    cbn [uf_id created createUploadedFile]. fold events.
    rewrite insertAnalyticsEvents_spec.
    destruct (List.find (fun e => negb (storable accepts e)) events); reflexivity. }
  pose proof (find_refused events) as Hfind.
  split; [| split].
  - intros Hlong. unfold registrable. cbn [uf_filename created createUploadedFile].
    apply Nat.leb_gt in Hlong. now rewrite Hlong.
  - intros Hrefused. now rewrite Hrun, Hrefused.
  - intros Hregistered. rewrite Hregistered in Hrun. simpl in Hrun.
    split; [| split; [| split]].
    + rewrite Hrun. destruct (List.find _ events); reflexivity.
    + clear Hrun Hfind. generalize events. clear events.
      induction events as [| e0 events IH]; simpl; [intros e [] |].
      destruct (storable accepts e0) eqn:He0; [| intros e []].
      intros e [<- | He]; [| now apply IH].
      unfold storable in He0. destruct (ev_event_timestamp e0); try discriminate. eauto.
    + intros Hall. rewrite Hrun.
      destruct (List.find _ events) as [refused |]; [destruct Hfind; congruence |].
      simpl. rewrite Hcount. split; [reflexivity |]. split; [reflexivity |].
      intros Hfresh. unfold updateFileStatus. rewrite map_app.
      fold (updateFileStatus newId completed (List.length (p_data parsed)) (p_schema parsed)
              (uploaded_files store)).
      rewrite (updateFileStatus_fresh _ _ _ _ _ Hfresh). simpl.
      rewrite String.eqb_refl.
      destruct (p_data parsed) as [| row rows]; [congruence | reflexivity].
    + intros Hsome. rewrite Hrun.
      destruct (List.find _ events) as [refused |]; [| congruence].
      destruct Hfind as [_ [Hin Href]]. simpl. split; [reflexivity |].
      exists refused. auto.
Qed.

End UploadFacts.

Section UploadWitness.

Lemma uploadCSVAction_effect_witness :
  uploadCSVAction 10485760 "10" samplePapa "file-1" (fun _ => 0%Z)
    (fun _ => true) (fun _ => "refused") (fun _ => true) (fun _ => "value too long")
    "acme" (Some sampleAuth) (Some longNameFile) emptyStore
  = (Failure "value too long" None, emptyStore).
Proof.
  apply (uploadCSVAction_effect 10485760 "10" samplePapa "file-1" (fun _ => 0%Z)
           (fun _ => true) (fun _ => "refused") (fun _ => true) (fun _ => "value too long")
           "acme" sampleAuth longNameFile
           {| p_data := [codedRow]; p_columns := codedColumns;
              p_schema := inferSchema [codedRow] codedColumns; p_rowCount := 1 |}
           emptyStore).
  - reflexivity.
  - simpl. lia.
  - reflexivity.
  - reflexivity.
  - reflexivity.
  - reflexivity.
Defined.

(** A file under a short name, whose one row the database takes: the
    file ends up completed, with one event. *)
Example uploadCSVAction_completed :
  let outcome := uploadCSVAction 10485760 "10" samplePapa "file-1" (fun _ => 0%Z)
                   (fun _ => true) (fun _ => "refused") (fun _ => true)
                   (fun _ => "value too long")
                   "acme" (Some sampleAuth) (Some sampleFile) emptyStore in
  fst outcome = Success "file-1" 1 codedColumns
  /\ map uf_upload_status (uploaded_files (snd outcome)) = [completed]
  /\ List.length (analytics_events (snd outcome)) = 1%nat.
Proof. vm_compute. repeat split; reflexivity. Qed.

End UploadWitness.


Section ChartWitness.
Import Aggregation.

Lemma aggregateMetrics_value_witness :
  exists point, In point (aggregateMetrics twoPurchases purchasesByHour)
                /\ Anomaly.count point = 2%Z.
Proof.
  eexists. split; [left; reflexivity |].
  match goal with
  | |- Anomaly.count ?p = _ =>
      pose proof (aggregateMetrics_value twoPurchases purchasesByHour p) as Hpoint
  end.
  destruct Hpoint as [Hcount _]; [left; reflexivity |].
  rewrite Hcount. reflexivity.
Defined.

End ChartWitness.

(* ================================================================== *)
(** * Properties: the outlier pass on doubles *)
(* ================================================================== *)

Section DoubleArithmetic.
Import PrimFloat Detector.

(** An absolute value is not below zero (it may be [NaN]). *)
Lemma Math_abs_not_negative (x : float) : ltb (Math_abs x) 0 = false.
Proof.
  unfold Math_abs. rewrite FloatAxioms.ltb_spec, FloatAxioms.abs_spec.
  destruct (FloatOps.Prim2SF x) as [s | s | | s m e]; reflexivity.
Qed.

(** Lengths below ten are below the default [minDataPoints]. *)
Lemma numberOf_below_ten (n : nat) : (n < 10)%nat -> ltb (numberOf n) 10 = true.
Proof.
  intros Hn. do 10 (destruct n as [| n]; [reflexivity |]). lia.
Qed.

(** Evaluates [realOf] at a literal. *)
Ltac realOf_literal :=
  unfold realOf;
  match goal with
  | |- context [FloatOps.Prim2SF ?x] =>
      let v := eval vm_compute in (FloatOps.Prim2SF x) in
      change (FloatOps.Prim2SF x) with v
  end;
  cbv beta iota zeta;
  repeat match goal with
  | |- context [(?e <? 0)%Z] =>
      let b := eval vm_compute in (e <? 0)%Z in change (e <? 0)%Z with b
  | |- context [(2 ^ ?e)%Z] =>
      let v := eval vm_compute in (2 ^ e)%Z in change (2 ^ e)%Z with v
  end;
  cbv beta iota.

Lemma realOf_0 : realOf 0 = 0%R.
Proof. reflexivity. Qed.

Lemma realOf_1 : realOf 1 = 1%R.
Proof. realOf_literal. lra. Qed.

Lemma realOf_2 : realOf 2 = 2%R.
Proof. realOf_literal. lra. Qed.

Lemma realOf_3 : realOf 3 = 3%R.
Proof. realOf_literal. lra. Qed.

Lemma realOf_minus_3 : realOf (-3) = (-3)%R.
Proof. realOf_literal. lra. Qed.

Lemma realOf_2_5 : realOf 2.5 = (5 / 2)%R.
Proof. realOf_literal. lra. Qed.

End DoubleArithmetic.

Section DoubleOutlierFacts.
Import PrimFloat Anomaly Detector.
Context {engine : Engine}.
Local Open Scope float_scope.

(** What a finding of the loop body says about its point. *)
Lemma checkOutlier_cases (config : AnomalyDetectionConfig) (stats : Statistics)
    (upperBound lowerBound : float) (point : TimeSeriesDataPoint) (a : Finding) :
  In a (checkOutlier config stats upperBound lowerBound point) ->
  dataPoint a = point
  /\ ((anomalyType a = spike /\ gtb (value point) upperBound = true
       /\ severity a
          = getSeverity ((value point - mean stats) / mean stats * 100)
              (sensitivityLevel config)
       /\ deviationPercentage a
          = Math_abs ((value point - mean stats) / mean stats * 100))
      \/ (anomalyType a = drop /\ gtb (value point) upperBound = false
          /\ ltb (value point) lowerBound = true /\ gtb lowerBound 0 = true
          /\ severity a
             = getSeverity ((mean stats - value point) / mean stats * 100)
                 (sensitivityLevel config)
          /\ deviationPercentage a
             = Math_abs ((mean stats - value point) / mean stats * 100))).
Proof.
  unfold checkOutlier.
  destruct (gtb (value point) upperBound) eqn:Hup.
  - intros [<- | []]. simpl. split; [reflexivity |]. left. auto.
  - destruct (ltb (value point) lowerBound && gtb lowerBound 0) eqn:Hlow.
    + intros [<- | []]. simpl.
      apply andb_prop in Hlow. destruct Hlow as [Hlt Hpos].
      split; [reflexivity |]. right. auto 6.
    + intros [].
Qed.

Lemma checkOutlier_above (config : AnomalyDetectionConfig) (stats : Statistics)
    (upperBound lowerBound : float) (point : TimeSeriesDataPoint) :
  gtb (value point) upperBound = true ->
  exists a, checkOutlier config stats upperBound lowerBound point = [a]
            /\ dataPoint a = point /\ anomalyType a = spike.
Proof.
  intros Hup. unfold checkOutlier. rewrite Hup.
  eexists. split; [reflexivity |]. split; reflexivity.
Qed.

Lemma checkOutlier_below (config : AnomalyDetectionConfig) (stats : Statistics)
    (upperBound lowerBound : float) (point : TimeSeriesDataPoint) :
  gtb (value point) upperBound = false ->
  ltb (value point) lowerBound = true -> gtb lowerBound 0 = true ->
  exists a, checkOutlier config stats upperBound lowerBound point = [a]
            /\ dataPoint a = point /\ anomalyType a = drop.
Proof.
  intros Hup Hlow Hpos. unfold checkOutlier. rewrite Hup, Hlow, Hpos.
  eexists. split; [reflexivity |]. split; reflexivity.
Qed.

(** Past its two guards the pass is the loop over the points. *)
Lemma detectOutliers_body (data : list TimeSeriesDataPoint)
    (config : AnomalyDetectionConfig) :
  ltb (numberOf (List.length data)) (minDataPoints config) = false ->
  eqb (stddev (calculateStatistics (map value data))) 0 = false ->
  detectOutliers data config
  = let stats := calculateStatistics (map value data) in
    flat_map (checkOutlier config stats
                (mean stats + stddevThreshold config * stddev stats)
                (mean stats - stddevThreshold config * stddev stats)) data.
Proof.
  intros Hlen Hsd. unfold detectOutliers. now rewrite Hlen, Hsd.
Qed.

(** Every finding of the pass comes from the loop, with both guards
    passed. *)
Lemma detectOutliers_cases (data : list TimeSeriesDataPoint)
    (config : AnomalyDetectionConfig) (a : Finding) :
  In a (detectOutliers data config) ->
  let stats := calculateStatistics (map value data) in
  ltb (numberOf (List.length data)) (minDataPoints config) = false
  /\ eqb (stddev stats) 0 = false
  /\ exists point, In point data
       /\ In a (checkOutlier config stats
                  (mean stats + stddevThreshold config * stddev stats)
                  (mean stats - stddevThreshold config * stddev stats) point).
Proof.
  unfold detectOutliers.
  destruct (ltb (numberOf (List.length data)) (minDataPoints config)) eqn:Hl;
    [intros [] |].
  destruct (eqb (stddev (calculateStatistics (map value data))) 0) eqn:Hsd;
    [intros [] |].
  intros Hin. apply in_flat_map in Hin. cbv zeta. auto.
Qed.

Lemma flagged_body (f : TimeSeriesDataPoint -> list Finding)
    (data : list TimeSeriesDataPoint) (point : TimeSeriesDataPoint) (type : AnomalyType) :
  (forall q a, In a (f q) -> dataPoint a = q) ->
  In point data ->
  flagged (flat_map f data) point type
  <-> exists a, In a (f point) /\ anomalyType a = type.
Proof.
  intros Hpoint Hin. unfold flagged. split.
  - intros [a [Ha [Hp Hty]]]. apply in_flat_map in Ha. destruct Ha as [q [_ Ha]].
    rewrite (Hpoint q a Ha) in Hp. subst q. now exists a.
  - intros [a [Ha Hty]]. exists a. split; [| split].
    + apply in_flat_map. now exists point.
    + now apply Hpoint.
    + assumption.
Qed.

(** C6, as amended.  For a series that meets [minDataPoints] and whose
    computed standard deviation is not zero, with the two bounds as the
    pass computes them in double arithmetic: a point is flagged as a spike
    exactly when its value exceeds the upper bound; it is flagged as a
    drop exactly when its value does not exceed the upper bound, is below
    the lower bound, and the lower bound is greater than zero; with a lower
    bound that is not greater than zero no point is flagged as a drop, and
    a point that does not exceed the upper bound is not flagged at all;
    and no point is flagged as an [outlier]. *)
Theorem detectOutliers_flags (data : list TimeSeriesDataPoint)
    (config : AnomalyDetectionConfig) (point : TimeSeriesDataPoint) :
  ltb (numberOf (List.length data)) (minDataPoints config) = false ->
  eqb (stddev (calculateStatistics (map value data))) 0 = false ->
  In point data ->
  let stats := calculateStatistics (map value data) in
  let upperBound := mean stats + stddevThreshold config * stddev stats in
  let lowerBound := mean stats - stddevThreshold config * stddev stats in
  (flagged (detectOutliers data config) point spike
   <-> gtb (value point) upperBound = true)
  /\ (flagged (detectOutliers data config) point drop
      <-> gtb (value point) upperBound = false
          /\ ltb (value point) lowerBound = true /\ gtb lowerBound 0 = true)
  /\ (gtb lowerBound 0 = false ->
      ~ flagged (detectOutliers data config) point drop
      /\ (gtb (value point) upperBound = false ->
          forall type, ~ flagged (detectOutliers data config) point type))
  /\ ~ flagged (detectOutliers data config) point outlier.
Proof.
  intros Hlen Hsd Hin stats upperBound lowerBound.
  rewrite (detectOutliers_body data config Hlen Hsd). cbv zeta.
  fold stats. fold upperBound lowerBound.
  assert (Hpoint : forall q a, In a (checkOutlier config stats upperBound lowerBound q) ->
                               dataPoint a = q).
  { intros q a Ha. now apply checkOutlier_cases in Ha. }
  rewrite !(flagged_body _ data point _ Hpoint Hin).
  assert (Hdrop : (exists a, In a (checkOutlier config stats upperBound lowerBound point)
                             /\ anomalyType a = drop)
                  <-> gtb (value point) upperBound = false
                      /\ ltb (value point) lowerBound = true /\ gtb lowerBound 0 = true).
  { split.
    - intros [a [Ha Hty]]. apply checkOutlier_cases in Ha.
      destruct Ha as [_ [[Hspike _] | [_ [Hup [Hlow [Hpos _]]]]]]; [congruence | auto].
    - intros [Hup [Hlow Hpos]].
      destruct (checkOutlier_below config stats upperBound lowerBound point Hup Hlow Hpos)
        as [a [Heq [_ Hty]]].
      exists a. rewrite Heq. split; [now left | assumption]. }
  split; [| split; [| split]].
  - split.
    + intros [a [Ha Hty]]. apply checkOutlier_cases in Ha.
      destruct Ha as [_ [[_ [Hup _]] | [Hty' _]]]; [assumption | congruence].
    + intros Hup.
      destruct (checkOutlier_above config stats upperBound lowerBound point Hup)
        as [a [Heq [_ Hty]]].
      exists a. rewrite Heq. split; [now left | assumption].
  - exact Hdrop.
  - intros Hpos.
    assert (Hnone : ~ (exists a, In a (checkOutlier config stats upperBound lowerBound point)
                                 /\ anomalyType a = drop)).
    { intros Hflag. apply Hdrop in Hflag. destruct Hflag as [_ [_ Hpos']]. congruence. }
    split; [exact Hnone |].
    intros Hup type Hflag. apply (flagged_body _ data point type Hpoint Hin) in Hflag.
    destruct Hflag as [a [Ha Hty]]. apply checkOutlier_cases in Ha.
    destruct Ha as [_ [[_ [Hup' _]] | [_ [_ [_ [Hpos' _]]]]]]; congruence.
  - intros [a [Ha Hty]]. apply checkOutlier_cases in Ha.
    destruct Ha as [_ [[Hspike _] | [Hty' _]]]; congruence.
Qed.

End DoubleOutlierFacts.

(* ================================================================== *)
(** * The outlier pass on sample series, on the reference engine *)
(* ================================================================== *)

Section DoubleOutlierExamples.
Import PrimFloat Anomaly Detector.
Local Open Scope float_scope.


(** The statistics the pass computes for ten points at three tenths: the
    sum rounds, the mean falls under three tenths by one unit in the last
    place, and the deviation is half that unit. *)
Example flatSeries_statistics :
  let stats := calculateStatistics (engine := reference) (map value flatSeries) in
  ltb (mean stats) (3 / 10) = true
  /\ stddev stats = 1 / 18014398509481984
  /\ eqb (stddev stats) 0 = false.
Proof. repeat split; reflexivity. Qed.

(** At half a deviation all ten points are spikes. *)
Example flatSeries_flagged :
  map anomalyType (detectOutliers (engine := reference) flatSeries (configOf 10 0.5))
  = repeat spike 10
  /\ map dataPoint (detectOutliers (engine := reference) flatSeries (configOf 10 0.5))
     = flatSeries.
Proof. split; reflexivity. Qed.


(** Spike and drop on the pair one and three, at half a deviation: the
    bounds are 2.5 and 1.5. *)
Lemma detectOutliers_flags_witness :
  flagged (detectOutliers (engine := reference) pairSeries (configOf 2 0.5))
    (pointAt 3600000 3) spike
  /\ flagged (detectOutliers (engine := reference) pairSeries (configOf 2 0.5))
       (pointAt 0 1) drop.
Proof.
  split.
  - apply (detectOutliers_flags (engine := reference) pairSeries (configOf 2 0.5)
             (pointAt 3600000 3)); [reflexivity | reflexivity | right; now left |].
    reflexivity.
  - apply (detectOutliers_flags (engine := reference) pairSeries (configOf 2 0.5)
             (pointAt 0 1)); [reflexivity | reflexivity | now left |].
    repeat split; reflexivity.
Defined.

End DoubleOutlierExamples.

Section ExactBounds.
Import PrimFloat Anomaly Detector.
Local Open Scope float_scope.

(** The exact statistics of the eighteen points: mean 5/3 and population
    standard deviation 2/3, so that the exact lower bound at 2.5
    deviations is zero. *)
Lemma thirdsSeries_exact :
  Textbook.average (map realOf (map value thirdsSeries)) = (5 / 3)%R
  /\ Textbook.populationStddev (map realOf (map value thirdsSeries)) = (2 / 3)%R.
Proof.
  cbv [thirdsSeries hourly map value pointAt repeat app].
  rewrite realOf_0, realOf_1, realOf_2.
  assert (Haverage : Textbook.average
                       [0; 1; 1; 2; 2; 2; 2; 2; 2; 2; 2; 2; 2; 2; 2; 2; 2; 0]%R
                     = (5 / 3)%R).
  { unfold Textbook.average, Textbook.total. simpl. lra. }
  split; [assumption |].
  unfold Textbook.populationStddev, Textbook.squaredDeviations. rewrite Haverage.
  unfold Textbook.total.
  match goal with
  | |- R_sqrt.sqrt ?radicand = _ =>
      replace radicand with (2 / 3 * (2 / 3))%R by (simpl; lra)
  end.
  apply sqrt_square. lra.
Qed.

Lemma thirdsSeries_exactLower : exactLower thirdsSeries (DEFAULT_CONFIG 3) = 0%R.
Proof.
  unfold exactLower. destruct thirdsSeries_exact as [-> ->].
  cbn [stddevThreshold DEFAULT_CONFIG]. rewrite realOf_2_5. lra.
Qed.

(** The pass computes a lower bound above zero for them, and flags the
    two points at zero as drops. *)
Example thirdsSeries_drops :
  let stats := calculateStatistics (engine := reference) (map value thirdsSeries) in
  gtb (mean stats - 2.5 * stddev stats) 0 = true
  /\ map (fun a => (timestamp (dataPoint a), anomalyType a))
       (detectOutliers (engine := reference) thirdsSeries (DEFAULT_CONFIG 3))
     = [(0%Z, drop); (61200000%Z, drop)].
Proof. split; reflexivity. Qed.

Lemma pairSeries_exact :
  Textbook.average (map realOf (map value pairSeries)) = 2%R
  /\ Textbook.populationStddev (map realOf (map value pairSeries)) = 1%R.
Proof.
  cbv [pairSeries hourly map value pointAt]. rewrite realOf_1, realOf_3. split.
  - unfold Textbook.average, Textbook.total. simpl. lra.
  - apply stddev_1_3.
Qed.

(** With a threshold below zero the bounds cross: for the pair one and
    three at minus three deviations the upper bound is -1 and the lower
    one 5, and both points are spikes. *)
Example pairSeries_crossed :
  let stats := calculateStatistics (engine := reference) (map value pairSeries) in
  mean stats + -3 * stddev stats = -1
  /\ mean stats - -3 * stddev stats = 5
  /\ map (fun a => (timestamp (dataPoint a), anomalyType a))
       (detectOutliers (engine := reference) pairSeries (configOf 2 (-3)))
     = [(0%Z, spike); (3600000%Z, spike)].
Proof. repeat split; reflexivity. Qed.

Lemma pairSeries_no_drop (point : TimeSeriesDataPoint) :
  ~ flagged (detectOutliers (engine := reference) pairSeries (configOf 2 (-3))) point drop.
Proof.
  intros [a [Ha [_ Hty]]]. vm_compute in Ha.
  destruct Ha as [<- | [<- | []]]; discriminate.
Qed.

(** With a threshold below zero a point under a lower bound that is not
    above zero can be flagged: for the pair minus eleven and minus nine at
    minus three deviations the upper bound is -13 and the lower one -7,
    and the point at -11 is a spike. *)
Example lowSeries_spike :
  let stats := calculateStatistics (engine := reference) (map value lowSeries) in
  let lowerBound := mean stats - -3 * stddev stats in
  lowerBound = -7 /\ gtb lowerBound 0 = false /\ ltb (-11) lowerBound = true
  /\ flagged (detectOutliers (engine := reference) lowSeries (configOf 2 (-3)))
       (pointAt 0 (-11)) spike.
Proof.
  cbv zeta. repeat split; try reflexivity.
  eexists. split; [left; reflexivity |]. split; reflexivity.
Qed.

(** The statement of C6 over the exact bounds fails, in three ways.  At
    the default threshold the eighteen points have the exact lower bound
    zero, under which nothing is a drop, while the pass computes a bound
    above zero and flags the points at zero.  At a threshold below zero
    the point at one of the pair lies below a lower bound greater than
    zero and is no drop, over the exact bounds as over the computed ones;
    and the point at minus eleven lies below a lower bound that is not
    above zero and is flagged. *)
Lemma detectOutliers_exact_bounds :
  (ltb (numberOf (List.length thirdsSeries)) (minDataPoints (DEFAULT_CONFIG 3)) = false
   /\ Textbook.populationStddev (map realOf (map value thirdsSeries)) <> 0%R
   /\ ~ exactRule (engine := reference) thirdsSeries (DEFAULT_CONFIG 3))
  /\ (ltb (numberOf (List.length pairSeries)) (minDataPoints (configOf 2 (-3))) = false
      /\ Textbook.populationStddev (map realOf (map value pairSeries)) <> 0%R
      /\ ~ exactRule (engine := reference) pairSeries (configOf 2 (-3))
      /\ ~ computedRule (engine := reference) pairSeries (configOf 2 (-3)))
  /\ (ltb (numberOf (List.length lowSeries)) (minDataPoints (configOf 2 (-3))) = false
      /\ eqb (stddev (calculateStatistics (engine := reference) (map value lowSeries))) 0
         = false
      /\ exists point type,
           In point lowSeries
           /\ ltb (value point)
                (mean (calculateStatistics (engine := reference) (map value lowSeries))
                 - stddevThreshold (configOf 2 (-3))
                   * stddev (calculateStatistics (engine := reference)
                               (map value lowSeries))) = true
           /\ gtb (mean (calculateStatistics (engine := reference) (map value lowSeries))
                   - stddevThreshold (configOf 2 (-3))
                     * stddev (calculateStatistics (engine := reference)
                                 (map value lowSeries))) 0 = false
           /\ flagged (detectOutliers (engine := reference) lowSeries (configOf 2 (-3)))
                point type).
Proof.
  split; [split; [reflexivity | split]
         | split; [split; [reflexivity | split; [| split]] |]].
  - rewrite (proj2 thirdsSeries_exact). lra.
  - intros Hrule.
    destruct (Hrule (pointAt 0 0)) as [_ [Hdrop _]]; [now left |].
    assert (Hflag : flagged (detectOutliers (engine := reference) thirdsSeries
                               (DEFAULT_CONFIG 3)) (pointAt 0 0) drop).
    { unfold flagged.
      remember (detectOutliers (engine := reference) thirdsSeries (DEFAULT_CONFIG 3))
        as findings eqn:Hrun.
      vm_compute in Hrun. subst findings.
      eexists. split; [left; reflexivity |]. split; reflexivity. }
    apply Hdrop in Hflag. rewrite thirdsSeries_exactLower in Hflag. lra.
  - rewrite (proj2 pairSeries_exact). lra.
  - intros Hrule.
    destruct (Hrule (pointAt 0 1)) as [_ [Hdrop _]]; [now left |].
    apply (pairSeries_no_drop (pointAt 0 1)), Hdrop.
    unfold exactLower. destruct pairSeries_exact as [-> ->].
    cbn [stddevThreshold configOf value pointAt]. rewrite realOf_1, realOf_minus_3. lra.
  - intros Hrule. cbv zeta in Hrule.
    destruct (Hrule (pointAt 0 1)) as [_ Hdrop]; [now left |].
    apply (pairSeries_no_drop (pointAt 0 1)), Hdrop. split; reflexivity.
  - split; [reflexivity |]. split; [reflexivity |].
    exists (pointAt 0 (-11)), spike.
    split; [now left |]. split; [reflexivity |]. split; [reflexivity |].
    apply lowSeries_spike.
Qed.

End ExactBounds.

(* ================================================================== *)
(** * Further properties: the trend pass and the rows written *)
(* ================================================================== *)

Section DoubleDetectorFacts.
Import PrimFloat Anomaly Detector.
Context {engine : Engine}.
Local Open Scope float_scope.

Lemma trendLoop_step (config : AnomalyDetectionConfig)
    (prev2 prev1 point : TimeSeriesDataPoint) (rest : list TimeSeriesDataPoint) :
  trendLoop config (prev2 :: prev1 :: point :: rest)
  = checkTrend config prev2 prev1 point ++ trendLoop config (prev1 :: point :: rest).
Proof. reflexivity. Qed.

(** The sliding window visits exactly the indices of the loop: the points
    [data[k]], [data[k + 1]], [data[k + 2]], that is [i = k + 2] from 2 on. *)
Lemma trendLoop_In (config : AnomalyDetectionConfig) (data : list TimeSeriesDataPoint)
    (a : Finding) :
  In a (trendLoop config data)
  <-> exists k prev2 prev1 point,
        nth_error data k = Some prev2 /\ nth_error data (S k) = Some prev1
        /\ nth_error data (S (S k)) = Some point
        /\ In a (checkTrend config prev2 prev1 point).
Proof.
  induction data as [| p2 rest IH].
  - simpl. split; [intros [] |]. intros [k [x [y [z [Hk _]]]]]. destruct k; discriminate.
  - destruct rest as [| p1 [| p rest]].
    + simpl. split; [intros [] |]. intros [k [x [y [z [_ [Hk _]]]]]].
      destruct k; discriminate.
    + simpl. split; [intros [] |]. intros [k [x [y [z [_ [_ [Hk _]]]]]]].
      destruct k as [| [| k]]; discriminate.
    + rewrite trendLoop_step, in_app_iff, IH. split.
      * intros [Hin | [k [x [y [z [Hx [Hy [Hz Hin]]]]]]]].
        -- exists 0%nat, p2, p1, p. auto.
        -- exists (S k), x, y, z. auto.
      * intros [k [x [y [z [Hx [Hy [Hz Hin]]]]]]]. destruct k as [| k].
        -- left. simpl in Hx, Hy, Hz. congruence.
        -- right. exists k, x, y, z. auto.
Qed.

Lemma checkTrend_In (config : AnomalyDetectionConfig)
    (prev2 prev1 point : TimeSeriesDataPoint) (a : Finding) :
  In a (checkTrend config prev2 prev1 point)
  <-> eqb ((value prev1 + value prev2) / 2) 0 = false
      /\ gtb (Math_abs ((value point - (value prev1 + value prev2) / 2)
                        / ((value prev1 + value prev2) / 2) * 100))
           (50 / sensitivityLevel config) = true
      /\ a = trendFinding config prev2 prev1 point.
Proof.
  unfold checkTrend, trendFinding.
  destruct (eqb ((value prev1 + value prev2) / 2) 0) eqn:Hzero.
  - split; [intros [] | intros [Hne _]; discriminate].
  - destruct (gtb (Math_abs ((value point - (value prev1 + value prev2) / 2)
                             / ((value prev1 + value prev2) / 2) * 100))
                (50 / sensitivityLevel config)) eqn:Hover.
    + split.
      * intros [<- | []]. auto.
      * intros [_ [_ ->]]. now left.
    + split; [intros [] | intros [_ [Hgt _]]; discriminate].
Qed.

(** What every finding of the trend pass looks like. *)
Lemma detectTrendAnomalies_shape (data : list TimeSeriesDataPoint)
    (config : AnomalyDetectionConfig) (a : Finding) :
  In a (detectTrendAnomalies data config) ->
  In (dataPoint a) data /\ anomalyType a <> outlier
  /\ ltb (deviationPercentage a) 0 = false.
Proof.
  unfold detectTrendAnomalies.
  destruct (ltb (numberOf (List.length data)) (minDataPoints config + 2));
    [intros [] |].
  intros Hin. apply trendLoop_In in Hin. destruct Hin as [k [x [y [z [_ [_ [Hz Hin]]]]]]].
  apply checkTrend_In in Hin. destruct Hin as [_ [_ ->]]. simpl.
  split; [now apply nth_error_In in Hz |]. split.
  - destruct (gtb _ 0); discriminate.
  - apply Math_abs_not_negative.
Qed.

(** X10.  The findings of the trend pass, in double arithmetic.  The pass
    looks at a series whose length is not below [minDataPoints + 2], and
    flags the point at index [k + 2] exactly when the average of the two
    points before it is not zero and the change against that average
    exceeds, in absolute value, [50 / sensitivityLevel] percent; the
    finding is a spike when the change is positive and a drop otherwise,
    its severity is that of the absolute change, its expected value is the
    average and its deviation the absolute change. *)
Theorem detectTrendAnomalies_findings (data : list TimeSeriesDataPoint)
    (config : AnomalyDetectionConfig) (a : Finding) :
  In a (detectTrendAnomalies data config)
  <-> ltb (numberOf (List.length data)) (minDataPoints config + 2) = false
      /\ exists k prev2 prev1 point,
           nth_error data k = Some prev2 /\ nth_error data (S k) = Some prev1
           /\ nth_error data (S (S k)) = Some point
           /\ let avgPrev := (value prev1 + value prev2) / 2 in
              let changePercentage := (value point - avgPrev) / avgPrev * 100 in
              eqb avgPrev 0 = false
              /\ gtb (Math_abs changePercentage) (50 / sensitivityLevel config) = true
              /\ a = {| dataPoint := point;
                        anomalyType := if gtb changePercentage 0 then spike else drop;
                        severity := getSeverity (Math_abs changePercentage)
                                      (sensitivityLevel config);
                        expectedValue := avgPrev;
                        deviationPercentage := Math_abs changePercentage |}.
Proof.
  unfold detectTrendAnomalies.
  destruct (ltb (numberOf (List.length data)) (minDataPoints config + 2)) eqn:Hshort.
  - split; [intros [] | intros [Hlen _]; discriminate].
  - rewrite trendLoop_In. split.
    + intros [k [x [y [z [Hx [Hy [Hz Hin]]]]]]]. split; [reflexivity |].
      exists k, x, y, z. apply checkTrend_In in Hin. cbv zeta. tauto.
    + intros [_ [k [x [y [z [Hx [Hy [Hz Hin]]]]]]]].
      exists k, x, y, z. rewrite checkTrend_In. cbv zeta in Hin. tauto.
Qed.

(** ** The merge and the rows *)

Lemma entries_In (findings : list Finding) (k : Z) (a : Finding) :
  In (k, a) (entriesOf findings) <-> In a findings /\ k = isoKey a.
Proof.
  unfold entriesOf. rewrite in_map_iff. split.
  - intros [b [[= <- <-] Hin]]. auto.
  - intros [Hin ->]. now exists a.
Qed.

(** A merged finding is the last one of the concatenation with its
    timestamp. *)
Lemma merged_In (data : list TimeSeriesDataPoint) (config : AnomalyDetectionConfig)
    (a : Finding) :
  In a (uniqueAnomalies data config)
  <-> lastWith Z.eqb (isoKey a)
        (entriesOf (detectOutliers data config ++ detectTrendAnomalies data config))
      = Some a.
Proof.
  unfold uniqueAnomalies, mapValues. rewrite in_map_iff. split.
  - intros [[k b] [Hb Hin]]. simpl in Hb. subst b.
    apply (newMap_In Z.eqb Z.eqb_eq) in Hin.
    pose proof (lastWith_Some Z.eqb Z.eqb_eq _ _ _ Hin) as Hmem.
    apply entries_In in Hmem. destruct Hmem as [_ ->]. assumption.
  - intros Hlast. exists (isoKey a, a). split; [reflexivity |].
    now apply (newMap_In Z.eqb Z.eqb_eq).
Qed.

Lemma merged_keys (data : list TimeSeriesDataPoint) (config : AnomalyDetectionConfig) :
  List.NoDup (map isoKey (uniqueAnomalies data config)).
Proof.
  assert (Hkeys : map isoKey (uniqueAnomalies data config)
                  = map fst (newMap Z.eqb
                               (entriesOf (detectOutliers data config
                                           ++ detectTrendAnomalies data config)))).
  { unfold uniqueAnomalies, mapValues. rewrite map_map. apply map_ext_in.
    intros [k a] Hin. simpl.
    apply (newMap_In Z.eqb Z.eqb_eq) in Hin.
    apply (lastWith_Some Z.eqb Z.eqb_eq), entries_In in Hin. now destruct Hin. }
  rewrite Hkeys. apply (newMap_NoDup Z.eqb Z.eqb_eq).
Qed.

Lemma entries_keys (findings : list Finding) (k : Z) :
  In k (map fst (entriesOf findings)) <-> exists b, In b findings /\ isoKey b = k.
Proof.
  unfold entriesOf. rewrite map_map. simpl. rewrite in_map_iff.
  split; intros [b Hb]; exists b; tauto.
Qed.

(** The merge on doubles is the merge over the reals, as it involves no
    arithmetic: at most one finding per timestamp, each from one of the
    passes, every flagged timestamp kept, and the finding of the trend
    pass kept where both flag. *)
Lemma merged_last_wins (data : list TimeSeriesDataPoint)
    (config : AnomalyDetectionConfig) :
  let outlierAnomalies := detectOutliers data config in
  let trendAnomalies := detectTrendAnomalies data config in
  let merged := uniqueAnomalies data config in
  List.NoDup (map isoKey merged)
  /\ (forall a, In a merged -> In a outlierAnomalies \/ In a trendAnomalies)
  /\ (forall a, In a outlierAnomalies \/ In a trendAnomalies ->
                exists b, In b merged /\ isoKey b = isoKey a)
  /\ (forall a, In a merged ->
                (exists b, In b trendAnomalies /\ isoKey b = isoKey a) ->
                In a trendAnomalies).
Proof.
  intros out tr merged. subst merged.
  split; [| split; [| split]].
  - apply merged_keys.
  - intros a Ha. apply merged_In in Ha.
    apply (lastWith_Some Z.eqb Z.eqb_eq), entries_In in Ha.
    destruct Ha as [Ha _]. now apply in_app_or in Ha.
  - intros a Ha.
    destruct (lastWith Z.eqb (isoKey a) (entriesOf (out ++ tr))) as [b |] eqn:Hlast.
    + pose proof (lastWith_Some Z.eqb Z.eqb_eq _ _ _ Hlast) as Hmem.
      apply entries_In in Hmem. destruct Hmem as [_ Hkey].
      exists b. split; [| now symmetry].
      apply merged_In. fold out tr. now rewrite <- Hkey.
    + apply (lastWith_None Z.eqb Z.eqb_eq) in Hlast. exfalso. apply Hlast.
      apply entries_keys. exists a. split; [| reflexivity].
      apply in_or_app. exact Ha.
  - intros a Ha [b [Hb Hkey]]. apply merged_In in Ha. fold out tr in Ha.
    unfold entriesOf in Ha. rewrite map_app in Ha. fold (entriesOf out) (entriesOf tr) in Ha.
    rewrite lastWith_app in Ha.
    destruct (lastWith Z.eqb (isoKey a) (entriesOf tr)) as [c |] eqn:Hlast.
    + injection Ha as ->.
      apply (lastWith_Some Z.eqb Z.eqb_eq), entries_In in Hlast. now destruct Hlast.
    + apply (lastWith_None Z.eqb Z.eqb_eq) in Hlast. exfalso. apply Hlast.
      apply entries_keys. now exists b.
Qed.

(** What every merged finding looks like. *)
Lemma merged_shape (data : list TimeSeriesDataPoint) (config : AnomalyDetectionConfig)
    (a : Finding) :
  In a (uniqueAnomalies data config) ->
  In (dataPoint a) data /\ anomalyType a <> outlier
  /\ ltb (deviationPercentage a) 0 = false.
Proof.
  intros Ha. apply merged_In in Ha.
  apply (lastWith_Some Z.eqb Z.eqb_eq), entries_In in Ha. destruct Ha as [Ha _].
  apply in_app_or in Ha. destruct Ha as [Hin | Hin].
  - apply detectOutliers_cases in Hin. destruct Hin as [_ [_ [point [Hpoint Hin]]]].
    apply checkOutlier_cases in Hin.
    destruct Hin as [-> [[Hty [_ [_ Hdev]]] | [Hty [_ [_ [_ [_ Hdev]]]]]]];
      rewrite Hty, Hdev; (split; [assumption |]); (split; [discriminate |]);
      apply Math_abs_not_negative.
  - now apply (detectTrendAnomalies_shape data config).
Qed.

(** ** The rows written *)

Section Rows.
Variable accepts : AnomalyResult -> bool.

(** The loop writes the rows up to the first one the database refuses,
    and is rejected with that one. *)
Lemma insertLoop_spec (tenantId eventType : string) (fullConfig : AnomalyDetectionConfig)
    (anomalies : list Finding) (table : list AnomalyResult) :
  let rows := map (resultOf tenantId eventType fullConfig) anomalies in
  insertLoop accepts tenantId eventType fullConfig anomalies table
  = (table ++ passingPrefix accepts rows,
     match List.find (fun r => negb (accepts r)) rows with
     | Some refused => Rejected refused
     | None => Fulfilled
     end).
Proof.
  cbv zeta. revert table.
  induction anomalies as [| a anomalies IH]; intros table; simpl.
  - now rewrite app_nil_r.
  - unfold insertAnomalyResult. simpl.
    change {| tenant_id := tenantId; event_type := eventType;
              detected_at := timestamp (dataPoint a);
              anomaly_type := anomalyType a; result_severity := severity a;
              metric_value := value (dataPoint a);
              expected_value := expectedValue a;
              deviation_percentage := deviationPercentage a;
              threshold_used := stddevThreshold fullConfig;
              metadata := {| md_count := count (dataPoint a);
                             detection_method := "statistical";
                             sensitivity_level := sensitivityLevel fullConfig |};
              acknowledged := false; acknowledged_by := None;
              acknowledged_at := None |}
      with (resultOf tenantId eventType fullConfig a).
    destruct (accepts (resultOf tenantId eventType fullConfig a)); simpl.
    + rewrite IH, <- app_assoc. reflexivity.
    + now rewrite app_nil_r.
Qed.

(** The rows of a call: the merged findings as rows, and none below
    [minDataPoints]; the call writes those of them that come before the
    first one the database refuses. *)
Lemma detectAnomalies_inserts (envSensitivity : float) (tenantId eventType : string)
    (data : list TimeSeriesDataPoint) (config : PartialConfig)
    (anomaly_results : list AnomalyResult) :
  let fullConfig := fullConfigOf envSensitivity config in
  let rows := if ltb (numberOf (List.length data)) (minDataPoints fullConfig) then []
              else map (resultOf tenantId eventType fullConfig)
                     (uniqueAnomalies data fullConfig) in
  detectAnomalies accepts envSensitivity tenantId eventType data config anomaly_results
  = (anomaly_results ++ passingPrefix accepts rows,
     match List.find (fun r => negb (accepts r)) rows with
     | Some refused => Rejected refused
     | None => Fulfilled
     end).
Proof.
  cbv zeta. unfold detectAnomalies.
  destruct (ltb (numberOf (List.length data))
              (minDataPoints (fullConfigOf envSensitivity config))).
  - simpl. now rewrite app_nil_r.
  - apply insertLoop_spec.
Qed.

(** The merged findings as rows. *)
Lemma mergedRows_shape (tenantId eventType : string) (data : list TimeSeriesDataPoint)
    (fullConfig : AnomalyDetectionConfig) :
  let rows := map (resultOf tenantId eventType fullConfig)
                (uniqueAnomalies data fullConfig) in
  List.NoDup (map detected_at rows)
  /\ (List.length rows <= List.length data)%nat
  /\ forall r, In r rows ->
       tenant_id r = tenantId /\ event_type r = eventType
       /\ anomaly_type r <> outlier
       /\ ltb (deviation_percentage r) 0 = false
       /\ threshold_used r = stddevThreshold fullConfig
       /\ sensitivity_level (metadata r) = sensitivityLevel fullConfig
       /\ detection_method (metadata r) = "statistical"
       /\ acknowledged r = false
       /\ exists point, In point data /\ detected_at r = timestamp point
                        /\ metric_value r = value point
                        /\ md_count (metadata r) = count point.
Proof.
  cbv zeta.
  assert (Hkeys : map detected_at
                    (map (resultOf tenantId eventType fullConfig)
                       (uniqueAnomalies data fullConfig))
                  = map isoKey (uniqueAnomalies data fullConfig)).
  { rewrite map_map. reflexivity. }
  pose proof (merged_keys data fullConfig) as Hnd.
  split; [now rewrite Hkeys |]. split.
  - rewrite <- (length_map detected_at), Hkeys, <- (length_map timestamp data).
    apply NoDup_incl_length; [assumption |].
    intros k Hk. apply in_map_iff in Hk. destruct Hk as [a [<- Ha]].
    change (isoKey a) with (timestamp (dataPoint a)). apply in_map.
    now apply (merged_shape data fullConfig).
  - intros r Hr. apply in_map_iff in Hr. destruct Hr as [a [<- Ha]].
    destruct (merged_shape data fullConfig a Ha) as [Hpoint [Htype Hdev]]. simpl.
    repeat (split; [first [reflexivity | assumption] |]).
    exists (dataPoint a). auto.
Qed.

(** X12.  What [detectAnomalies] writes.  The rows of a call are the
    merged findings, and none when the series is shorter than
    [minDataPoints].  They carry pairwise distinct timestamps, so there are
    at most as many as points in the series; each is about a point of the
    series, belongs to the tenant and event type given, is a spike or a
    drop (never an [outlier]), stores a deviation that is not below zero
    (it may be infinite or [NaN]) and the threshold and sensitivity of the
    configuration in force, and is unacknowledged.  The rows already
    stored are kept, in place; the rows of the call are appended in order
    up to the first one the database refuses, at which the call is
    rejected; when none is refused all are appended and the call is
    fulfilled. *)
Theorem detectAnomalies_rows (envSensitivity : float) (tenantId eventType : string)
    (data : list TimeSeriesDataPoint) (config : PartialConfig)
    (anomaly_results : list AnomalyResult) :
  let fullConfig := fullConfigOf envSensitivity config in
  let outcome := detectAnomalies accepts envSensitivity tenantId eventType data config
                   anomaly_results in
  exists rows,
    rows = (if ltb (numberOf (List.length data)) (minDataPoints fullConfig) then []
            else map (resultOf tenantId eventType fullConfig)
                   (uniqueAnomalies data fullConfig))
    /\ fst outcome = anomaly_results ++ passingPrefix accepts rows
    /\ snd outcome = match List.find (fun r => negb (accepts r)) rows with
                     | Some refused => Rejected refused
                     | None => Fulfilled
                     end
    /\ List.NoDup (map detected_at rows)
    /\ (List.length rows <= List.length data)%nat
    /\ forall r, In r rows ->
         tenant_id r = tenantId /\ event_type r = eventType
         /\ anomaly_type r <> outlier
         /\ ltb (deviation_percentage r) 0 = false
         /\ threshold_used r = stddevThreshold fullConfig
         /\ sensitivity_level (metadata r) = sensitivityLevel fullConfig
         /\ detection_method (metadata r) = "statistical"
         /\ acknowledged r = false
         /\ exists point, In point data /\ detected_at r = timestamp point
                          /\ metric_value r = value point
                          /\ md_count (metadata r) = count point.
Proof.
  intros fullConfig outcome. subst outcome. rewrite detectAnomalies_inserts.
  cbv zeta. fold fullConfig.
  eexists. split; [reflexivity |]. split; [reflexivity |]. split; [reflexivity |].
  destruct (ltb (numberOf (List.length data)) (minDataPoints fullConfig)).
  - simpl. split; [constructor |]. split; [lia |]. intros r [].
  - apply mergedRows_shape.
Qed.

End Rows.

End DoubleDetectorFacts.

Section DoubleDetectorExamples.
Import PrimFloat Anomaly Detector.
Local Open Scope float_scope.

(** Rounding decides a severity: after twelve points at three, a point at
    four is a third above the average before it; the change computed is
    just under [100 / 3] as computed, and the finding is [low] where exact
    arithmetic gives [medium]. *)
Example stepSeries_trend :
  detectTrendAnomalies stepSeries (DEFAULT_CONFIG 3)
  = [ {| dataPoint := pointAt 43200000 4; anomalyType := spike; severity := low;
         expectedValue := 3; deviationPercentage := (4 - 3) / 3 * 100 |} ]
  /\ ltb ((4 - 3) / 3 * 100) (100 / 3) = true.
Proof. split; reflexivity. Qed.

(** At sensitivity zero the bar of the trend pass is infinite, and
    nothing passes it. *)
Example stepSeries_zero_sensitivity :
  50 / 0 = infinity /\ detectTrendAnomalies stepSeries (DEFAULT_CONFIG 0) = [].
Proof. split; reflexivity. Qed.

(** A series with mean zero: the deviation of its spike is infinite, the
    database refuses the row, and the call is rejected. *)
Example zeroMeanSeries_rejected :
  let outcome := detectAnomalies (engine := reference) finiteDeviation 3 "acme" "purchase"
                   zeroMeanSeries noConfig [] in
  fst outcome = []
  /\ exists refused, snd outcome = Rejected refused
       /\ detected_at refused = 32400000%Z
       /\ anomaly_type refused = spike
       /\ deviation_percentage refused = infinity.
Proof.
  cbv zeta. split; [reflexivity |]. eexists. split; [reflexivity |].
  repeat split; reflexivity.
Qed.

(** The rows written before the refused one stay. *)
Example tinyAverageSeries_rejected :
  let outcome := detectAnomalies (engine := reference) finiteDeviation 3 "acme" "purchase"
                   tinyAverageSeries noConfig [] in
  map detected_at (fst outcome) = [36000000; 39600000; 43200000]%Z
  /\ exists refused, snd outcome = Rejected refused
       /\ detected_at refused = 46800000%Z
       /\ deviation_percentage refused = infinity.
Proof.
  cbv zeta. split; [reflexivity |]. eexists. split; [reflexivity |].
  split; reflexivity.
Qed.

(** Fourth scenario of the specification: below [minDataPoints] nothing
    is inserted. *)
Lemma detectAnomalies_short_series {engine : Engine} (accepts : AnomalyResult -> bool)
    (envSensitivity : float) (tenantId eventType : string)
    (data : list TimeSeriesDataPoint) (anomaly_results : list AnomalyResult) :
  (List.length data < 10)%nat ->
  detectAnomalies accepts envSensitivity tenantId eventType data noConfig anomaly_results
  = (anomaly_results, Fulfilled).
Proof.
  intros Hshort. unfold detectAnomalies. simpl.
  now rewrite (numberOf_below_ten _ Hshort).
Qed.

(** A series with a negative mean in doubles, as over the reals: at a
    threshold below zero the point under the mean is a spike of severity
    [medium], and at a sensitivity below zero the spike is [critical]. *)
Example negativeSeries_spikes :
  map (fun a => (value (dataPoint a), anomalyType a, severity a))
    (detectOutliers (engine := reference) negativeSeries (configOf 2 (-3)))
  = [(-3, spike, medium); (-1, spike, low)]
  /\ map (fun a => (value (dataPoint a), anomalyType a, severity a))
       (detectOutliers (engine := reference) negativeSeries
          {| sensitivityLevel := -1; minDataPoints := 2; stddevThreshold := 0.5 |})
     = [(-1, spike, critical)].
Proof. split; reflexivity. Qed.

End DoubleDetectorExamples.

(* ================================================================== *)
(** * Further properties: the detection action *)
(* ================================================================== *)

Section DetectionFacts.
Import Detector.
Context {rt : Runtime} {engine : Engine}.
Variable toDouble : R -> PrimFloat.float.
Variable accepts : AnomalyResult -> bool.

Lemma find_forallb {A : Type} (test : A -> bool) (l : list A) :
  forallb test l = match List.find (fun x => negb (test x)) l with
                   | Some _ => false
                   | None => true
                   end.
Proof.
  induction l as [| x l IH]; simpl; [reflexivity |].
  destruct (test x); simpl; [assumption | reflexivity].
Qed.

(** X30.  What [detectAnomaliesAction] writes.  Without a membership, or
    with a date that cannot be read, it fails and writes nothing.
    Otherwise the rows of the call are for the tenant and event type asked
    for: none when the window holds fewer than ten buckets, at most one
    per bucket, and each dated at the bucket start of an event of that
    tenant and type within the window.  They are appended in order up to
    the first one the database refuses; the action completes when none is
    refused, and fails otherwise, the rows before the refused one staying
    in the table. *)
Theorem detectAnomaliesAction_rows (envSensitivity : PrimFloat.float)
    (events : list Aggregation.AnalyticsEvent) (tenantAuth : option TenantAuthContext)
    (tenantId eventType startDate endDate : string)
    (period : Aggregation.AggregationPeriod)
    (anomaly_results : list AnomalyResult) :
  let outcome := detectAnomaliesAction toDouble accepts envSensitivity events tenantAuth
                   tenantId eventType startDate endDate period anomaly_results in
  ((tenantAuth = None \/ Date_parse startDate = None \/ Date_parse endDate = None)
   /\ outcome = (DetectionFailed "Failed to detect anomalies", anomaly_results))
  \/ exists startTime endTime rows,
       tenantAuth <> None
       /\ Date_parse startDate = Some startTime /\ Date_parse endDate = Some endTime
       /\ snd outcome = anomaly_results ++ passingPrefix accepts rows
       /\ fst outcome = (if forallb accepts rows
                         then DetectionCompleted "Anomaly detection completed"
                         else DetectionFailed "Failed to detect anomalies")
       /\ ((List.length
              (aggregateMetrics events
                 {| tenantId := tenantId; eventType := eventType;
                    startDate := startTime; endDate := endTime; period := period |})
            < 10)%nat -> rows = [])
       /\ List.NoDup (map detected_at rows)
       /\ forall r, In r rows ->
            tenant_id r = tenantId /\ event_type r = eventType
            /\ exists e, In e events
                 /\ Aggregation.tenant_id e = tenantId
                 /\ Aggregation.event_type e = eventType
                 /\ (startTime <= Aggregation.event_timestamp e <= endTime)%Z
                 /\ truncate period (Aggregation.event_timestamp e) = detected_at r.
Proof.
  cbv zeta. unfold detectAnomaliesAction.
  destruct tenantAuth as [auth |]; [| left; auto].
  destruct (Date_parse startDate) as [startTime |]; [| left; auto].
  destruct (Date_parse endDate) as [endTime |]; [| left; auto].
  right.
  set (options := {| tenantId := tenantId; eventType := eventType;
                     startDate := startTime; endDate := endTime; period := period |}).
  set (data := seriesOf toDouble (aggregateMetrics events options)).
  rewrite detectAnomalies_inserts. cbv zeta.
  set (fullConfig := fullConfigOf envSensitivity noConfig).
  set (rows := if PrimFloat.ltb (numberOf (List.length data)) (minDataPoints fullConfig)
               then []
               else map (resultOf tenantId eventType fullConfig)
                      (uniqueAnomalies data fullConfig)).
  exists startTime, endTime, rows.
  split; [discriminate |]. split; [reflexivity |]. split; [reflexivity |].
  split; [destruct (List.find _ rows); reflexivity |].
  split; [rewrite find_forallb; destruct (List.find _ rows); reflexivity |].
  assert (Hlength : List.length data = List.length (aggregateMetrics events options)).
  { unfold data, seriesOf. apply length_map. }
  pose proof (mergedRows_shape tenantId eventType data fullConfig) as Hshape.
  cbv zeta in Hshape. destruct Hshape as [Hnd [_ Hrows]].
  split; [| split].
  - intros Hshort. unfold rows. rewrite Hlength.
    pose proof (numberOf_below_ten _ Hshort) as Hbelow.
    change (PrimFloat.ltb (numberOf (List.length (aggregateMetrics events options)))
              (minDataPoints fullConfig) = true) in Hbelow.
    now rewrite Hbelow.
  - unfold rows. destruct (PrimFloat.ltb _ _); [constructor | assumption].
  - intros r Hr. unfold rows in Hr. destruct (PrimFloat.ltb _ _); [destruct Hr |].
    destruct (Hrows r Hr) as [Htenant [Htype [_ [_ [_ [_ [_ [_ Hpoint]]]]]]]].
    split; [assumption |]. split; [assumption |].
    destruct Hpoint as [point [Hpoint [Hat _]]].
    assert (Hstart : In (detected_at r)
                       (map Anomaly.timestamp (aggregateMetrics events options))).
    { rewrite Hat. unfold data, seriesOf in Hpoint. apply in_map_iff in Hpoint.
      destruct Hpoint as [p [<- Hp]]. simpl. now apply in_map. }
    rewrite aggregateMetrics_timestamps in Hstart.
    apply orderByStart_In, nodup_In, in_map_iff in Hstart.
    destruct Hstart as [e [Htrunc He]]. apply filter_In in He. destruct He as [He Hsel].
    unfold Aggregation.selects in Hsel. simpl in Hsel.
    rewrite !Bool.andb_true_iff, !String.eqb_eq, !Z.leb_le in Hsel.
    exists e. simpl in Htrunc. tauto.
Qed.

End DetectionFacts.

(* ================================================================== *)
(** * The severity of a deviation below zero, on doubles *)
(* ================================================================== *)

Section DoubleSeverity.
Import PrimFloat Anomaly Detector.
Local Open Scope float_scope.

Lemma binary_round_aux_sign (m e : Z) (l : SpecFloat.location) :
  notNegative (SpecFloat.binary_round_aux FloatOps.prec FloatOps.emax false m e l).
Proof.
  unfold SpecFloat.binary_round_aux.
  destruct (SpecFloat.shr_fexp FloatOps.prec FloatOps.emax m e l) as [mrs' e'].
  destruct (SpecFloat.shr_fexp FloatOps.prec FloatOps.emax _ e' SpecFloat.loc_Exact)
    as [mrs'' e''].
  destruct (SpecFloat.shr_m mrs''); simpl; [exact I | | exact I].
  destruct (Z.leb e'' (FloatOps.emax - FloatOps.prec)); exact I.
Qed.

(** The quotient and the product of two doubles above zero are not below
    zero. *)
Lemma div_sign (x y : float) :
  ltb 0 x = true -> ltb 0 y = true -> notNegative (FloatOps.Prim2SF (x / y)).
Proof.
  rewrite !FloatAxioms.ltb_spec, FloatAxioms.div_spec.
  change (FloatOps.Prim2SF 0) with (SpecFloat.S754_zero false).
  unfold FloatAxioms.SF64div.
  destruct (FloatOps.Prim2SF x) as [sx | sx | | sx mx ex];
    destruct (FloatOps.Prim2SF y) as [sy | sy | | sy my ey];
    try discriminate; try destruct sx; try destruct sy; try discriminate;
    intros _ _; try exact I.
  unfold SpecFloat.SFdiv.
  destruct (SpecFloat.SFdiv_core_binary _ _ _ _ _ _) as [[mz ez] lz].
  apply binary_round_aux_sign.
Qed.

Lemma mul_sign (x y : float) :
  notNegative (FloatOps.Prim2SF x) -> ltb 0 y = true ->
  notNegative (FloatOps.Prim2SF (x * y)).
Proof.
  rewrite FloatAxioms.ltb_spec, FloatAxioms.mul_spec.
  change (FloatOps.Prim2SF 0) with (SpecFloat.S754_zero false).
  unfold FloatAxioms.SF64mul.
  destruct (FloatOps.Prim2SF x) as [sx | sx | | sx mx ex];
    destruct (FloatOps.Prim2SF y) as [sy | sy | | sy my ey];
    try discriminate; try destruct sx; try destruct sy; try discriminate;
    simpl; intros Hx _; try exact I; try contradiction.
  apply binary_round_aux_sign.
Qed.

(** A double below zero is not at or above one that is not below zero. *)
Lemma geb_sign (x y : float) :
  ltb x 0 = true -> notNegative (FloatOps.Prim2SF y) -> geb x y = false.
Proof.
  unfold geb. rewrite FloatAxioms.ltb_spec, FloatAxioms.leb_spec.
  change (FloatOps.Prim2SF 0) with (SpecFloat.S754_zero false).
  destruct (FloatOps.Prim2SF x) as [sx | sx | | sx mx ex];
    destruct (FloatOps.Prim2SF y) as [sy | sy | | sy my ey];
    try discriminate; try destruct sx; try destruct sy; try discriminate;
    simpl; intros _ Hy; try reflexivity; try contradiction.
Qed.

(** On doubles as over the reals, a deviation below zero has severity
    [low] at every sensitivity above zero. *)
Lemma getSeverity_below_zero (deviation sensitivity : float) :
  ltb deviation 0 = true -> ltb 0 sensitivity = true ->
  getSeverity deviation sensitivity = low.
Proof.
  intros Hdev Hsens. unfold getSeverity.
  assert (Hbar : notNegative (FloatOps.Prim2SF (100 / sensitivity))).
  { apply div_sign; [reflexivity | assumption]. }
  rewrite (geb_sign deviation (100 / sensitivity * 3) Hdev)
    by (apply mul_sign; [assumption | reflexivity]).
  rewrite (geb_sign deviation (100 / sensitivity * 2) Hdev)
    by (apply mul_sign; [assumption | reflexivity]).
  now rewrite (geb_sign deviation (100 / sensitivity) Hdev).
Qed.

(** A spike of the outlier pass on doubles: its severity is taken from
    the signed deviation, the deviation stored is the absolute value, and
    the severity is [low] whenever the signed deviation is below zero and
    the sensitivity above. *)
Lemma detectOutliers_spike_severity {engine : Engine} (data : list TimeSeriesDataPoint)
    (config : AnomalyDetectionConfig) (a : Finding) :
  In a (detectOutliers data config) ->
  anomalyType a = spike ->
  let m := mean (calculateStatistics (map value data)) in
  let signed := (value (dataPoint a) - m) / m * 100 in
  severity a = getSeverity signed (sensitivityLevel config)
  /\ deviationPercentage a = Math_abs signed
  /\ (ltb signed 0 = true -> ltb 0 (sensitivityLevel config) = true ->
      severity a = low).
Proof.
  intros Hin Hspike. apply detectOutliers_cases in Hin. cbv zeta in Hin.
  destruct Hin as [_ [_ [point [_ Ha]]]]. apply checkOutlier_cases in Ha.
  destruct Ha as [Hpoint [[_ [_ [Hsev Hdev]]] | [Hdrop _]]]; [| congruence].
  subst point. cbv zeta. split; [assumption |]. split; [assumption |].
  intros Hneg Hsens. rewrite Hsev. now apply getSeverity_below_zero.
Qed.

End DoubleSeverity.

(* ================================================================== *)
(** * Flat series on doubles *)
(* ================================================================== *)

Section DoubleFlatSeries.
Import PrimFloat Anomaly Detector.
Context {engine : Engine}.
Local Open Scope float_scope.















End DoubleFlatSeries.

Section DoubleFlatExamples.
Import PrimFloat Anomaly Detector.
Local Open Scope float_scope.


Example levelSeries_statistics :
  let stats := calculateStatistics (engine := reference) (map value levelSeries) in
  mean stats = 100 /\ stddev stats = 0.
Proof. split; reflexivity. Qed.

End DoubleFlatExamples.
